(** * The canvas ruler of the screen editor
    ([src/views/screen/canvas-main/ruler/index.ts])

    A shallow embedding of the ruler module: the coordinate helpers
    [getPos] and [getDistanceByCoor], the tick drawing routine
    [drawPoints], the [GuideLine] class with its drag handler, and the
    [RulerBuilder] orchestration ([constructRuler], [constructGuide],
    [setSize], [setScale], [clearGuides], [destroy]).

    Numbers.  A JavaScript [number] is modelled by the rational it
    denotes ([Q]), and an operation by its exact result; the rounding of
    binary64 arithmetic and the sign of zero are not modelled.  On whole
    numbers (below [2^53]) the two agree: sums, differences and products
    of whole numbers are exact in binary64, and the quotient of two whole
    numbers, when it is rounded, is rounded to a number with the same
    floor.  On fractions they need not: [550 / 1.1] is
    [499.99999999999994] in binary64, whose floor is 499, and 500 here.
    The theorems on the coordinate of [getPos], on the labels of
    [drawPoints], on the tip of a guide and on the redrawing of the ruler
    are therefore stated for whole numbers.  The only operation of the
    module that leaves the finite numbers on finite operands is the
    division by [scale]; its result has type [jsnum], which adds the two
    infinities and NaN.

    The document.  DOM nodes live in a heap indexed by node identifiers;
    listeners are compared by the identity of the function object, as
    [removeEventListener] does; the single [document.onmousemove] slot is
    one field of the world.  What the browser computes from the style
    sheets ([offsetWidth], [offsetLeft], ...) is a parameter of the world. *)

From stdpp Require Import gmap strings list.
From Stdlib Require Import QArith Qabs Qround Qminmax Lqa ZArith Lia.

Open Scope Q_scope.

(** ** JavaScript numbers *)

Module Js.

Inductive jsnum : Type :=
  | Num (q : Q)
  | PosInf
  | NegInf
  | NaN.

(** [a / b] on finite operands: the quotient itself, which binary64 has
    exactly or rounds to a number with the same floor when [a] and [b] are
    whole numbers. *)
Definition div (a b : Q) : jsnum :=
  if Qeq_bool b 0 then
    if Qeq_bool a 0 then NaN
    else if Qle_bool 0 a then PosInf else NegInf
  else Num (a / b).

(** [Math.floor]. *)
Definition floor (n : jsnum) : jsnum :=
  match n with
  | Num q => Num (inject_Z (Qfloor q))
  | other => other
  end.

(** [n > b] for a finite right operand; every comparison with NaN is
    false. *)
Definition gt (n : jsnum) (b : Q) : bool :=
  match n with
  | Num q => negb (Qle_bool q b)
  | PosInf => true
  | NegInf => false
  | NaN => false
  end.

(** Truncation toward zero of a finite number. *)
Definition trunc (q : Q) : Z := Z.quot (Qnum q) (Zpos (Qden q)).

(** [a % b] for finite [a] and a non-zero [b]: what is left of [a] after
    the truncated quotient. *)
Definition rem (a b : Q) : Q := a - b * inject_Z (trunc (a / b)).

(** [Math.round] on a finite number: the nearest integer, a tie going
    up. *)
Definition round (q : Q) : Z := Qfloor (q + (1 # 2)).

(** [parseFloat(x.toFixed(3))] on a finite number.  [toFixed] picks the
    integer [n] for which [n / 1000] is nearest to [|x|], the larger one
    at a tie, and keeps the sign; from [1e21] on it prints the number
    itself. *)
Definition toFixed3 (x : Q) : Q :=
  if Qle_bool (inject_Z (10 ^ 21)) (Qabs x) then x
  else
    let n := Qfloor (Qabs x * 1000 + (1 # 2)) in
    if Qle_bool 0 x then inject_Z n / 1000 else - (inject_Z n / 1000).

(** A length written by [pixelize]: [val + 'px'], or the empty string of
    a style property that was never set. *)
Inductive css : Type :=
  | unset
  | px (val : Q).

(** [parseInt(s) || 0] on such a length: the integer part of the number
    (written in plain decimal digits, as every number between [1e-6] and
    [1e21] in absolute value is), and [0] for the empty string, whose
    [parseInt] is NaN. *)
Definition parseInt_or_0 (s : css) : Z :=
  match s with
  | unset => 0%Z
  | px val => trunc val
  end.

(** What [canvas.width] and [canvas.height], which are [unsigned long],
    keep of a number assigned to them: its integer part modulo [2^32] when
    that is at most [2^31 - 1], and the default of the attribute
    otherwise.  A negative size is read back as the default. *)
Definition unsigned_long_or (dflt : Z) (v : Q) : Z :=
  let n := (trunc v mod 2 ^ 32)%Z in
  if (n <=? 2147483647)%Z then n else dflt.

(** What [style.width] and [style.height] keep of a length assigned to
    them: a negative length is no value of these properties, and the
    assignment is dropped. *)
Definition size_or (old v : css) : css :=
  match v with
  | unset => unset
  | px val => if Qle_bool 0 val then v else old
  end.

End Js.

(** ** Options *)

Inductive LayoutDirection : Type := LR | TB.

Definition LayoutDirection_eqb (a b : LayoutDirection) : bool :=
  match a, b with
  | LR, LR | TB, TB => true
  | _, _ => false
  end.

Record RulerOption : Type := mkRulerOption {
  direction : LayoutDirection;
  rulerWidth : Q;
  rulerHeight : Q;
  bgColor : string;
  fontFamily : string;
  fontSize : string;
  fontColor : string;
  strokeStyle : string;
  lineWidth : Q;
  enableMouseTracking : bool;
  enableToolTip : bool;
  scale : Q;
  offset : Q;
  ratio : Q
}.

(** [Partial<RulerOption>]: every key may be absent. *)
Record PartialRulerOption : Type := mkPartial {
  p_direction : option LayoutDirection;
  p_rulerWidth : option Q;
  p_rulerHeight : option Q;
  p_bgColor : option string;
  p_fontFamily : option string;
  p_fontSize : option string;
  p_fontColor : option string;
  p_strokeStyle : option string;
  p_lineWidth : option Q;
  p_enableMouseTracking : option bool;
  p_enableToolTip : option bool;
  p_scale : option Q;
  p_offset : option Q;
  p_ratio : option Q
}.

(** The field initialiser of [RulerBuilder.options]. *)
Definition default_options : RulerOption := {|
  direction := TB;
  rulerWidth := 1000;
  rulerHeight := 20;
  bgColor := "#0e1013";
  fontFamily := "sans-serif";
  fontSize := "10px";
  fontColor := "#90a0ae";
  strokeStyle := "rgba(161, 174, 179, 0.8)";
  lineWidth := 1 # 2;
  enableMouseTracking := true;
  enableToolTip := true;
  scale := 1;
  offset := 40;
  ratio := 2
|}.

(** [{ ...base, ...over }] *)
Definition spread (base : RulerOption) (over : PartialRulerOption) : RulerOption := {|
  direction := default (direction base) (p_direction over);
  rulerWidth := default (rulerWidth base) (p_rulerWidth over);
  rulerHeight := default (rulerHeight base) (p_rulerHeight over);
  bgColor := default (bgColor base) (p_bgColor over);
  fontFamily := default (fontFamily base) (p_fontFamily over);
  fontSize := default (fontSize base) (p_fontSize over);
  fontColor := default (fontColor base) (p_fontColor over);
  strokeStyle := default (strokeStyle base) (p_strokeStyle over);
  lineWidth := default (lineWidth base) (p_lineWidth over);
  enableMouseTracking := default (enableMouseTracking base) (p_enableMouseTracking over);
  enableToolTip := default (enableToolTip base) (p_enableToolTip over);
  scale := default (scale base) (p_scale over);
  offset := default (offset base) (p_offset over);
  ratio := default (ratio base) (p_ratio over)
|}.

Definition set_scale (s : Q) (o : RulerOption) : RulerOption :=
  mkRulerOption (direction o) (rulerWidth o) (rulerHeight o) (bgColor o)
    (fontFamily o) (fontSize o) (fontColor o) (strokeStyle o) (lineWidth o)
    (enableMouseTracking o) (enableToolTip o) s (offset o) (ratio o).

Definition set_rulerWidth (v : Q) (o : RulerOption) : RulerOption :=
  mkRulerOption (direction o) v (rulerHeight o) (bgColor o)
    (fontFamily o) (fontSize o) (fontColor o) (strokeStyle o) (lineWidth o)
    (enableMouseTracking o) (enableToolTip o) (scale o) (offset o) (ratio o).

Definition set_rulerHeight (v : Q) (o : RulerOption) : RulerOption :=
  mkRulerOption (direction o) (rulerWidth o) v (bgColor o)
    (fontFamily o) (fontSize o) (fontColor o) (strokeStyle o) (lineWidth o)
    (enableMouseTracking o) (enableToolTip o) (scale o) (offset o) (ratio o).

(** ** The document *)

Record MouseEvent : Type := mkMouseEvent {
  clientX : Q;
  clientY : Q
}.

Inductive GuideMethod : Type := m_mousedown | m_stopMoving | m_dblclick.

Inductive BuilderMethod : Type := m_constructIndicator | m_constructGuide.

(** Function objects, as [addEventListener] and [removeEventListener]
    tell them apart.  The methods of [GuideLine] are passed as they stand
    on the prototype, one function object each; [f.bind(this)] makes a new
    function object at every evaluation, and so does every evaluation of
    the arrow functions [move] and [out] of [constructIndicator]. *)
Inductive Handler : Type :=
  | GuideLine_prototype (m : GuideMethod)
  | bound (m : BuilderMethod) (fn : nat)
  | indicator_move (fn : nat) (indicator indicatorValue : nat)
  | indicator_out (fn : nat) (indicator indicatorValue canvas : nat).

#[global] Instance GuideMethod_eq_dec : EqDecision GuideMethod.
Proof. solve_decision. Defined.

#[global] Instance BuilderMethod_eq_dec : EqDecision BuilderMethod.
Proof. solve_decision. Defined.

#[global] Instance Handler_eq_dec : EqDecision Handler.
Proof. solve_decision. Defined.

(** The text of [dataset.tip]: ['Y: ' + n + ' px'] or ['X: ' + n + ' px']. *)
Inductive Tip : Type :=
  | tip_Y (n : Z)
  | tip_X (n : Z).

(** What [innerHTML] and [textContent] are set to: the markup
    [<div class="line-action"><span class="line-value">coor</span></div>]
    of a guide, or the text [coor] of the indicator. *)
Inductive Content : Type :=
  | no_content
  | line_value (coor : Js.jsnum)
  | text (coor : Js.jsnum).

(** The calls made on a 2D rendering context, in order, since the bitmap
    was last cleared. *)
Inductive CtxCmd : Type :=
  | setTransform (a b c d e f : Q)
  | beginPath
  | closePath
  | set_fillStyle (s : string)
  | fillRect (x y w h : Q)
  | set_font (s : string)
  | set_textAlign (s : string)
  | set_strokeStyle (s : string)
  | set_lineWidth (v : Q)
  | moveTo (x y : Q)
  | lineTo (x y : Q)
  | fillText (label : Js.jsnum) (x y : Q)
  | stroke.

Record Node : Type := mkNode {
  tag : string;
  classes : list string;
  parentNode : option nat;
  childNodes : list nat;
  style_left : Js.css;
  style_top : Js.css;
  style_width : Js.css;
  style_height : Js.css;
  style_cursor : string;
  style_display : string;
  listeners : list (string * Handler);
  title : string;
  dataset_tip : option Tip;
  content : Content;
  canvas_width : Q;
  canvas_height : Q;
  drawn : list CtxCmd
}.

(** [document.createElement(tag)] *)
Definition new_node (t : string) : Node :=
  mkNode t [] None [] Js.unset Js.unset Js.unset Js.unset "" "" [] "" None
    no_content 300 150 [].

Definition with_classes (f : list string → list string) (n : Node) : Node :=
  mkNode (tag n) (f (classes n)) (parentNode n) (childNodes n) (style_left n)
    (style_top n) (style_width n) (style_height n) (style_cursor n)
    (style_display n) (listeners n) (title n) (dataset_tip n) (content n)
    (canvas_width n) (canvas_height n) (drawn n).

Definition with_parentNode (p : option nat) (n : Node) : Node :=
  mkNode (tag n) (classes n) p (childNodes n) (style_left n)
    (style_top n) (style_width n) (style_height n) (style_cursor n)
    (style_display n) (listeners n) (title n) (dataset_tip n) (content n)
    (canvas_width n) (canvas_height n) (drawn n).

Definition with_childNodes (f : list nat → list nat) (n : Node) : Node :=
  mkNode (tag n) (classes n) (parentNode n) (f (childNodes n)) (style_left n)
    (style_top n) (style_width n) (style_height n) (style_cursor n)
    (style_display n) (listeners n) (title n) (dataset_tip n) (content n)
    (canvas_width n) (canvas_height n) (drawn n).

Definition with_left (v : Js.css) (n : Node) : Node :=
  mkNode (tag n) (classes n) (parentNode n) (childNodes n) v
    (style_top n) (style_width n) (style_height n) (style_cursor n)
    (style_display n) (listeners n) (title n) (dataset_tip n) (content n)
    (canvas_width n) (canvas_height n) (drawn n).

Definition with_top (v : Js.css) (n : Node) : Node :=
  mkNode (tag n) (classes n) (parentNode n) (childNodes n) (style_left n)
    v (style_width n) (style_height n) (style_cursor n)
    (style_display n) (listeners n) (title n) (dataset_tip n) (content n)
    (canvas_width n) (canvas_height n) (drawn n).

Definition with_cursor (v : string) (n : Node) : Node :=
  mkNode (tag n) (classes n) (parentNode n) (childNodes n) (style_left n)
    (style_top n) (style_width n) (style_height n) v
    (style_display n) (listeners n) (title n) (dataset_tip n) (content n)
    (canvas_width n) (canvas_height n) (drawn n).

Definition with_display (v : string) (n : Node) : Node :=
  mkNode (tag n) (classes n) (parentNode n) (childNodes n) (style_left n)
    (style_top n) (style_width n) (style_height n) (style_cursor n)
    v (listeners n) (title n) (dataset_tip n) (content n)
    (canvas_width n) (canvas_height n) (drawn n).

Definition with_listeners (f : list (string * Handler) → list (string * Handler))
    (n : Node) : Node :=
  mkNode (tag n) (classes n) (parentNode n) (childNodes n) (style_left n)
    (style_top n) (style_width n) (style_height n) (style_cursor n)
    (style_display n) (f (listeners n)) (title n) (dataset_tip n) (content n)
    (canvas_width n) (canvas_height n) (drawn n).

Definition with_title (v : string) (n : Node) : Node :=
  mkNode (tag n) (classes n) (parentNode n) (childNodes n) (style_left n)
    (style_top n) (style_width n) (style_height n) (style_cursor n)
    (style_display n) (listeners n) v (dataset_tip n) (content n)
    (canvas_width n) (canvas_height n) (drawn n).

Definition with_tip (v : Tip) (n : Node) : Node :=
  mkNode (tag n) (classes n) (parentNode n) (childNodes n) (style_left n)
    (style_top n) (style_width n) (style_height n) (style_cursor n)
    (style_display n) (listeners n) (title n) (Some v) (content n)
    (canvas_width n) (canvas_height n) (drawn n).

Definition with_content (v : Content) (n : Node) : Node :=
  mkNode (tag n) (classes n) (parentNode n) (childNodes n) (style_left n)
    (style_top n) (style_width n) (style_height n) (style_cursor n)
    (style_display n) (listeners n) (title n) (dataset_tip n) v
    (canvas_width n) (canvas_height n) (drawn n).

(** The four assignments of [createCanvas]: the bitmap size and the CSS
    size.  The bitmap size is kept as an [unsigned long], 300 by 150 by
    default, and the CSS size only if it is not negative.  Assigning the
    size of a canvas clears its bitmap and resets its context, so [drawn]
    starts again. *)
Definition with_size (w h : Q) (sw sh : Js.css) (n : Node) : Node :=
  mkNode (tag n) (classes n) (parentNode n) (childNodes n) (style_left n)
    (style_top n) (Js.size_or (style_width n) sw) (Js.size_or (style_height n) sh)
    (style_cursor n)
    (style_display n) (listeners n) (title n) (dataset_tip n) (content n)
    (inject_Z (Js.unsigned_long_or 300 w)) (inject_Z (Js.unsigned_long_or 150 h)) [].

Definition with_drawn (cmds : list CtxCmd) (n : Node) : Node :=
  mkNode (tag n) (classes n) (parentNode n) (childNodes n) (style_left n)
    (style_top n) (style_width n) (style_height n) (style_cursor n)
    (style_display n) (listeners n) (title n) (dataset_tip n) (content n)
    (canvas_width n) (canvas_height n) (drawn n ++ cmds).

(** What layout gives for a node. *)
Record Box : Type := mkBox {
  offsetWidth : Z;
  offsetHeight : Z;
  offsetLeft : Z;
  offsetTop : Z
}.

(** A [GuideLine] object.  Its [options] field is the options object of
    the builder itself, shared and not copied (line 344), so it is read
    from the builder whenever the guide uses it. *)
Record GuideLine : Type := mkGuideLine {
  g_el : nat;
  guideLine : nat;
  g_event : MouseEvent;
  dragContainer : option nat
}.

(** The arrow function that [startMoving] assigns to
    [document.onmousemove], with what it captured. *)
Record Drag : Type := mkDrag {
  d_this : GuideLine;
  diffX : Q;
  diffY : Q;
  cWi : Z;
  cHe : Z;
  eWi : Z;
  eHe : Z
}.

Record Ruler : Type := mkRuler {
  orgPos : Q;
  thickness : Q;
  width : Q;
  height : Q
}.

Record RulerBuilder : Type := mkRulerBuilder {
  el : nat;
  canvas : option nat;
  indicator : option nat;
  indicatorValue : option nat;
  indicatorLineWidth : Q;
  ruler : Ruler;
  guides : list GuideLine;
  options : RulerOption
}.

(** The world: the nodes of the document, the count of the function
    objects made so far by [bind] and by the arrow functions of
    [constructIndicator], the layout, [document.onmousemove], and the one
    [RulerBuilder] object. *)
Record World : Type := mkWorld {
  heap : gmap nat Node;
  next_fn : nat;
  layout : nat → Box;
  onmousemove : option Drag;
  this : RulerBuilder
}.

Definition with_heap (f : gmap nat Node → gmap nat Node) (w : World) : World :=
  mkWorld (f (heap w)) (next_fn w) (layout w) (onmousemove w) (this w).

Definition with_next_fn (f : nat → nat) (w : World) : World :=
  mkWorld (heap w) (f (next_fn w)) (layout w) (onmousemove w) (this w).

Definition with_onmousemove (d : option Drag) (w : World) : World :=
  mkWorld (heap w) (next_fn w) (layout w) d (this w).

Definition with_this (f : RulerBuilder → RulerBuilder) (w : World) : World :=
  mkWorld (heap w) (next_fn w) (layout w) (onmousemove w) (f (this w)).

Definition with_ruler (r : Ruler) (b : RulerBuilder) : RulerBuilder :=
  mkRulerBuilder (el b) (canvas b) (indicator b) (indicatorValue b)
    (indicatorLineWidth b) r (guides b) (options b).

Definition with_canvas (c : nat) (b : RulerBuilder) : RulerBuilder :=
  mkRulerBuilder (el b) (Some c) (indicator b) (indicatorValue b)
    (indicatorLineWidth b) (ruler b) (guides b) (options b).

Definition with_indicator (i v : nat) (b : RulerBuilder) : RulerBuilder :=
  mkRulerBuilder (el b) (canvas b) (Some i) (Some v)
    (indicatorLineWidth b) (ruler b) (guides b) (options b).

Definition with_guides (gs : list GuideLine) (b : RulerBuilder) : RulerBuilder :=
  mkRulerBuilder (el b) (canvas b) (indicator b) (indicatorValue b)
    (indicatorLineWidth b) (ruler b) gs (options b).

Definition with_options (f : RulerOption → RulerOption) (b : RulerBuilder) : RulerBuilder :=
  mkRulerBuilder (el b) (canvas b) (indicator b) (indicatorValue b)
    (indicatorLineWidth b) (ruler b) (guides b) (f (options b)).

(** ** Computations on the world that may throw *)

Inductive exn : Type :=
  | TypeError (msg : string).

Inductive result (A : Type) : Type :=
  | Ok (a : A) (w : World)
  | Throw (e : exn) (w : World).

Arguments Ok {A} a w.
Arguments Throw {A} e w.

Definition M (A : Type) : Type := World → result A.

Definition ret {A} (a : A) : M A := fun w => Ok a w.

Definition bind {A B} (m : M A) (k : A → M B) : M B :=
  fun w =>
    match m w with
    | Ok a w' => k a w'
    | Throw e w' => Throw e w'
    end.

Definition throw {A} (e : exn) : M A := fun w => Throw e w.

Definition gets {A} (f : World → A) : M A := fun w => Ok (f w) w.

Definition modify (f : World → World) : M unit := fun w => Ok tt (f w).

Notation "'let*' x ':=' m 'in' k" := (bind m (fun x => k))
  (at level 10, x name, m at level 100, k at level 200).

Notation "m ';;;' k" := (bind m (fun _ => k))
  (at level 100, k at level 200, right associativity).

(** The world an outcome leaves behind, whether it returned or threw. *)
Definition world_of {A} (r : result A) : World :=
  match r with
  | Ok _ w => w
  | Throw _ w => w
  end.

Fixpoint forEach {A} (f : A → M unit) (l : list A) : M unit :=
  match l with
  | [] => ret tt
  | x :: l' => f x ;;; forEach f l'
  end.

(** ** DOM primitives *)

Module Dom.

(** Identifiers held by the program always denote nodes of the heap; the
    reading of an identifier outside the heap is that of a new [div]. *)
Definition node (i : nat) (w : World) : Node :=
  default (new_node "div") (heap w !! i).

Definition update (i : nat) (f : Node → Node) : M unit :=
  modify (fun w => with_heap (insert i (f (node i w))) w).

Definition createElement (t : string) : M nat :=
  fun w =>
    let i := fresh (dom (heap w)) in
    Ok i (with_heap (insert i (new_node t)) w).

(** Modelled from the spec: the class toggling utility of [@/utils/dom],
    which is not part of the sources: [addClass] marks a node with a
    class, [removeClass] takes the mark away. *)
Definition add_class (c : string) (cs : list string) : list string :=
  if decide (c ∈ cs) then cs else cs ++ [c].

(** Modelled from the spec: the same utility, taking a class away. *)
Definition remove_class (c : string) (cs : list string) : list string :=
  filter (fun c' => c' ≠ c) cs.

(** Modelled from the spec: [addClass(node, c)] of [@/utils/dom]. *)
Definition addClass (i : nat) (c : string) : M unit :=
  update i (with_classes (add_class c)).

(** Modelled from the spec: [removeClass(node, c)] of [@/utils/dom]. *)
Definition removeClass (i : nat) (c : string) : M unit :=
  update i (with_classes (remove_class c)).

(** A listener is added once per type and function object, and removed
    by type and function object. *)
Definition add_listener (l : string * Handler) (ls : list (string * Handler)) :
    list (string * Handler) :=
  if decide (l ∈ ls) then ls else ls ++ [l].

Definition remove_listener (l : string * Handler) (ls : list (string * Handler)) :
    list (string * Handler) :=
  filter (fun l' => l' ≠ l) ls.

Definition addEventListener (i : nat) (type : string) (h : Handler) : M unit :=
  update i (with_listeners (add_listener (type, h))).

Definition removeEventListener (i : nat) (type : string) (h : Handler) : M unit :=
  update i (with_listeners (remove_listener (type, h))).

(** Taking a node out of its parent, if it has one: [node.remove()], and
    [node.parentNode && node.parentNode.removeChild(node)]. *)
Definition remove (i : nat) : M unit :=
  let* n := gets (node i) in
  match parentNode n with
  | None => ret tt
  | Some p =>
      update p (with_childNodes (filter (fun c => c ≠ i))) ;;;
      update i (with_parentNode None)
  end.

(** [p.appendChild(i)]: the node leaves its former parent and becomes the
    last child of [p]. *)
Definition appendChild (p i : nat) : M unit :=
  remove i ;;;
  update p (with_childNodes (fun cs => cs ++ [i])) ;;;
  update i (with_parentNode (Some p)).

(** The nodes [ids] and all that is below them, in tree order. *)
Fixpoint descendants (fuel : nat) (h : gmap nat Node) (ids : list nat) : list nat :=
  match fuel with
  | O => []
  | S fuel' =>
      flat_map
        (fun i => i :: descendants fuel' h
                        (childNodes (default (new_node "div") (h !! i))))
        ids
  end.

(** [i.querySelector('.' + c)]: the first descendant that carries the
    class.  A tree of the heap is no deeper than the heap is large. *)
Definition select (i : nat) (c : string) (w : World) : option nat :=
  List.find (fun j => bool_decide (c ∈ classes (node j w)))
    (descendants (size (heap w)) (heap w) (childNodes (node i w))).

Definition querySelector (i : nat) (c : string) : M (option nat) :=
  gets (select i c).

Definition parentElement (i : nat) : M (option nat) :=
  gets (fun w => parentNode (node i w)).

Definition box (i : nat) : M Box := gets (fun w => layout w i).

(** Calls on the 2D context of canvas [i]. *)
Definition draw (i : nat) (cmds : list CtxCmd) : M unit :=
  update i (with_drawn cmds).

End Dom.

(** ** The source *)

Definition pixelize (val : Q) : Js.css := Js.px val.

(** *** class GuideLine *)

Module GuideLine.

Definition showToolTip (g : GuideLine) : M unit :=
  let* o := gets (fun w => options (this w)) in
  if negb (enableToolTip o) then ret tt
  else Dom.addClass (guideLine g) "rul_tooltip".

Definition updateToolTip (g : GuideLine) (x y : Q) : M unit :=
  let* o := gets (fun w => options (this w)) in
  if negb (Qeq_bool y 0) then
    Dom.update (guideLine g)
      (with_tip (tip_Y (Js.round ((y - rulerHeight o - 1 - offset o) * scale o))))
  else
    Dom.update (guideLine g)
      (with_tip (tip_X (Js.round ((x - rulerHeight o - 1 - offset o) * scale o)))).

Definition hideToolTip (g : GuideLine) : M unit :=
  Dom.removeClass (guideLine g) "rul_tooltip".

(** The position the drag handler gives the guide on one axis:
    [Math.min(Math.max(client - diff, 0), c - e)]. *)
Definition clamp (client diff : Q) (c e : Z) : Q :=
  Qmin (Qmax (client - diff) 0) (inject_Z c - inject_Z e).

(** The body of the function assigned to [document.onmousemove]. *)
Definition mousemove (d : Drag) (evt : MouseEvent) : M unit :=
  let aX := clamp (clientX evt) (diffX d) (cWi d) (eWi d) in
  let aY := clamp (clientY evt) (diffY d) (cHe d) (eHe d) in
  Dom.update (guideLine (d_this d)) (with_left (pixelize aX)) ;;;
  Dom.update (guideLine (d_this d)) (with_top (pixelize aY)) ;;;
  updateToolTip (d_this d) aX aY.

Definition startMoving (g : GuideLine) (e : MouseEvent) : M unit :=
  Dom.addClass (guideLine g) "rul_line_dragged" ;;;
  let* n := gets (Dom.node (guideLine g)) in
  let divTop := Js.parseInt_or_0 (style_top n) in
  let divLeft := Js.parseInt_or_0 (style_left n) in
  let* gbox := Dom.box (guideLine g) in
  match dragContainer g with
  | None => throw (TypeError "Cannot read properties of null (reading 'offsetWidth')")
  | Some c =>
      let* cbox := Dom.box c in
      let* o := gets (fun w => options (this w)) in
      let cursor := if LayoutDirection_eqb (direction o) TB
                    then "ns-resize" else "ew-resize" in
      Dom.update (g_el g) (with_cursor cursor) ;;;
      Dom.update (guideLine g) (with_cursor cursor) ;;;
      let d := {| d_this := g;
                  diffX := clientX e - inject_Z divLeft;
                  diffY := clientY e - inject_Z divTop;
                  cWi := offsetWidth cbox; cHe := offsetHeight cbox;
                  eWi := offsetWidth gbox; eHe := offsetHeight gbox |} in
      modify (with_onmousemove (Some d)) ;;;
      showToolTip g
  end.

Definition stopMoving (g : GuideLine) : M unit :=
  Dom.update (g_el g) (with_cursor "") ;;;
  Dom.update (guideLine g) (with_cursor "") ;;;
  modify (with_onmousemove None) ;;;
  hideToolTip g ;;;
  Dom.removeClass (guideLine g) "rul_line_dragged".

Definition show (g : GuideLine) : M unit :=
  Dom.update (guideLine g) (with_display "block").

Definition hide (g : GuideLine) : M unit :=
  Dom.update (guideLine g) (with_display "none").

Definition destroy (g : GuideLine) : M unit :=
  stopMoving g ;;;
  Dom.removeEventListener (guideLine g) "mousedown" (GuideLine_prototype m_mousedown) ;;;
  Dom.removeEventListener (guideLine g) "mouseup" (GuideLine_prototype m_stopMoving) ;;;
  Dom.removeEventListener (guideLine g) "dblclick" (GuideLine_prototype m_dblclick) ;;;
  Dom.remove (guideLine g).

(** [new GuideLine(el, guideLine, options, event)] *)
Definition new (el guideLine : nat) (event : MouseEvent) : M GuideLine :=
  let* dragContainer := Dom.querySelector el "ruler-wrapper" in
  let g := mkGuideLine el guideLine event dragContainer in
  Dom.addEventListener guideLine "mousedown" (GuideLine_prototype m_mousedown) ;;;
  Dom.addEventListener guideLine "mouseup" (GuideLine_prototype m_stopMoving) ;;;
  Dom.addEventListener guideLine "dblclick" (GuideLine_prototype m_dblclick) ;;;
  startMoving g event ;;;
  ret g.

End GuideLine.

(** A [mousemove] event reaching the document: the handler in
    [document.onmousemove], if there is one, runs. *)
Definition document_mousemove (evt : MouseEvent) : M unit :=
  let* h := gets onmousemove in
  match h with
  | None => ret tt
  | Some d => GuideLine.mousemove d evt
  end.

(** *** createCanvas *)

Definition createCanvas (el : option nat) (width height ratio : Q) : M nat :=
  let* canvas := match el with
                 | Some c => ret c
                 | None => Dom.createElement "canvas"
                 end in
  Dom.update canvas
    (with_size (width * ratio) (height * ratio) (pixelize width) (pixelize height)) ;;;
  Dom.draw canvas [setTransform ratio 0 0 ratio 0 0] ;;;
  ret canvas.

(** *** class RulerBuilder *)

Module RulerBuilder.

Record Pos : Type := mkPos {
  coor : Js.jsnum;
  distance : Q
}.

(** The positions the loop of [drawPoints] visits:
    [for (let pos = 0; pos <= width; pos += 1)]. *)
Definition positions (width : Q) : list Z :=
  map Z.of_nat (seq 0 (Z.to_nat (Qfloor width + 1))).

(** One turn of the loop of [drawPoints]. *)
Definition drawPoint (height offset scale : Q) (pos : Q) : list CtxCmd :=
  let maxTickLen := 0 in
  let medTickLen := height / (3 # 2) in
  let minTickLen := height / (6 # 5) in
  let delta := pos - offset in
  if negb (Qle_bool 0 delta) then []
  else
    let '(label, tickLen) :=
      if Qeq_bool (Js.rem delta 50) 0 then
        (Js.floor (Js.div delta scale), maxTickLen)
      else if Qeq_bool (Js.rem delta 25) 0 then
        (Js.Num (-1), medTickLen)
      else if Qeq_bool (Js.rem delta 5) 0 then
        (Js.Num (-1), minTickLen)
      else (Js.Num (-1), -1) in
    if Qle_bool 0 tickLen then
      [moveTo (pos + (1 # 2)) (height + (1 # 2)); lineTo (pos + (1 # 2)) tickLen]
      ++ (if Js.gt label (-1)
          then [fillText label (pos + (5 # 2)) (height / (3 # 2))]
          else [])
    else [].

Definition drawPoints (r : Ruler) (o : RulerOption) : list CtxCmd :=
  flat_map (fun pos => drawPoint (height r) (offset o) (scale o) (inject_Z pos))
    (positions (width r)).

Definition drawRuler : M unit :=
  let* b := gets this in
  let o := options b in
  let r := ruler b in
  match canvas b with
  | None => throw (TypeError "Cannot read properties of undefined (reading 'beginPath')")
  | Some ctx =>
      Dom.draw ctx
        ([beginPath; set_fillStyle (bgColor o);
          fillRect 0 0 (width r) (height r); closePath;
          beginPath; set_font (fontSize o ++ " " ++ fontFamily o);
          set_textAlign "left"; set_fillStyle (fontColor o);
          set_strokeStyle (strokeStyle o); set_lineWidth (lineWidth o)]
         ++ drawPoints r o ++ [stroke])
  end.

(** The width of the ruler, as [constructRuler] and [setSize] compute it. *)
Definition ruler_width : M Q :=
  let* b := gets this in
  let* ebox := Dom.box (el b) in
  ret (if LayoutDirection_eqb (direction (options b)) TB
       then Qmax (inject_Z (offsetWidth ebox)) (rulerWidth (options b))
       else Qmax (inject_Z (offsetHeight ebox)) (rulerWidth (options b))).

Definition getPos (e : MouseEvent) : M Pos :=
  let* b := gets this in
  let o := options b in
  let* parent := Dom.parentElement (el b) in
  let* pbox := match parent with
               | Some p => Dom.box p
               | None => ret (mkBox 0 0 0 0)
               end in
  let distance :=
    if LayoutDirection_eqb (direction o) TB
    then clientX e - inject_Z (offsetLeft pbox)
    else clientY e - inject_Z (offsetTop pbox) in
  let distance := distance - rulerHeight o + indicatorLineWidth b in
  let coor := Js.floor (Js.div (distance - offset o) (scale o)) in
  ret (mkPos coor distance).

Definition getDistanceByCoor (coor : Q) : M Q :=
  let* o := gets (fun w => options (this w)) in
  ret (Js.toFixed3 (coor * scale o + offset o)).

(** [f.bind(this)]: a function object that did not exist before. *)
Definition bind_this (m : BuilderMethod) : M Handler :=
  fun w => Ok (bound m (next_fn w)) (with_next_fn S w).

Definition constructRuler : M unit :=
  let* b := gets this in
  let o := options b in
  let* width := ruler_width in
  let height := rulerHeight o in
  modify (with_this (fun b => with_ruler
    (mkRuler (orgPos (ruler b)) (thickness (ruler b)) width height) b)) ;;;
  let* canvas := createCanvas None width height (ratio o) in
  Dom.addClass canvas "canvas-ruler" ;;;
  Dom.appendChild (el b) canvas ;;;
  modify (with_this (with_canvas canvas)) ;;;
  drawRuler ;;;
  let* h1 := bind_this m_constructIndicator in
  Dom.addEventListener canvas "mouseenter" h1 ;;;
  let* h2 := bind_this m_constructGuide in
  Dom.addEventListener canvas "mousedown" h2.

(** [new RulerBuilder(container, options)]: the field initialisers, then
    the body of the constructor. *)
Definition new (container : nat) (opts : PartialRulerOption) : M unit :=
  modify (with_this (fun _ =>
    {| el := container; canvas := None; indicator := None;
       indicatorValue := None; indicatorLineWidth := 1;
       ruler := mkRuler 0 0 0 0; guides := [];
       options := spread default_options opts |})) ;;;
  constructRuler.

(** The two statements that close the method in the source,
    [const guideLine = new GuideLine(el, guide, options, e)] and
    [this.guides.push(guideLine)], are commented out there (lines 344 and
    345), and so have no counterpart here. *)
Definition constructGuide (e : MouseEvent) : M unit :=
  let* b := gets this in
  let o := options b in
  let* guide := Dom.createElement "div" in
  Dom.update guide (with_title "双击删除参考线") ;;;
  Dom.addClass guide "ruler-line" ;;;
  let* pos := getPos e in
  (if LayoutDirection_eqb (direction o) TB
   then Dom.update guide (with_left (pixelize (distance pos)))
   else Dom.update guide (with_top (pixelize (distance pos)))) ;;;
  Dom.update guide (with_content (line_value (coor pos))) ;;;
  let* found := Dom.querySelector (el b) "lines-wrapper" in
  let* guideWp := match found with
                  | Some wp => ret wp
                  | None =>
                      let* wp := Dom.createElement "div" in
                      Dom.addClass wp "lines-wrapper" ;;;
                      Dom.appendChild (el b) wp ;;;
                      ret wp
                  end in
  Dom.appendChild guideWp guide.

Definition constructIndicator : M unit :=
  let* b := gets this in
  let* indicator := Dom.createElement "div" in
  let* indicatorValue := Dom.createElement "span" in
  Dom.addClass indicator "ruler-indicator" ;;;
  Dom.addClass indicatorValue "indicator-value" ;;;
  Dom.appendChild indicator indicatorValue ;;;
  modify (with_this (with_indicator indicator indicatorValue)) ;;;
  Dom.appendChild (el b) indicator ;;;
  let* fn := fun w => Ok (next_fn w) (with_next_fn S w) in
  match canvas b with
  | None => throw (TypeError "Cannot read properties of undefined (reading 'addEventListener')")
  | Some canvas =>
      Dom.addEventListener canvas "mousemove"
        (indicator_move fn indicator indicatorValue) ;;;
      Dom.addEventListener canvas "mouseout"
        (indicator_out fn indicator indicatorValue canvas)
  end.

Definition setSize (w h s : Q) : M unit :=
  modify (with_this (with_options (set_rulerWidth w))) ;;;
  modify (with_this (with_options (set_rulerHeight h))) ;;;
  modify (with_this (with_options (set_scale s))) ;;;
  let* b := gets this in
  let o := options b in
  let* width := ruler_width in
  let height := rulerHeight o in
  modify (with_this (fun b => with_ruler
    (mkRuler (orgPos (ruler b)) (thickness (ruler b)) width height) b)) ;;;
  createCanvas (canvas b) width height (ratio o) ;;;
  drawRuler.

Definition setScale (scale : Q) : M unit :=
  modify (with_this (with_options (set_scale scale))) ;;;
  drawRuler.

Definition toggleGuide (visible : bool) : M unit :=
  let* gs := gets (fun w => guides (this w)) in
  forEach (fun guide => if visible then GuideLine.show guide else GuideLine.hide guide) gs.

Definition clearGuides : M unit :=
  let* gs := gets (fun w => guides (this w)) in
  forEach GuideLine.destroy gs ;;;
  modify (with_this (with_guides [])).

Definition destroy : M unit :=
  let* b := gets this in
  clearGuides ;;;
  match canvas b with
  | None => throw (TypeError "Cannot read properties of undefined (reading 'removeEventListener')")
  | Some canvas =>
      let* h1 := bind_this m_constructIndicator in
      Dom.removeEventListener canvas "mouseenter" h1 ;;;
      let* h2 := bind_this m_constructGuide in
      Dom.removeEventListener canvas "mousedown" h2 ;;;
      Dom.remove (el b)
  end.

End RulerBuilder.

(** ** Events *)

(** The call of a listener on the node [target].  A bound method runs on
    the builder; a method of [GuideLine] taken off the prototype runs with
    the node as its [this], which has none of the fields and methods of a
    [GuideLine]. *)
Definition call (h : Handler) (target : nat) (e : MouseEvent) : M unit :=
  match h with
  | bound m_constructIndicator _ => RulerBuilder.constructIndicator
  | bound m_constructGuide _ => RulerBuilder.constructGuide e
  | indicator_move _ indicator indicatorValue =>
      let* pos := RulerBuilder.getPos e in
      Dom.update indicator (with_left (pixelize (RulerBuilder.distance pos))) ;;;
      Dom.update indicatorValue (with_content (text (RulerBuilder.coor pos)))
  | indicator_out fn indicator indicatorValue canvas =>
      Dom.remove indicator ;;;
      Dom.removeEventListener canvas "mousemove"
        (indicator_move fn indicator indicatorValue) ;;;
      Dom.removeEventListener canvas "mouseout"
        (indicator_out fn indicator indicatorValue canvas)
  | GuideLine_prototype m_mousedown =>
      throw (TypeError "this.startMoving is not a function")
  | GuideLine_prototype m_stopMoving =>
      throw (TypeError "Cannot read properties of undefined (reading 'style')")
  | GuideLine_prototype m_dblclick =>
      throw (TypeError "this.destroy is not a function")
  end.

(** An event of type [type] on the node [target]: its listeners of that
    type run in the order they were added; one that was removed meanwhile
    is skipped, and one that throws does not stop the others.  No
    listener of the module sits on an ancestor of the canvas or of a
    guide, so the way up the tree is left out. *)
Definition dispatchEvent (target : nat) (type : string) (e : MouseEvent) : M unit :=
  let* n := gets (Dom.node target) in
  forEach
    (fun l : string * Handler =>
       if decide (l.1 = type) then
         fun w =>
           if decide (l ∈ listeners (Dom.node target w))
           then Ok tt (world_of (call l.2 target e w))
           else Ok tt w
       else ret tt)
    (listeners n).

(** ** The coordinate mapping as the specification words it *)

(** The position of the pointer along the axis of the ruler, relative to
    the parent of the container: what [getPos] starts from. *)
Definition devicePos (e : MouseEvent) (w : World) : Q :=
  let b := this w in
  let pbox := match parentNode (Dom.node (el b) w) with
              | Some p => layout w p
              | None => mkBox 0 0 0 0
              end in
  if LayoutDirection_eqb (direction (options b)) TB
  then clientX e - inject_Z (offsetLeft pbox)
  else clientY e - inject_Z (offsetTop pbox).

(** A pointer event at device position [x] on both axes. *)
Definition pointer_at (x : Q) (w : World) : MouseEvent :=
  let pbox := match parentNode (Dom.node (el (this w)) w) with
              | Some p => layout w p
              | None => mkBox 0 0 0 0
              end in
  mkMouseEvent (x + inject_Z (offsetLeft pbox)) (x + inject_Z (offsetTop pbox)).

(** [toLogical] of the specification, run on the code: the coordinate
    [getPos] reports for a pointer at device position [x]. *)
Definition toLogical (x : Q) (w : World) : Js.jsnum :=
  match RulerBuilder.getPos (pointer_at x w) w with
  | Ok p _ => RulerBuilder.coor p
  | Throw _ _ => Js.NaN
  end.

(** [toDevice] of the specification, run on the code. *)
Definition toDevice (logical : Q) (w : World) : Q :=
  match RulerBuilder.getDistanceByCoor logical w with
  | Ok d _ => d
  | Throw _ _ => 0
  end.

(** The formula the specification gives for [toLogical]. *)
Definition toLogical_spec (thickness offset scale devicePos : Q) : Js.jsnum :=
  Js.floor (Js.div (devicePos - thickness - offset) scale).

(** Two numbers are the same number. *)
Definition same_number (a b : Js.jsnum) : Prop :=
  match a, b with
  | Js.Num p, Js.Num q => p == q
  | Js.PosInf, Js.PosInf | Js.NegInf, Js.NegInf | Js.NaN, Js.NaN => True
  | _, _ => False
  end.

(** A whole number. *)
Definition is_integer (q : Q) : Prop :=
  ∃ n : Z, q == inject_Z n.

(** A number with at most three decimals. *)
Definition three_decimals (q : Q) : Prop :=
  ∃ n : Z, q == inject_Z n / 1000.

(** A world whose builder has the given options and whose container,
    node [0], has no parent. *)
Definition bare_world (o : RulerOption) : World :=
  {| heap := {[ 0%nat := new_node "div" ]};
     next_fn := 0;
     layout := fun _ => mkBox 0 0 0 0;
     onmousemove := None;
     this := mkRulerBuilder 0 None None None 1 (mkRuler 0 0 0 0) [] o |}.

Definition with_offset_scale_height (off sc h : Q) (o : RulerOption) : RulerOption :=
  mkRulerOption (direction o) (rulerWidth o) h (bgColor o)
    (fontFamily o) (fontSize o) (fontColor o) (strokeStyle o) (lineWidth o)
    (enableMouseTracking o) (enableToolTip o) sc off (ratio o).

(** ** The ticks as the specification words them *)

(** [delta] is a multiple of [m]. *)
Definition is_multiple (delta : Q) (m : Z) : Prop :=
  ∃ k : Z, delta == inject_Z (m * k).

(** A tick at position [pos]: a line from the lower edge of the strip,
    [height + 0.5], to [len], half a pixel right of [pos]. *)
Definition tick (pos len height : Q) : list CtxCmd :=
  [moveTo (pos + (1 # 2)) (height + (1 # 2)); lineTo (pos + (1 # 2)) len].

(** A label at position [pos]: its text, [2.5] pixels right of [pos], on
    the baseline [height / 1.5]. *)
Definition label (value : Js.jsnum) (pos height : Q) : list CtxCmd :=
  [fillText value (pos + (5 # 2)) (height / (3 # 2))].



(** ** A page to run the code on *)

Definition no_options : PartialRulerOption :=
  mkPartial None None None None None None None None None None None None None None.

(** A host node [0] that holds the container [1]; in the container, a
    node [2] of class [ruler-wrapper].  The host is 800 by 600 pixels at
    the origin, the container a strip of 800 by 20, the wrapper 800 by
    600; any other node, a guide for one, is laid out 1 pixel wide and 600
    high.  No builder has been constructed yet. *)
Definition page : World :=
  {| heap :=
       <[ 0%nat := with_childNodes (fun _ => [1%nat]) (new_node "div") ]>
       (<[ 1%nat := with_childNodes (fun _ => [2%nat])
                      (with_parentNode (Some 0%nat) (new_node "div")) ]>
       (<[ 2%nat := with_classes (fun _ => ["ruler-wrapper"])
                      (with_parentNode (Some 1%nat) (new_node "div")) ]> ∅));
     next_fn := 0;
     layout := fun i =>
       match i with
       | 0%nat => mkBox 800 600 0 0
       | 1%nat => mkBox 800 20 0 0
       | 2%nat => mkBox 800 600 0 0
       | _ => mkBox 1 600 0 0
       end;
     onmousemove := None;
     this := mkRulerBuilder 1 None None None 1 (mkRuler 0 0 0 0) [] default_options |}.

(** A pointer-down on the ruler strip of the page. *)
Definition down : MouseEvent := mkMouseEvent 139 10.

(** The page after [constructGuide(down)], which makes the guide node [3]
    and its wrapper [4], and after the [new GuideLine(el, guide, options,
    e)] of the two lines that close [constructGuide] in the source, under
    the given options. *)
Definition page_with_guide (o : RulerOption) : result GuideLine :=
  (RulerBuilder.constructGuide down ;;; GuideLine.new 1 3 down)
  (with_this (with_options (fun _ => o)) page).

(** The page after [new RulerBuilder(container, {})]: the canvas is node
    [3]. *)
Definition page_with_ruler : World :=
  world_of (RulerBuilder.new 1 no_options page).

(** The page with its ruler after a pointer-down on the canvas, then
    after [clearGuides()]; and the page with its ruler after
    [destroy()]. *)
Definition page_after_mousedown : World :=
  world_of (dispatchEvent 3 "mousedown" down page_with_ruler).

Definition page_after_clearGuides : World :=
  world_of (RulerBuilder.clearGuides page_after_mousedown).

Definition page_after_destroy : World :=
  world_of (RulerBuilder.destroy page_with_ruler).

(** A guide that is not being dragged: no cursor on the container and on
    the guide, no drag handler, and none of the two classes on the
    guide. *)
Definition stopped (g : GuideLine) (w : World) : Prop :=
  (∃ n, heap w !! g_el g = Some n ∧ style_cursor n = "")
  ∧ (∃ n, heap w !! guideLine g = Some n
          ∧ style_cursor n = ""
          ∧ ("rul_tooltip" ∉ classes n)
          ∧ ("rul_line_dragged" ∉ classes n))
  ∧ onmousemove w = None.

(** A guide node as [destroy] leaves it: no cursor, none of the two
    classes, none of the three listeners, no parent. *)
Definition destroyed (n : Node) : Prop :=
  style_cursor n = ""
  ∧ ("rul_tooltip" ∉ classes n)
  ∧ ("rul_line_dragged" ∉ classes n)
  ∧ (("mousedown", GuideLine_prototype m_mousedown) ∉ listeners n)
  ∧ (("mouseup", GuideLine_prototype m_stopMoving) ∉ listeners n)
  ∧ (("dblclick", GuideLine_prototype m_dblclick) ∉ listeners n)
  ∧ parentNode n = None.

(** A guide on which nothing is left to undo: it is not being dragged,
    none of the three listeners is on it, and it is out of the tree. *)
Definition settled (g : GuideLine) (w : World) : Prop :=
  stopped g w
  ∧ (∃ n, heap w !! guideLine g = Some n
          ∧ (("mousedown", GuideLine_prototype m_mousedown) ∉ listeners n)
          ∧ (("mouseup", GuideLine_prototype m_stopMoving) ∉ listeners n)
          ∧ (("dblclick", GuideLine_prototype m_dblclick) ∉ listeners n)
          ∧ parentNode n = None).

(** The listeners on a node after the three [addEventListener] calls of
    the constructor of [GuideLine]. *)
Definition with_guide_listeners (ls : list (string * Handler)) :
    list (string * Handler) :=
  Dom.add_listener ("dblclick", GuideLine_prototype m_dblclick)
    (Dom.add_listener ("mouseup", GuideLine_prototype m_stopMoving)
       (Dom.add_listener ("mousedown", GuideLine_prototype m_mousedown) ls)).

(** The listeners left on a node by the three [removeEventListener] calls
    of [GuideLine.destroy]. *)
Definition without_guide_listeners (ls : list (string * Handler)) :
    list (string * Handler) :=
  Dom.remove_listener ("dblclick", GuideLine_prototype m_dblclick)
    (Dom.remove_listener ("mouseup", GuideLine_prototype m_stopMoving)
       (Dom.remove_listener ("mousedown", GuideLine_prototype m_mousedown) ls)).

(** ** What the ruler looks like *)

(** The calls [drawRuler] makes on the context, for a ruler and its
    options: the background, the settings of the strokes and of the
    labels, the ticks, and the stroke. *)
Definition ruler_picture (r : Ruler) (o : RulerOption) : list CtxCmd :=
  [beginPath; set_fillStyle (bgColor o);
   fillRect 0 0 (width r) (height r); closePath;
   beginPath; set_font (fontSize o ++ " " ++ fontFamily o);
   set_textAlign "left"; set_fillStyle (fontColor o);
   set_strokeStyle (strokeStyle o); set_lineWidth (lineWidth o)]
  ++ RulerBuilder.drawPoints r o ++ [stroke].

(** The extent of the container along the ruler. *)
Definition extent (o : RulerOption) (b : Box) : Z :=
  if LayoutDirection_eqb (direction o) TB then offsetWidth b else offsetHeight b.

(** ** What can happen to a builder *)

(** The calls a user of the builder can make after the constructor, and
    the events the page can deliver: an event on a node, and a pointer
    move reaching the document. *)
Inductive Op : Type :=
  | op_setSize (w h s : Q)
  | op_setScale (s : Q)
  | op_toggleGuide (visible : bool)
  | op_clearGuides
  | op_destroy
  | op_event (target : nat) (type : string) (e : MouseEvent)
  | op_mousemove (e : MouseEvent).

(** One of them; an error thrown by a call stays with its caller, and
    the next one runs on the world the call left. *)
Definition run_op (op : Op) : M unit :=
  fun w =>
    let m := match op with
             | op_setSize wd h s => RulerBuilder.setSize wd h s
             | op_setScale s => RulerBuilder.setScale s
             | op_toggleGuide v => RulerBuilder.toggleGuide v
             | op_clearGuides => RulerBuilder.clearGuides
             | op_destroy => RulerBuilder.destroy
             | op_event target type e => dispatchEvent target type e
             | op_mousemove e => document_mousemove e
             end in
    Ok tt (world_of (m w)).

(** The calls that write the options. *)
Definition writes_options (op : Op) : bool :=
  match op with
  | op_setSize _ _ _ | op_setScale _ => true
  | _ => false
  end.

(** Options whose numbers are whole numbers. *)
Definition whole_options (o : RulerOption) : Prop :=
  is_integer (rulerWidth o) ∧ is_integer (rulerHeight o)
  ∧ is_integer (scale o) ∧ is_integer (offset o) ∧ is_integer (ratio o).

(** The number of a function object made by [bind] or by the evaluation
    of an arrow function; the methods of the prototype have none. *)
Definition handler_fn (h : Handler) : option nat :=
  match h with
  | GuideLine_prototype _ => None
  | bound _ fn | indicator_move fn _ _ | indicator_out fn _ _ _ => Some fn
  end.

(** The function objects among the listeners of node [j] were made
    before: their numbers are below [next_fn]. *)
Definition listeners_made (j : nat) (w : World) : Prop :=
  ∀ l fn, l ∈ listeners (Dom.node j w) → handler_fn l.2 = Some fn →
          (fn < next_fn w)%nat.

(** The children of node [j] are nodes of the heap. *)
Definition children_exist (j : nat) (w : World) : Prop :=
  ∀ c, c ∈ childNodes (Dom.node j w) → is_Some (heap w !! c).

(** ** Readings of the world *)

(** [keeps f m]: running [m] does not change the reading [f] of the
    world, whether [m] returns or throws. *)
Definition keeps {A B} (f : World → B) (m : M A) : Prop :=
  ∀ w, f (world_of (m w)) = f w.

(** * Properties *)

(** ** Numbers *)

Lemma Qfloor_eq (q : Q) (m : Z) :
  inject_Z m <= q → q < inject_Z (m + 1) → Qfloor q = m.
Proof.
  intros Hlo Hhi.
  pose proof (Qfloor_le q) as Hf.
  pose proof (Qlt_floor q) as Hc.
  assert (H1 : (Qfloor q < m + 1)%Z).
  { rewrite Zlt_Qlt. eapply Qle_lt_trans; eassumption. }
  assert (H2 : (m < Qfloor q + 1)%Z).
  { rewrite Zlt_Qlt. eapply Qle_lt_trans; eassumption. }
  lia.
Qed.

Lemma Qfloor_half (m : Z) : Qfloor (inject_Z m + (1 # 2)) = m.
Proof.
  apply Qfloor_eq.
  - lra.
  - rewrite inject_Z_plus. change (inject_Z 1) with 1. lra.
Qed.

Lemma Qeq_bool_false (a b : Q) : ¬ a == b → Qeq_bool a b = false.
Proof.
  intros H. destruct (Qeq_bool a b) eqn:E; [|reflexivity].
  apply Qeq_bool_eq in E. contradiction.
Qed.

Lemma div_finite (a b : Q) : ¬ b == 0 → Js.div a b = Js.Num (a / b).
Proof. intros H. unfold Js.div. now rewrite (Qeq_bool_false _ _ H). Qed.

Lemma floor_div_finite (a b : Q) :
  ¬ b == 0 → Js.floor (Js.div a b) = Js.Num (inject_Z (Qfloor (a / b))).
Proof. intros H. now rewrite div_finite. Qed.

Lemma floor_div_comp (a a' b : Q) :
  a == a' → Js.floor (Js.div a b) = Js.floor (Js.div a' b).
Proof.
  intros H. unfold Js.div.
  destruct (Qeq_bool b 0).
  - rewrite <- (Qeqb_comp a a' H 0 0 (Qeq_refl 0)).
    rewrite <- (Qleb_comp 0 0 (Qeq_refl 0) a a' H). reflexivity.
  - unfold Js.floor. do 2 f_equal. apply Qfloor_comp. now rewrite H.
Qed.

(** [toFixed(3)] gives back a number that has no more than three
    decimals. *)
Lemma toFixed3_exact (y : Q) : three_decimals y → Js.toFixed3 y == y.
Proof.
  intros [n Hn]. unfold Js.toFixed3.
  destruct (Qle_bool (inject_Z (10 ^ 21)) (Qabs y)); [reflexivity|].
  destruct (Qle_bool 0 y) eqn:Hs.
  - apply Qle_bool_iff in Hs.
    assert (Ha : Qabs y * 1000 + (1 # 2) == inject_Z n + (1 # 2)).
    { rewrite (Qabs_pos y Hs), Hn. field. }
    rewrite (Qfloor_comp _ _ Ha), Qfloor_half, Hn. reflexivity.
  - assert (Hneg : y <= 0).
    { destruct (Qlt_le_dec 0 y) as [Hp|Hp]; [|exact Hp].
      apply Qlt_le_weak, Qle_bool_iff in Hp. congruence. }
    assert (Ha : Qabs y * 1000 + (1 # 2) == inject_Z (- n) + (1 # 2)).
    { rewrite (Qabs_neg y Hneg), Hn, inject_Z_opp. field. }
    rewrite (Qfloor_comp _ _ Ha), Qfloor_half, Hn, inject_Z_opp. field.
Qed.

(** ** C1 and C2: the coordinate mapping *)

Lemma getPos_eval (e : MouseEvent) (w : World) :
  RulerBuilder.getPos e w =
  Ok {| RulerBuilder.coor :=
          Js.floor (Js.div (devicePos e w - rulerHeight (options (this w))
                            + indicatorLineWidth (this w)
                            - offset (options (this w)))
                           (scale (options (this w))));
        RulerBuilder.distance :=
          devicePos e w - rulerHeight (options (this w))
          + indicatorLineWidth (this w) |} w.
Proof.
  cbv beta iota zeta delta
    [RulerBuilder.getPos devicePos bind gets ret Dom.parentElement Dom.box].
  destruct (parentNode (Dom.node (el (this w)) w));
    destruct (LayoutDirection_eqb (direction (options (this w))) TB); reflexivity.
Qed.

Lemma devicePos_pointer_at (x : Q) (w : World) :
  devicePos (pointer_at x w) w == x.
Proof.
  unfold devicePos, pointer_at.
  destruct (LayoutDirection_eqb _ _); simpl; ring.
Qed.

Lemma toLogical_eval (x : Q) (w : World) :
  toLogical x w =
  Js.floor (Js.div (x - rulerHeight (options (this w))
                    + indicatorLineWidth (this w) - offset (options (this w)))
                   (scale (options (this w)))).
Proof.
  unfold toLogical. rewrite getPos_eval. simpl.
  apply floor_div_comp. now rewrite devicePos_pointer_at.
Qed.

(** *** What a computation leaves alone *)

Lemma keeps_bind {A B C} (f : World → C) (m : M A) (k : A → M B) :
  keeps f m → (∀ a, keeps f (k a)) → keeps f (bind m k).
Proof.
  intros Hm Hk w. unfold bind. specialize (Hm w).
  destruct (m w) as [a w'|e w']; simpl in *.
  - now rewrite Hk.
  - exact Hm.
Qed.

Lemma keeps_ret {A C} (f : World → C) (a : A) : keeps f (ret a).
Proof. intros w. reflexivity. Qed.

Lemma keeps_throw {A C} (f : World → C) (e : exn) : keeps f (@throw A e).
Proof. intros w. reflexivity. Qed.

Lemma keeps_gets {A C} (f : World → C) (g : World → A) : keeps f (gets g).
Proof. intros w. reflexivity. Qed.

Lemma keeps_forEach {A C} (f : World → C) (body : A → M unit) (l : list A) :
  (∀ x, keeps f (body x)) → keeps f (forEach body l).
Proof.
  intros H. induction l as [|x l IH]; simpl.
  - apply keeps_ret.
  - apply keeps_bind; [apply H | intros _; exact IH].
Qed.

Create HintDb ruler discriminated.

#[global] Hint Unfold
  Dom.remove Dom.appendChild Dom.querySelector Dom.parentElement Dom.box
  Dom.addClass Dom.removeClass Dom.addEventListener Dom.removeEventListener
  Dom.draw createCanvas
  GuideLine.showToolTip GuideLine.updateToolTip GuideLine.hideToolTip
  GuideLine.mousemove GuideLine.startMoving GuideLine.stopMoving
  GuideLine.show GuideLine.hide GuideLine.destroy GuideLine.new
  RulerBuilder.drawRuler RulerBuilder.ruler_width RulerBuilder.getPos
  RulerBuilder.constructRuler RulerBuilder.constructGuide
  RulerBuilder.constructIndicator RulerBuilder.setSize RulerBuilder.setScale
  RulerBuilder.toggleGuide RulerBuilder.clearGuides RulerBuilder.destroy
  RulerBuilder.new
  : ruler.

(** Splits a computation along its binds and case distinctions, down to
    the primitive steps, which [reflexivity] settles when they do not
    write what [f] reads. *)
Ltac keeps_step :=
  first
    [ solve [intros ?; reflexivity]
    | apply keeps_bind; [|intros ?]
    | apply keeps_ret
    | apply keeps_throw
    | apply keeps_gets
    | apply keeps_forEach; intros ?
    | match goal with
      | |- keeps _ (match ?x with _ => _ end) => destruct x
      | |- keeps _ (if ?x then _ else _) => destruct x
      end
    | progress autounfold with ruler ].

Ltac keeps_tac := repeat keeps_step.

Lemma constructRuler_keeps_indicatorLineWidth :
  keeps (fun w => indicatorLineWidth (this w)) RulerBuilder.constructRuler.
Proof. keeps_tac. Qed.

Lemma new_indicatorLineWidth (container : nat) (opts : PartialRulerOption) (w : World) :
  indicatorLineWidth (this (world_of (RulerBuilder.new container opts w))) = 1.
Proof.
  unfold RulerBuilder.new, bind at 1, modify. cbv beta iota.
  now rewrite constructRuler_keeps_indicatorLineWidth.
Qed.

(** C1 (as amended).  For every pointer event at a whole-number device
    position, with a thickness, an offset and a scale that are whole
    numbers, and a scale that is not zero, [getPos] returns the distance
    [devicePos - rulerHeight + indicatorLineWidth] and the coordinate
    [floor((devicePos - rulerHeight + indicatorLineWidth - offset) /
    scale)]; a builder made by the constructor has
    [indicatorLineWidth = 1]; and with [scale = 1], [offset = 40],
    [rulerHeight = 0] the coordinate of device position 90 is 51.  On
    whole numbers the arithmetic of the code is exact. *)
Theorem claim_C1_getPos_formula :
  (∀ (e : MouseEvent) (w : World),
     let b := this w in
     let o := options b in
     let d := devicePos e w - rulerHeight o + indicatorLineWidth b in
     is_integer (devicePos e w) → is_integer (rulerHeight o) →
     is_integer (indicatorLineWidth b) →
     is_integer (offset o) → is_integer (scale o) → ¬ scale o == 0 →
     RulerBuilder.getPos e w =
       Ok (RulerBuilder.mkPos
             (Js.Num (inject_Z (Qfloor ((d - offset o) / scale o)))) d) w)
  ∧ (∀ container opts w,
       indicatorLineWidth (this (world_of (RulerBuilder.new container opts w))) = 1)
  ∧ toLogical 90 (bare_world (with_offset_scale_height 40 1 0 default_options))
    = Js.Num 51.
Proof.
  split; [|split].
  - intros e w b o d _ _ _ _ _ Hnz.
    rewrite getPos_eval. fold b o d.
    now rewrite floor_div_finite by exact Hnz.
  - apply new_indicatorLineWidth.
  - reflexivity.
Qed.

Lemma claim_C1_getPos_formula_witness :
  let w := bare_world (with_offset_scale_height 40 1 20 default_options) in
  let e := mkMouseEvent 140 0 in
  (is_integer (devicePos e w)
   ∧ is_integer (rulerHeight (options (this w)))
   ∧ is_integer (indicatorLineWidth (this w))
   ∧ is_integer (offset (options (this w)))
   ∧ is_integer (scale (options (this w))))
  ∧ ¬ scale (options (this w)) == 0
  ∧ RulerBuilder.getPos e w = Ok (RulerBuilder.mkPos (Js.Num 81) 121) w.
Proof.
  intros w e.
  assert (H1 : is_integer (devicePos e w)) by (exists 140%Z; reflexivity).
  assert (H2 : is_integer (rulerHeight (options (this w))))
    by (exists 20%Z; reflexivity).
  assert (H3 : is_integer (indicatorLineWidth (this w)))
    by (exists 1%Z; reflexivity).
  assert (H4 : is_integer (offset (options (this w))))
    by (exists 40%Z; reflexivity).
  assert (H5 : is_integer (scale (options (this w))))
    by (exists 1%Z; reflexivity).
  assert (Hs : ¬ scale (options (this w)) == 0) by (vm_compute; discriminate).
  split; [repeat split; assumption|].
  split; [exact Hs|].
  destruct claim_C1_getPos_formula as [H _].
  rewrite (H e w H1 H2 H3 H4 H5 Hs). vm_compute. reflexivity.
Defined.

(** C1 (as stated) fails: with [scale = 1], [offset = 40] and thickness
    [0], the code maps device position 90 to 51, and the stated formula
    gives 50. *)
Lemma claim_C1_counterexample :
  let w := bare_world (with_offset_scale_height 40 1 0 default_options) in
  same_number (toLogical 90 w) (Js.Num 51)
  ∧ same_number (toLogical_spec 0 40 1 90) (Js.Num 50)
  ∧ ¬ same_number (toLogical 90 w) (toLogical_spec 0 40 1 90).
Proof.
  intros w. repeat split; vm_compute; discriminate.
Qed.

(** In exact arithmetic the coordinate survives the way through
    [getDistanceByCoor] and back as soon as the scale and the offset have
    at most three decimals, so that [toFixed(3)] rounds nothing away. *)
Lemma round_trip_three_decimals (x : Q) (w : World) :
  let b := this w in
  let o := options b in
  0 < scale o → three_decimals (scale o) → three_decimals (offset o) →
  ∃ c : Z,
    toLogical x w = Js.Num (inject_Z c)
    ∧ toLogical (toDevice (inject_Z c) w + rulerHeight o - indicatorLineWidth b) w
      = toLogical x w.
Proof.
  intros b o Hpos [n1 H1] [n2 H2].
  assert (Hnz : ¬ scale o == 0) by lra.
  rewrite toLogical_eval. fold b o.
  rewrite floor_div_finite by exact Hnz.
  eexists. split; [reflexivity|].
  rewrite toLogical_eval. fold b o.
  rewrite floor_div_finite by exact Hnz.
  do 2 f_equal.
  set (c := Qfloor ((x - _ + _ - _) / _)).
  unfold toDevice, RulerBuilder.getDistanceByCoor, bind, gets, ret. fold b o.
  assert (H3 : three_decimals (inject_Z c * scale o + offset o)).
  { exists (c * n1 + n2)%Z. rewrite H1, H2, inject_Z_plus, inject_Z_mult. field. }
  apply toFixed3_exact in H3.
  assert (Hq : (Js.toFixed3 (inject_Z c * scale o + offset o) + rulerHeight o
                - indicatorLineWidth b - rulerHeight o + indicatorLineWidth b
                - offset o) / scale o == inject_Z c).
  { rewrite H3. field. exact Hnz. }
  rewrite (Qfloor_comp _ _ Hq). apply Qfloor_Z.
Qed.

Lemma integer_three_decimals (q : Q) : is_integer q → three_decimals q.
Proof.
  intros [n Hn]. exists (n * 1000)%Z. rewrite Hn, inject_Z_mult. field.
Qed.

(** C2 (as amended).  With a scale, an offset and a thickness that are
    whole numbers, and [scale > 0], [getDistanceByCoor] gives back a
    distance of the coordinate it was given: the coordinate of the device
    position whose distance ([devicePos - rulerHeight +
    indicatorLineWidth]) is [toDevice(toLogical(x))] is [toLogical(x)]
    again.  On whole numbers the arithmetic of the code is exact. *)
Theorem claim_C2_round_trip (x : Q) (w : World) :
  let b := this w in
  let o := options b in
  0 < scale o →
  is_integer (scale o) → is_integer (offset o) → is_integer (rulerHeight o) →
  ∃ c : Z,
    toLogical x w = Js.Num (inject_Z c)
    ∧ toLogical (toDevice (inject_Z c) w + rulerHeight o - indicatorLineWidth b) w
      = toLogical x w.
Proof.
  intros b o Hpos Hs Ho _.
  apply round_trip_three_decimals;
    [exact Hpos | now apply integer_three_decimals | now apply integer_three_decimals].
Qed.

Lemma claim_C2_round_trip_witness :
  let w := bare_world default_options in
  ∃ c : Z,
    toLogical 90 w = Js.Num (inject_Z c)
    ∧ toLogical (toDevice (inject_Z c) w + 20 - 1) w = toLogical 90 w.
Proof.
  intros w.
  apply (claim_C2_round_trip 90 w).
  - reflexivity.
  - exists 1%Z. reflexivity.
  - exists 40%Z. reflexivity.
  - exists 20%Z. reflexivity.
Defined.

(** C2 (as stated) fails: with the default options ([scale = 1],
    [offset = 40], [rulerHeight = 20]) device position 90 has coordinate
    31, [toDevice(31)] is 71, and device position 71 has coordinate 12. *)
Lemma claim_C2_counterexample :
  let w := bare_world default_options in
  0 < scale (options (this w))
  ∧ toLogical 90 w = Js.Num 31
  ∧ toDevice 31 w == 71
  ∧ toLogical (toDevice 31 w) w = Js.Num 12
  ∧ ¬ same_number (toLogical (toDevice 31 w) w) (toLogical 90 w).
Proof.
  intros w. repeat split; vm_compute; discriminate.
Qed.

(** ** C3: the ticks *)

Lemma trunc_integer (q : Q) (k : Z) : q == inject_Z k → Js.trunc q = k.
Proof.
  unfold Qeq, Js.trunc. simpl. intros H.
  rewrite Z.mul_1_r in H. rewrite H. apply Z.quot_mul. discriminate.
Qed.

Lemma rem_multiple (delta : Q) (m : Z) :
  m ≠ 0%Z →
  Qeq_bool (Js.rem delta (inject_Z m)) 0 = true ↔ is_multiple delta m.
Proof.
  intros Hm.
  assert (Hq : ¬ inject_Z m == 0).
  { unfold Qeq. simpl. lia. }
  rewrite Qeq_bool_iff. unfold Js.rem, is_multiple. split.
  - intros H. exists (Js.trunc (delta / inject_Z m)).
    rewrite inject_Z_mult. lra.
  - intros [k Hk].
    assert (Hd : delta / inject_Z m == inject_Z k).
    { rewrite Hk, inject_Z_mult. field. exact Hq. }
    rewrite (trunc_integer _ _ Hd), Hk, inject_Z_mult. ring.
Qed.

Lemma rem_not_multiple (delta : Q) (m : Z) :
  m ≠ 0%Z → ¬ is_multiple delta m →
  Qeq_bool (Js.rem delta (inject_Z m)) 0 = false.
Proof.
  intros Hm Hn. destruct (Qeq_bool _ 0) eqn:E; [|reflexivity].
  apply rem_multiple in E; [contradiction|exact Hm].
Qed.



Section Ticks.

Variables height offset scale : Q.
Hypothesis scale_pos : 0 < scale.
Hypothesis height_nonneg : 0 <= height.

Let at_pos (pos : Q) : list CtxCmd :=
  RulerBuilder.drawPoint height offset scale pos.






End Ticks.

Lemma le_Qfloor (p : Z) (q : Q) : (p <= Qfloor q)%Z ↔ inject_Z p <= q.
Proof.
  split.
  - intros H. apply Qle_trans with (inject_Z (Qfloor q)).
    + now rewrite <- Zle_Qle.
    + apply Qfloor_le.
  - intros H. rewrite <- (Qfloor_Z p). now apply Qfloor_resp_le.
Qed.

Lemma In_positions (p : Z) (width : Q) :
  In p (RulerBuilder.positions width) ↔ (0 <= p)%Z ∧ inject_Z p <= width.
Proof.
  unfold RulerBuilder.positions. rewrite in_map_iff, <- le_Qfloor. split.
  - intros [n [Hn Hin]]. apply in_seq in Hin. lia.
  - intros [H0 Hw]. exists (Z.to_nat p). split; [lia|]. apply in_seq. lia.
Qed.

Lemma In_drawPoints (cmd : CtxCmd) (r : Ruler) (o : RulerOption) :
  In cmd (RulerBuilder.drawPoints r o) ↔
  ∃ p : Z, (0 <= p)%Z ∧ inject_Z p <= width r
           ∧ In cmd (RulerBuilder.drawPoint (height r) (offset o) (scale o) (inject_Z p)).
Proof.
  unfold RulerBuilder.drawPoints. rewrite in_flat_map. split.
  - intros [p [Hp Hin]]. apply In_positions in Hp. exists p. tauto.
  - intros [p [H0 [Hw Hin]]]. exists p. split; [|exact Hin].
    apply In_positions. tauto.
Qed.







(** ** The heap *)

Lemma node_insert (i j : nat) (n : Node) (w : World) :
  Dom.node j (with_heap (insert i n) w) = if decide (i = j) then n else Dom.node j w.
Proof.
  unfold Dom.node, with_heap. simpl. rewrite lookup_insert.
  case_decide; reflexivity.
Qed.

Lemma node_insert_eq (i : nat) (n : Node) (w : World) :
  Dom.node i (with_heap (insert i n) w) = n.
Proof. rewrite node_insert. now case_decide. Qed.

Lemma node_insert_ne (i j : nat) (n : Node) (w : World) :
  i ≠ j → Dom.node j (with_heap (insert i n) w) = Dom.node j w.
Proof. intros H. rewrite node_insert. now case_decide. Qed.

Lemma node_with_onmousemove (j : nat) (d : option Drag) (w : World) :
  Dom.node j (with_onmousemove d w) = Dom.node j w.
Proof. reflexivity. Qed.

Lemma node_with_this (j : nat) (f : RulerBuilder → RulerBuilder) (w : World) :
  Dom.node j (with_this f w) = Dom.node j w.
Proof. reflexivity. Qed.

Lemma node_with_next_fn (j : nat) (f : nat → nat) (w : World) :
  Dom.node j (with_next_fn f w) = Dom.node j w.
Proof. reflexivity. Qed.

Lemma bind_ok {A B} (m : M A) (k : A → M B) (w w' : World) (a : A) :
  m w = Ok a w' → bind m k w = k a w'.
Proof. intros H. unfold bind. now rewrite H. Qed.

(** Reads a node through the writes that came before. *)
Ltac node_simpl :=
  repeat first
    [ rewrite node_with_onmousemove
    | rewrite node_with_this
    | rewrite node_with_next_fn
    | rewrite node_insert_eq
    | rewrite node_insert_ne by congruence
    | rewrite node_insert; case_decide ].

Lemma forEach_app {A} (f : A → M unit) (l l' : list A) (w : World) :
  forEach f (l ++ l') w = (forEach f l ;;; forEach f l') w.
Proof.
  revert w. induction l as [|x l IH]; intros w; simpl.
  - reflexivity.
  - unfold bind in *. destruct (f x w) as [[] w1|e w1]; [|reflexivity].
    rewrite IH. reflexivity.
Qed.

(** ** C4 and C6: the drag handler *)

Lemma clamp_upper (client diff : Q) (c e : Z) :
  GuideLine.clamp client diff c e <= inject_Z c - inject_Z e.
Proof. apply Q.le_min_r. Qed.

Lemma clamp_lower (client diff : Q) (c e : Z) :
  (e <= c)%Z → 0 <= GuideLine.clamp client diff c e.
Proof.
  intros H. unfold GuideLine.clamp.
  apply Q.min_glb.
  - apply Q.le_max_r.
  - rewrite Zle_Qle in H. lra.
Qed.

(** What one [mousemove] does while a drag is on: the guide is placed at
    the clamped position on both axes, and its tip is written. *)
Lemma mousemove_eval (d : Drag) (evt : MouseEvent) (w : World) :
  let aX := GuideLine.clamp (clientX evt) (diffX d) (cWi d) (eWi d) in
  let aY := GuideLine.clamp (clientY evt) (diffY d) (cHe d) (eHe d) in
  let o := options (this w) in
  let t := if Qeq_bool aY 0
           then tip_X (Js.round ((aX - rulerHeight o - 1 - offset o) * scale o))
           else tip_Y (Js.round ((aY - rulerHeight o - 1 - offset o) * scale o)) in
  ∃ w',
    GuideLine.mousemove d evt w = Ok tt w'
    ∧ Dom.node (guideLine (d_this d)) w'
      = with_tip t (with_top (pixelize aY) (with_left (pixelize aX)
                      (Dom.node (guideLine (d_this d)) w)))
    ∧ onmousemove w' = onmousemove w
    ∧ this w' = this w
    ∧ layout w' = layout w.
Proof.
  intros aX aY o t.
  unfold GuideLine.mousemove, GuideLine.updateToolTip, Dom.update, bind, modify, gets.
  fold aX aY. cbv beta iota. fold o. subst t.
  destruct (Qeq_bool aY 0); cbn [negb];
    (eexists; split; [reflexivity|]);
    rewrite !node_insert_eq; repeat split; reflexivity.
Qed.

Lemma elem_of_add_class (x c : string) (cs : list string) :
  x ∈ Dom.add_class c cs ↔ x = c ∨ x ∈ cs.
Proof.
  unfold Dom.add_class. case_decide.
  - split; [auto|]. intros [->|H']; assumption.
  - rewrite elem_of_app, list_elem_of_singleton. tauto.
Qed.

Lemma elem_of_remove_class (x c : string) (cs : list string) :
  x ∈ Dom.remove_class c cs ↔ x ≠ c ∧ x ∈ cs.
Proof. unfold Dom.remove_class. now rewrite list_elem_of_filter. Qed.

Lemma remove_listener_absent (l : string * Handler) (ls : list (string * Handler)) :
  l ∉ ls → Dom.remove_listener l ls = ls.
Proof.
  unfold Dom.remove_listener. induction ls as [|x ls IH]; intros H; [reflexivity|].
  rewrite not_elem_of_cons in H. destruct H as [Hx Hls].
  rewrite filter_cons. case_decide; [now rewrite IH | congruence].
Qed.

Lemma elem_of_remove_listener (x l : string * Handler) (ls : list (string * Handler)) :
  x ∈ Dom.remove_listener l ls ↔ x ≠ l ∧ x ∈ ls.
Proof. unfold Dom.remove_listener. now rewrite list_elem_of_filter. Qed.

(** The start of a drag, when the guide has a drag container [c]. *)
Lemma startMoving_eval (g : GuideLine) (e : MouseEvent) (w : World) (c : nat) :
  dragContainer g = Some c →
  let n := Dom.node (guideLine g) w in
  let d := {| d_this := g;
              diffX := clientX e - inject_Z (Js.parseInt_or_0 (style_left n));
              diffY := clientY e - inject_Z (Js.parseInt_or_0 (style_top n));
              cWi := offsetWidth (layout w c);
              cHe := offsetHeight (layout w c);
              eWi := offsetWidth (layout w (guideLine g));
              eHe := offsetHeight (layout w (guideLine g)) |} in
  ∃ w1,
    GuideLine.startMoving g e w = Ok tt w1
    ∧ onmousemove w1 = Some d
    ∧ this w1 = this w
    ∧ layout w1 = layout w
    ∧ "rul_line_dragged" ∈ classes (Dom.node (guideLine g) w1)
    ∧ style_cursor (Dom.node (guideLine g) w1)
      = (if LayoutDirection_eqb (direction (options (this w))) TB
         then "ns-resize" else "ew-resize")
    ∧ listeners (Dom.node (guideLine g) w1) = listeners (Dom.node (guideLine g) w).
Proof.
  intros Hc n d.
  unfold GuideLine.startMoving, GuideLine.showToolTip, Dom.addClass, Dom.update,
    Dom.box, bind, modify, gets.
  rewrite Hc. cbv beta iota. rewrite node_insert_eq.
  match goal with
  | |- context [negb (enableToolTip ?o)] => change o with (options (this w))
  end.
  destruct (enableToolTip (options (this w))); cbn [negb];
    (eexists; split; [reflexivity|]);
    (split; [reflexivity|]); (split; [reflexivity|]); (split; [reflexivity|]);
    node_simpl; try congruence;
    cbn [classes with_classes with_cursor style_cursor listeners];
    rewrite ?elem_of_add_class; auto.
Qed.

Lemma document_mousemove_drag (evt : MouseEvent) (w : World) (d : Drag) :
  onmousemove w = Some d →
  document_mousemove evt w = GuideLine.mousemove d evt w.
Proof.
  intros H. unfold document_mousemove, bind, gets. cbv beta iota.
  now rewrite H.
Qed.

Lemma drag_moves (evts : list MouseEvent) (w : World) (d : Drag) :
  onmousemove w = Some d →
  ∃ w', forEach document_mousemove evts w = Ok tt w'
        ∧ onmousemove w' = Some d ∧ this w' = this w ∧ layout w' = layout w.
Proof.
  revert w. induction evts as [|evt evts IH]; intros w Hd.
  - exists w. repeat split; assumption.
  - destruct (mousemove_eval d evt w) as (w1 & Hrun & _ & Hm & Ht & Hl).
    destruct (IH w1) as (w2 & Hrun2 & Hm2 & Ht2 & Hl2); [congruence|].
    exists w2. repeat split; try congruence.
    cbn [forEach]. unfold bind.
    rewrite (document_mousemove_drag _ _ _ Hd), Hrun. exact Hrun2.
Qed.

(** C4.  After every pointer move of a drag, wherever the pointer is, the
    [left] and the [top] of the guide are at most [cWi - eWi] and
    [cHe - eHe], the extent of the drag container less that of the guide;
    and when the guide is no larger than its drag container, they are
    within [[0, cWi - eWi]] and [[0, cHe - eHe]]. *)
Theorem claim_C4_drag_clamped (g : GuideLine) (e : MouseEvent) (w : World) (c : nat) :
  dragContainer g = Some c →
  let cW := offsetWidth (layout w c) in
  let cH := offsetHeight (layout w c) in
  let eW := offsetWidth (layout w (guideLine g)) in
  let eH := offsetHeight (layout w (guideLine g)) in
  ∃ w1,
    GuideLine.startMoving g e w = Ok tt w1
    ∧ ∀ (evts : list MouseEvent) (evt : MouseEvent),
        ∃ w2 aX aY,
          forEach document_mousemove (evts ++ [evt]) w1 = Ok tt w2
          ∧ style_left (Dom.node (guideLine g) w2) = Js.px aX
          ∧ style_top (Dom.node (guideLine g) w2) = Js.px aY
          ∧ aX <= inject_Z cW - inject_Z eW
          ∧ aY <= inject_Z cH - inject_Z eH
          ∧ ((eW <= cW)%Z → 0 <= aX <= inject_Z cW - inject_Z eW)
          ∧ ((eH <= cH)%Z → 0 <= aY <= inject_Z cH - inject_Z eH).
Proof.
  intros Hc cW cH eW eH.
  destruct (startMoving_eval g e w c Hc) as (w1 & Hstart & Hd & _).
  exists w1. split; [exact Hstart|]. intros evts evt.
  destruct (drag_moves evts w1 _ Hd) as (w2 & Hrun & Hd2 & _).
  match type of Hd2 with _ = Some ?d0 => set (d := d0) in * end.
  destruct (mousemove_eval d evt w2) as (w3 & Hlast & Hnode & _).
  change (guideLine (d_this d)) with (guideLine g) in Hnode.
  exists w3,
    (GuideLine.clamp (clientX evt) (diffX d) (cWi d) (eWi d)),
    (GuideLine.clamp (clientY evt) (diffY d) (cHe d) (eHe d)).
  split.
  { rewrite forEach_app. unfold bind. rewrite Hrun. cbn [forEach].
    unfold bind. rewrite (document_mousemove_drag _ _ _ Hd2), Hlast.
    reflexivity. }
  rewrite Hnode. split; [reflexivity|]. split; [reflexivity|].
  split; [apply clamp_upper|]. split; [apply clamp_upper|].
  split; intros Hfit;
    (split; [apply clamp_lower; exact Hfit | apply clamp_upper]).
Qed.

(** What the tip says after a pointer move, whatever [enableToolTip]
    is. *)
Lemma mousemove_tip (d : Drag) (evt : MouseEvent) (w : World) :
  let aX := GuideLine.clamp (clientX evt) (diffX d) (cWi d) (eWi d) in
  let aY := GuideLine.clamp (clientY evt) (diffY d) (cHe d) (eHe d) in
  let o := options (this w) in
  ∃ w',
    GuideLine.mousemove d evt w = Ok tt w'
    ∧ dataset_tip (Dom.node (guideLine (d_this d)) w')
      = Some (if Qeq_bool aY 0
              then tip_X (Js.round ((aX - rulerHeight o - 1 - offset o) * scale o))
              else tip_Y (Js.round ((aY - rulerHeight o - 1 - offset o) * scale o))).
Proof.
  intros aX aY o.
  destruct (mousemove_eval d evt w) as (w' & Hrun & Hnode & _).
  exists w'. split; [exact Hrun|]. rewrite Hnode. reflexivity.
Qed.

Lemma claim_C4_drag_clamped_witness :
  let g := mkGuideLine 1 3 down (Some 2%nat) in
  ∃ w1,
    GuideLine.startMoving g down page = Ok tt w1
    ∧ ∃ w2 aX aY,
        forEach document_mousemove
          [mkMouseEvent (-5000) 7000; mkMouseEvent 9000 (-300)] w1 = Ok tt w2
        ∧ style_left (Dom.node 3 w2) = Js.px aX
        ∧ style_top (Dom.node 3 w2) = Js.px aY
        ∧ 0 <= aX <= 800 - 1
        ∧ 0 <= aY <= 600 - 600.
Proof.
  intros g.
  destruct (claim_C4_drag_clamped g down page 2 eq_refl) as (w1 & Hstart & H).
  exists w1. split; [exact Hstart|].
  destruct (H [mkMouseEvent (-5000) 7000] (mkMouseEvent 9000 (-300)))
    as (w2 & aX & aY & Hrun & Hl & Ht & _ & _ & HX & HY).
  exists w2, aX, aY.
  split; [exact Hrun|]. split; [exact Hl|]. split; [exact Ht|].
  split; [apply HX | apply HY]; vm_compute; discriminate.
Defined.

Lemma round_integer (q : Q) : is_integer q → inject_Z (Js.round q) == q.
Proof.
  intros [m Hm]. unfold Js.round.
  assert (H : q + (1 # 2) == inject_Z m + (1 # 2)) by now rewrite Hm.
  now rewrite (Qfloor_comp _ _ H), Qfloor_half, Hm.
Qed.

Lemma is_integer_tip (a rh off sc : Q) :
  is_integer a → is_integer rh → is_integer off → is_integer sc →
  is_integer ((a - rh - 1 - off) * sc).
Proof.
  intros [n1 H1] [n2 H2] [n3 H3] [n4 H4].
  exists ((n1 - n2 - 1 - n3) * n4)%Z.
  rewrite H1, H2, H3, H4, inject_Z_mult.
  unfold Z.sub. rewrite !inject_Z_plus, !inject_Z_opp.
  change (inject_Z 1) with 1. ring.
Qed.

(** C6, which the code does not meet.  The tip that a pointer move of a
    drag writes does not come from the coordinate mapping: on whole
    numbers it is the number [(a - rulerHeight - 1 - offset) * scale] of
    [updateToolTip], where [a] is the clamped position.  On the page, with
    the default options ([rulerHeight = 20], [offset = 40], [scale = 1]),
    a pointer at [clientX = 139] has the coordinate 80 and the distance
    120 by [getPos]; the guide is at [left = 120], and its tip is
    ['X: 59 px'], where the formula of the claim gives 60.  With
    [scale = 2], a pointer at [clientX = 119] has the coordinate 30 and
    the distance 100; the guide is at [left = 100], and its tip is
    ['X: 78 px'], where the formula of the claim gives 20. *)
Theorem claim_C6_tooltip_diverges :
  (∀ (d : Drag) (evt : MouseEvent) (w : World),
     let aX := GuideLine.clamp (clientX evt) (diffX d) (cWi d) (eWi d) in
     let aY := GuideLine.clamp (clientY evt) (diffY d) (cHe d) (eHe d) in
     let o := options (this w) in
     let a := if Qeq_bool aY 0 then aX else aY in
     is_integer a → is_integer (rulerHeight o) →
     is_integer (offset o) → is_integer (scale o) →
     ∃ w' n,
       GuideLine.mousemove d evt w = Ok tt w'
       ∧ dataset_tip (Dom.node (guideLine (d_this d)) w')
         = Some (if Qeq_bool aY 0 then tip_X n else tip_Y n)
       ∧ inject_Z n == (a - rulerHeight o - 1 - offset o) * scale o)
  ∧ (let o := default_options in
     let evt := mkMouseEvent 139 10 in
     ∃ g w w',
       page_with_guide o = Ok g w
       ∧ RulerBuilder.getPos evt w = Ok (RulerBuilder.mkPos (Js.Num 80) 120) w
       ∧ document_mousemove evt w = Ok tt w'
       ∧ style_left (Dom.node (guideLine g) w') = Js.px 120
       ∧ dataset_tip (Dom.node (guideLine g) w') = Some (tip_X 59)
       ∧ toLogical_spec (rulerHeight o) (offset o) (scale o) 120 = Js.Num 60)
  ∧ (let o := set_scale 2 default_options in
     let evt := mkMouseEvent 119 300 in
     ∃ g w w',
       page_with_guide o = Ok g w
       ∧ RulerBuilder.getPos evt w = Ok (RulerBuilder.mkPos (Js.Num 30) 100) w
       ∧ document_mousemove evt w = Ok tt w'
       ∧ style_left (Dom.node (guideLine g) w') = Js.px 100
       ∧ dataset_tip (Dom.node (guideLine g) w') = Some (tip_X 78)
       ∧ toLogical_spec (rulerHeight o) (offset o) (scale o) 100 = Js.Num 20).
Proof.
  split; [|split].
  - intros d evt w aX aY o a Ha Hr Ho Hs.
    destruct (mousemove_tip d evt w) as (w' & Hrun & Htip).
    fold aX aY o in Htip.
    exists w', (Js.round ((a - rulerHeight o - 1 - offset o) * scale o)).
    split; [exact Hrun|]. split.
    + rewrite Htip. unfold a. now destruct (Qeq_bool aY 0).
    + apply round_integer. now apply is_integer_tip.
  - intros o evt. do 3 eexists.
    split; [vm_compute; reflexivity|].
    split; [vm_compute; reflexivity|].
    split; [vm_compute; reflexivity|].
    split; [vm_compute; reflexivity|].
    split; [vm_compute; reflexivity|].
    vm_compute. reflexivity.
  - intros o evt. do 3 eexists.
    split; [vm_compute; reflexivity|].
    split; [vm_compute; reflexivity|].
    split; [vm_compute; reflexivity|].
    split; [vm_compute; reflexivity|].
    split; [vm_compute; reflexivity|].
    vm_compute. reflexivity.
Qed.

Lemma claim_C6_tooltip_diverges_witness :
  let d := mkDrag (mkGuideLine 1 3 down (Some 2%nat)) 19 10 800 600 1 600 in
  let w := world_of (page_with_guide default_options) in
  let o := options (this w) in
  (is_integer 100 ∧ is_integer (rulerHeight o)
   ∧ is_integer (offset o) ∧ is_integer (scale o))
  ∧ ∃ w' n,
      GuideLine.mousemove d (mkMouseEvent 119 300) w = Ok tt w'
      ∧ dataset_tip (Dom.node 3 w') = Some (tip_X n)
      ∧ inject_Z n == (100 - rulerHeight o - 1 - offset o) * scale o.
Proof.
  intros d w o.
  assert (H1 : is_integer 100) by (exists 100%Z; reflexivity).
  assert (H2 : is_integer (rulerHeight o)) by (exists 20%Z; reflexivity).
  assert (H3 : is_integer (offset o)) by (exists 40%Z; reflexivity).
  assert (H4 : is_integer (scale o)) by (exists 1%Z; reflexivity).
  split; [repeat split; assumption|].
  destruct claim_C6_tooltip_diverges as (H & _).
  exact (H d (mkMouseEvent 119 300) w H1 H2 H3 H4).
Defined.

(** ** C7: setScale and setSize *)

Lemma bind_assoc {A B C} (m : M A) (k : A → M B) (k' : B → M C) (w : World) :
  bind (bind m k) k' w = bind m (fun a => bind (k a) k') w.
Proof. unfold bind. now destruct (m w). Qed.

Lemma with_heap_insert_insert (i : nat) (n n' : Node) (w : World) :
  with_heap (insert i n) (with_heap (insert i n') w) = with_heap (insert i n) w.
Proof. unfold with_heap. cbn. f_equal. apply insert_insert_eq. Qed.

(** The readings of the builder through the writes to the world. *)
Ltac this_simpl :=
  cbn [this heap next_fn layout onmousemove
       with_this with_heap with_next_fn with_onmousemove
       el canvas indicator indicatorValue indicatorLineWidth ruler guides
       options with_ruler with_canvas with_indicator with_guides with_options].

(** One step of a computation whose first action returns. *)
Ltac step :=
  rewrite ?bind_assoc; erewrite bind_ok by reflexivity; cbv beta; this_simpl;
  node_simpl; rewrite ?with_heap_insert_insert.

Lemma ruler_width_eval (w : World) :
  RulerBuilder.ruler_width w
  = Ok (Qmax (inject_Z (extent (options (this w)) (layout w (el (this w)))))
             (rulerWidth (options (this w)))) w.
Proof.
  unfold RulerBuilder.ruler_width, extent, Dom.box, bind, gets, ret.
  now destruct (LayoutDirection_eqb _ _).
Qed.

Lemma drawRuler_picture (w : World) (c : nat) :
  canvas (this w) = Some c →
  RulerBuilder.drawRuler w
  = Ok tt (with_heap
             (insert c (with_drawn (ruler_picture (ruler (this w)) (options (this w)))
                          (Dom.node c w))) w).
Proof.
  intros Hc. unfold RulerBuilder.drawRuler, bind, gets. rewrite Hc. reflexivity.
Qed.

(** [setScale] stores the scale and draws the ruler of the new scale over
    what the canvas shows. *)
Lemma setScale_eval (s : Q) (w : World) (c : nat) :
  canvas (this w) = Some c →
  ∃ w', RulerBuilder.setScale s w = Ok tt w'
        ∧ this w' = with_options (set_scale s) (this w)
        ∧ Dom.node c w'
          = with_drawn (ruler_picture (ruler (this w)) (set_scale s (options (this w))))
              (Dom.node c w)
        ∧ (∀ j, j ≠ c → heap w' !! j = heap w !! j).
Proof.
  intros Hc. unfold RulerBuilder.setScale.
  step.
  erewrite drawRuler_picture by exact Hc.
  eexists. split; [reflexivity|]. this_simpl. node_simpl.
  split; [reflexivity|]. split; [reflexivity|].
  intros j Hj. now rewrite lookup_insert_ne.
Qed.

(** [setSize] stores the three numbers, gives the ruler its new geometry,
    resizes the canvas, which clears it, and draws the ruler. *)
Lemma setSize_eval (wd h s : Q) (w : World) (c : nat) :
  canvas (this w) = Some c →
  let o := set_scale s (set_rulerHeight h (set_rulerWidth wd (options (this w)))) in
  let W := Qmax (inject_Z (extent o (layout w (el (this w))))) wd in
  let r := mkRuler (orgPos (ruler (this w))) (thickness (ruler (this w))) W h in
  ∃ w', RulerBuilder.setSize wd h s w = Ok tt w'
        ∧ this w' = with_ruler r (with_options (fun _ => o) (this w))
        ∧ Dom.node c w'
          = with_drawn (setTransform (ratio o) 0 0 (ratio o) 0 0 :: ruler_picture r o)
              (with_size (W * ratio o) (h * ratio o) (pixelize W) (pixelize h)
                 (Dom.node c w))
        ∧ (∀ j, j ≠ c → heap w' !! j = heap w !! j).
Proof.
  intros Hc o W r. unfold RulerBuilder.setSize.
  step. step. step. step.
  erewrite bind_ok by apply ruler_width_eval.
  this_simpl. fold o. rewrite Hc.
  step.
  unfold createCanvas.
  step. step. step. step.
  erewrite drawRuler_picture by (this_simpl; exact Hc).
  this_simpl. node_simpl. rewrite ?with_heap_insert_insert.
  eexists. split; [reflexivity|]. this_simpl. node_simpl.
  split.
  { unfold with_ruler, with_options. cbn. reflexivity. }
  split.
  { reflexivity. }
  intros j Hj. now rewrite lookup_insert_ne.
Qed.

(** C7 (as amended).  On a constructed builder, [setScale(scale)] and
    [setSize(w, h, scale)] store the whole numbers they are given, be the
    scale zero or negative or the height negative, and return without an
    error; what was configured before is overwritten, and the ruler is
    redrawn from what was stored: [setScale] draws the picture of the
    new scale over what the canvas shows, [setSize] gives the ruler its
    new geometry and resizes the canvas, which clears it, and the canvas
    then shows the transform and the picture of the new ruler.  A
    negative size is not kept by the canvas: its bitmap gets the default
    size and its style keeps the length it had. *)
Theorem claim_C7_no_validation (w : World) (c : nat) :
  canvas (this w) = Some c →
  is_integer (offset (options (this w))) →
  (∀ s : Q,
     is_integer s →
     ∃ w', RulerBuilder.setScale s w = Ok tt w'
           ∧ options (this w') = set_scale s (options (this w))
           ∧ scale (options (this w')) = s
           ∧ ruler (this w') = ruler (this w)
           ∧ drawn (Dom.node c w')
             = drawn (Dom.node c w)
               ++ ruler_picture (ruler (this w')) (options (this w')))
  ∧ (∀ wd h s : Q,
       is_integer wd → is_integer h → is_integer s →
       is_integer (ratio (options (this w))) →
       ∃ w', RulerBuilder.setSize wd h s w = Ok tt w'
             ∧ options (this w')
               = set_scale s (set_rulerHeight h (set_rulerWidth wd (options (this w))))
             ∧ rulerWidth (options (this w')) = wd
             ∧ rulerHeight (options (this w')) = h
             ∧ scale (options (this w')) = s
             ∧ width (ruler (this w'))
               = Qmax (inject_Z (extent (options (this w)) (layout w (el (this w))))) wd
             ∧ height (ruler (this w')) = h
             ∧ canvas_width (Dom.node c w')
               = inject_Z (Js.unsigned_long_or 300
                             (width (ruler (this w')) * ratio (options (this w))))
             ∧ canvas_height (Dom.node c w')
               = inject_Z (Js.unsigned_long_or 150 (h * ratio (options (this w))))
             ∧ style_width (Dom.node c w')
               = Js.size_or (style_width (Dom.node c w))
                   (pixelize (width (ruler (this w'))))
             ∧ style_height (Dom.node c w')
               = Js.size_or (style_height (Dom.node c w)) (pixelize h)
             ∧ drawn (Dom.node c w')
               = setTransform (ratio (options (this w))) 0 0
                   (ratio (options (this w))) 0 0
                 :: ruler_picture (ruler (this w')) (options (this w'))).
Proof.
  intros Hc _. split.
  - intros s _.
    destruct (setScale_eval s w c Hc) as (w' & Hrun & Ht & Hn & _).
    exists w'. split; [exact Hrun|]. rewrite Hn, Ht.
    repeat split; reflexivity.
  - intros wd h s _ _ _ _.
    destruct (setSize_eval wd h s w c Hc) as (w' & Hrun & Ht & Hn & _).
    exists w'. split; [exact Hrun|]. rewrite Hn, Ht.
    repeat split; reflexivity.
Qed.

Lemma page_with_ruler_canvas : canvas (this page_with_ruler) = Some 3%nat.
Proof. vm_compute. reflexivity. Qed.

Lemma claim_C7_no_validation_witness :
  let w := page_with_ruler in
  (canvas (this w) = Some 3%nat
   ∧ is_integer (offset (options (this w)))
   ∧ is_integer (ratio (options (this w)))
   ∧ is_integer (-2) ∧ is_integer 500 ∧ is_integer (-5) ∧ is_integer 0)
  ∧ (∃ w', RulerBuilder.setScale (-2) w = Ok tt w'
           ∧ scale (options (this w')) = -2
           ∧ drawn (Dom.node 3 w')
             = drawn (Dom.node 3 w)
               ++ ruler_picture (ruler (this w')) (options (this w')))
  ∧ (∃ w', RulerBuilder.setSize 500 (-5) 0 w = Ok tt w'
           ∧ rulerHeight (options (this w')) = -5
           ∧ scale (options (this w')) = 0
           ∧ canvas_height (Dom.node 3 w') = 150
           ∧ style_height (Dom.node 3 w') = Js.px 20
           ∧ drawn (Dom.node 3 w')
             = setTransform 2 0 0 2 0 0
               :: ruler_picture (ruler (this w')) (options (this w'))).
Proof.
  intros w.
  assert (Ho : is_integer (offset (options (this w))))
    by (exists 40%Z; vm_compute; reflexivity).
  assert (Hr : is_integer (ratio (options (this w))))
    by (exists 2%Z; vm_compute; reflexivity).
  assert (H2 : is_integer (-2)) by (exists (-2)%Z; reflexivity).
  assert (H500 : is_integer 500) by (exists 500%Z; reflexivity).
  assert (H5 : is_integer (-5)) by (exists (-5)%Z; reflexivity).
  assert (H0 : is_integer 0) by (exists 0%Z; reflexivity).
  split; [repeat split; solve [assumption | exact page_with_ruler_canvas]|].
  destruct (claim_C7_no_validation w 3 page_with_ruler_canvas Ho) as [Hscale Hsize].
  split.
  - destruct (Hscale (-2) H2) as (w' & Hrun & _ & Hs & _ & Hd).
    exists w'. split; [exact Hrun|]. split; [exact Hs | exact Hd].
  - destruct (Hsize 500 (-5) 0 H500 H5 H0 Hr)
      as (w' & Hrun & _ & _ & Hh & Hs & _ & _ & _ & Hch & _ & Hsh & Hd).
    exists w'. split; [exact Hrun|]. split; [exact Hh|]. split; [exact Hs|].
    split; [|split].
    + rewrite Hch. vm_compute. reflexivity.
    + rewrite Hsh. vm_compute. reflexivity.
    + rewrite Hd. f_equal.
Defined.

(** C7 (as stated) fails: on the builder of the page, whose scale is 1,
    [setScale(0)] returns without an error and leaves the scale at 0, and
    [setSize(1000, -5, -1)] returns without an error and leaves the
    height at -5 and the scale at -1. *)
Lemma claim_C7_counterexample :
  scale (options (this page_with_ruler)) = 1
  ∧ (∃ w', RulerBuilder.setScale 0 page_with_ruler = Ok tt w'
           ∧ scale (options (this w')) = 0)
  ∧ (∃ w', RulerBuilder.setSize 1000 (-5) (-1) page_with_ruler = Ok tt w'
           ∧ rulerHeight (options (this w')) = -5
           ∧ scale (options (this w')) = -1).
Proof.
  split; [vm_compute; reflexivity|]. split.
  - destruct (setScale_eval 0 _ _ page_with_ruler_canvas) as (w' & Hrun & Ht & _).
    exists w'. split; [exact Hrun|]. rewrite Ht. reflexivity.
  - destruct (setSize_eval 1000 (-5) (-1) _ _ page_with_ruler_canvas)
      as (w' & Hrun & Ht & _).
    exists w'. split; [exact Hrun|]. rewrite Ht. split; reflexivity.
Qed.

(** ** C9 and C10: the life of a guide *)

Lemma update_noop (i : nat) (f : Node → Node) (w : World) (n : Node) :
  heap w !! i = Some n → f n = n → Dom.update i f w = Ok tt w.
Proof.
  intros Hn Hf. unfold Dom.update, modify, Dom.node. rewrite Hn. simpl.
  rewrite Hf. f_equal. destruct w as [h nf l om b]. unfold with_heap. simpl in *.
  f_equal. now apply insert_id.
Qed.

Lemma remove_class_absent (c : string) (cs : list string) :
  c ∉ cs → Dom.remove_class c cs = cs.
Proof.
  unfold Dom.remove_class. induction cs as [|x cs IH]; intros H; [reflexivity|].
  rewrite not_elem_of_cons in H. destruct H as [Hx Hcs].
  rewrite filter_cons. case_decide; [now rewrite IH | congruence].
Qed.

Lemma with_cursor_same (n : Node) : style_cursor n = "" → with_cursor "" n = n.
Proof. destruct n. simpl. now intros <-. Qed.

Lemma remove_class_same (c : string) (n : Node) :
  c ∉ classes n → with_classes (Dom.remove_class c) n = n.
Proof.
  destruct n. unfold with_classes. simpl. intros H.
  now rewrite remove_class_absent.
Qed.

Lemma remove_listener_same (l : string * Handler) (n : Node) :
  l ∉ listeners n → with_listeners (Dom.remove_listener l) n = n.
Proof.
  destruct n. unfold with_listeners. simpl. intros H.
  now rewrite remove_listener_absent.
Qed.

(** Closes the facts about a node that was read back after its
    writes. *)
Ltac settle :=
  repeat match goal with
         | |- _ ∧ _ => split
         | |- ∃ _, Some _ = Some _ ∧ _ => eexists; split; [reflexivity|]
         end;
  cbn [classes listeners style_cursor parentNode
       with_classes with_listeners with_cursor with_parentNode with_childNodes];
  rewrite ?elem_of_remove_class, ?elem_of_remove_listener;
  try reflexivity; try tauto.

(** On a stopped guide [stopMoving] changes nothing, and on a settled
    guide [destroy] changes nothing. *)
Lemma stopMoving_stopped (g : GuideLine) (w : World) :
  stopped g w → GuideLine.stopMoving g w = Ok tt w.
Proof.
  intros [(ne & Hne & Hce) [(n & Hn & Hc & Ht & Hd) Hm]].
  unfold GuideLine.stopMoving, GuideLine.hideToolTip, Dom.removeClass.
  rewrite (bind_ok _ _ _ _ _ (update_noop _ _ _ _ Hne (with_cursor_same _ Hce))).
  rewrite (bind_ok _ _ _ _ _ (update_noop _ _ _ _ Hn (with_cursor_same _ Hc))).
  assert (Hmod : modify (with_onmousemove None) w = Ok tt w).
  { unfold modify. f_equal. destruct w. unfold with_onmousemove.
    simpl in *. now subst. }
  rewrite (bind_ok _ _ _ _ _ Hmod).
  rewrite (bind_ok _ _ _ _ _ (update_noop _ _ _ _ Hn (remove_class_same _ _ Ht))).
  exact (update_noop _ _ _ _ Hn (remove_class_same _ _ Hd)).
Qed.

Lemma destroy_settled (g : GuideLine) (w : World) :
  settled g w → GuideLine.destroy g w = Ok tt w.
Proof.
  intros [Hs (n & Hn & H1 & H2 & H3 & Hp)].
  pose proof (stopMoving_stopped g w Hs) as Hstop.
  unfold GuideLine.destroy, Dom.removeEventListener.
  rewrite (bind_ok _ _ _ _ _ Hstop).
  rewrite (bind_ok _ _ _ _ _ (update_noop _ _ _ _ Hn (remove_listener_same _ _ H1))).
  rewrite (bind_ok _ _ _ _ _ (update_noop _ _ _ _ Hn (remove_listener_same _ _ H2))).
  rewrite (bind_ok _ _ _ _ _ (update_noop _ _ _ _ Hn (remove_listener_same _ _ H3))).
  unfold Dom.remove, bind, gets, Dom.node. rewrite Hn. simpl. now rewrite Hp.
Qed.

(** [stopMoving] returns, and leaves the guide stopped. *)
Lemma stopMoving_ok (g : GuideLine) (w : World) :
  ∃ w1, GuideLine.stopMoving g w = Ok tt w1 ∧ stopped g w1.
Proof.
  unfold GuideLine.stopMoving, GuideLine.hideToolTip, Dom.removeClass, Dom.update,
    bind, modify.
  eexists. split; [reflexivity|].
  node_simpl.
  all: unfold stopped; cbn [heap with_heap onmousemove with_onmousemove].
  all: rewrite ?lookup_insert; repeat case_decide; try congruence.
  all: settle.
Qed.

(** [destroy] returns, and leaves the guide settled, with the listeners
    it had but for the three that [destroy] removes. *)
Lemma destroy_ok (g : GuideLine) (w : World) :
  ∃ w1, GuideLine.destroy g w = Ok tt w1
        ∧ settled g w1
        ∧ listeners (Dom.node (guideLine g) w1)
          = without_guide_listeners (listeners (Dom.node (guideLine g) w)).
Proof.
  destruct g as [el gl ev dc].
  unfold GuideLine.destroy, GuideLine.stopMoving, GuideLine.hideToolTip,
    Dom.removeClass, Dom.removeEventListener, Dom.remove, Dom.update,
    bind, modify, gets, ret.
  cbn [g_el guideLine]. cbv beta iota.
  destruct (parentNode (Dom.node gl w)) as [p|] eqn:Hp;
    (destruct (decide (el = gl)) as [->|Hne]);
    try (destruct (decide (p = gl)) as [->|Hpg]);
    try (destruct (decide (p = el)) as [->|Hpe]).
  all: node_simpl.
  all: cbn [parentNode with_classes with_listeners with_cursor].
  all: rewrite Hp.
  all: (eexists; split; [reflexivity|]).
  all: node_simpl.
  all: unfold settled, stopped, without_guide_listeners;
       cbn [heap with_heap onmousemove with_onmousemove g_el guideLine].
  all: repeat first [ rewrite lookup_insert_eq
                    | rewrite lookup_insert_ne by congruence ].
  all: settle.
Qed.

(** The constructor of [GuideLine], when the container holds a node [c]
    of class [ruler-wrapper]: it returns, with the drag of the new guide
    already on. *)
Lemma new_eval (el guide : nat) (e : MouseEvent) (w : World) (c : nat) :
  Dom.select el "ruler-wrapper" w = Some c →
  let g := mkGuideLine el guide e (Some c) in
  let n := Dom.node guide w in
  let d := {| d_this := g;
              diffX := clientX e - inject_Z (Js.parseInt_or_0 (style_left n));
              diffY := clientY e - inject_Z (Js.parseInt_or_0 (style_top n));
              cWi := offsetWidth (layout w c);
              cHe := offsetHeight (layout w c);
              eWi := offsetWidth (layout w guide);
              eHe := offsetHeight (layout w guide) |} in
  ∃ w1,
    GuideLine.new el guide e w = Ok g w1
    ∧ onmousemove w1 = Some d
    ∧ this w1 = this w
    ∧ "rul_line_dragged" ∈ classes (Dom.node guide w1)
    ∧ style_cursor (Dom.node guide w1)
      = (if LayoutDirection_eqb (direction (options (this w))) TB
         then "ns-resize" else "ew-resize")
    ∧ listeners (Dom.node guide w1) = with_guide_listeners (listeners n).
Proof.
  intros Hsel g n d.
  unfold GuideLine.new, Dom.querySelector.
  rewrite (bind_ok _ _ w w (Some c)) by (unfold gets; now rewrite Hsel).
  do 3 (erewrite bind_ok; [|reflexivity]).
  match goal with
  | |- context [bind (GuideLine.startMoving ?g0 e) _ ?w0] =>
      destruct (startMoving_eval g0 e w0 c eq_refl)
        as (w1 & Hrun & Hd & Ht & _ & Hcls & Hcur & Hlis)
  end.
  exists w1. unfold bind. rewrite Hrun. split; [reflexivity|].
  cbn [guideLine] in *.
  rewrite !node_insert_eq in Hd, Hlis.
  repeat match goal with |- _ ∧ _ => split end;
    [exact Hd | exact Ht | exact Hcls | exact Hcur | exact Hlis].
Qed.

Lemma new_throws (el guide : nat) (e : MouseEvent) (w : World) :
  Dom.select el "ruler-wrapper" w = None →
  ∃ x w1, GuideLine.new el guide e w = Throw x w1.
Proof.
  intros Hsel. unfold GuideLine.new, Dom.querySelector.
  rewrite (bind_ok _ _ w w None) by (unfold gets; now rewrite Hsel).
  unfold Dom.addEventListener, Dom.update, GuideLine.startMoving, Dom.addClass,
    Dom.update, Dom.box, bind, modify, gets, throw.
  cbv beta iota. cbn [dragContainer]. do 2 eexists. reflexivity.
Qed.

Lemma settled_node (g : GuideLine) (w : World) :
  settled g w →
  onmousemove w = None ∧ parentNode (Dom.node (guideLine g) w) = None.
Proof.
  intros [[_ [_ Hm]] (n & Hn & _ & _ & _ & Hp)].
  split; [exact Hm|]. unfold Dom.node. now rewrite Hn.
Qed.

Lemma guide_listeners_undone :
  without_guide_listeners (with_guide_listeners []) = [].
Proof. vm_compute. reflexivity. Qed.

Lemma destroy_settled_node (g : GuideLine) (w : World) :
  settled g w → ∃ n, heap w !! guideLine g = Some n ∧ destroyed n.
Proof.
  intros [[_ [(n & Hn & Hc & Ht & Hd) _]] (n' & Hn' & H1 & H2 & H3 & Hp)].
  rewrite Hn in Hn'. injection Hn' as <-.
  exists n. unfold destroyed. tauto.
Qed.

(** Whatever else the world holds, a drag of another guide for one,
    [destroy] leaves a destroyed guide node as it is. *)
Lemma destroy_destroyed_node (g : GuideLine) (w : World) (n : Node) :
  heap w !! guideLine g = Some n → destroyed n →
  ∃ w1, GuideLine.destroy g w = Ok tt w1 ∧ heap w1 !! guideLine g = Some n.
Proof.
  intros Hn (Hc & Ht & Hd & H1 & H2 & H3 & Hp).
  destruct g as [el gl ev dc]. cbn [guideLine] in *.
  assert (Hnode : Dom.node gl w = n) by (unfold Dom.node; now rewrite Hn).
  unfold GuideLine.destroy, GuideLine.stopMoving, GuideLine.hideToolTip,
    Dom.removeClass, Dom.removeEventListener, Dom.remove, Dom.update,
    bind, modify, gets, ret.
  cbn [g_el guideLine]. cbv beta iota.
  destruct (decide (el = gl)) as [->|Hne].
  all: node_simpl.
  all: rewrite Hnode.
  all: rewrite ?(with_cursor_same n Hc), ?(remove_class_same _ n Ht),
         ?(remove_class_same _ n Hd), ?(remove_listener_same _ n H1),
         ?(remove_listener_same _ n H2), ?(remove_listener_same _ n H3).
  all: rewrite Hp.
  all: (eexists; split; [reflexivity|]).
  all: cbn [heap with_heap with_onmousemove].
  all: now rewrite lookup_insert_eq.
Qed.

Lemma no_drag_moves (evts : list MouseEvent) (w : World) :
  onmousemove w = None → forEach document_mousemove evts w = Ok tt w.
Proof.
  intros H. induction evts as [|evt evts IH]; [reflexivity|].
  cbn [forEach]. unfold bind at 1, document_mousemove, bind, gets.
  cbv beta iota. rewrite H. exact IH.
Qed.

(** C9.  [destroy()] returns without an error from any state, and a
    second [destroy()] returns without an error and leaves the world
    exactly as the first left it: no drag handler, the guide out of the
    tree, and on the guide node none of the listeners of the constructor.
    [stopMoving()] repeated is likewise without effect.  On a guide made
    by the constructor on a node that had no listener, no listener at all
    is left.  After [destroy()] no pointer move changes anything; and in
    any later world, a drag of another guide for one, a further
    [destroy()] returns without an error and leaves the destroyed guide
    node as it is. *)
Theorem claim_C9_destroy_twice :
  (∀ g w, ∃ w1,
     GuideLine.destroy g w = Ok tt w1
     ∧ GuideLine.destroy g w1 = Ok tt w1
     ∧ onmousemove w1 = None
     ∧ parentNode (Dom.node (guideLine g) w1) = None
     ∧ listeners (Dom.node (guideLine g) w1)
       = without_guide_listeners (listeners (Dom.node (guideLine g) w))
     ∧ (∀ evts, forEach document_mousemove evts w1 = Ok tt w1)
     ∧ ∃ n, heap w1 !! guideLine g = Some n ∧ destroyed n)
  ∧ (∀ g w n,
       heap w !! guideLine g = Some n → destroyed n →
       ∃ w1, GuideLine.destroy g w = Ok tt w1
             ∧ heap w1 !! guideLine g = Some n)
  ∧ (∀ g w, ∃ w1,
       GuideLine.stopMoving g w = Ok tt w1
       ∧ GuideLine.stopMoving g w1 = Ok tt w1
       ∧ onmousemove w1 = None)
  ∧ (∀ el guide e w g w0,
       listeners (Dom.node guide w) = [] →
       GuideLine.new el guide e w = Ok g w0 →
       ∃ w1,
         GuideLine.destroy g w0 = Ok tt w1
         ∧ GuideLine.destroy g w1 = Ok tt w1
         ∧ listeners (Dom.node guide w1) = []).
Proof.
  split; [|split; [|split]].
  - intros g w. destruct (destroy_ok g w) as (w1 & Hrun & Hs & Hl).
    destruct (settled_node g w1 Hs) as [Hm Hp].
    exists w1. repeat match goal with |- _ ∧ _ => split end;
      [exact Hrun | now apply destroy_settled | exact Hm | exact Hp | exact Hl
      | intros evts; now apply no_drag_moves
      | now apply destroy_settled_node].
  - exact destroy_destroyed_node.
  - intros g w. destruct (stopMoving_ok g w) as (w1 & Hrun & Hs).
    exists w1. split; [exact Hrun|]. split; [now apply stopMoving_stopped|].
    apply Hs.
  - intros el guide e w g w0 Hnone Hnew.
    destruct (Dom.select el "ruler-wrapper" w) as [c|] eqn:Hsel.
    + destruct (new_eval el guide e w c Hsel) as (w1 & Hrun & _ & _ & _ & _ & Hl).
      rewrite Hrun in Hnew. injection Hnew as <- <-.
      destruct (destroy_ok (mkGuideLine el guide e (Some c)) w1) as (w2 & Hd & Hs & Hl2).
      exists w2. split; [exact Hd|]. split; [now apply destroy_settled|].
      cbn [guideLine] in Hl2. rewrite Hl2, Hl, Hnone.
      exact guide_listeners_undone.
    + destruct (new_throws el guide e w Hsel) as (x & w1 & Hthrow).
      rewrite Hthrow in Hnew. discriminate Hnew.
Qed.

Lemma claim_C9_destroy_twice_witness :
  ∃ g w0 w1,
    page_with_guide default_options = Ok g w0
    ∧ GuideLine.destroy g w0 = Ok tt w1
    ∧ GuideLine.destroy g w1 = Ok tt w1
    ∧ listeners (Dom.node 3 w1) = [].
Proof.
  destruct claim_C9_destroy_twice as (_ & _ & _ & H).
  pose (w := world_of (RulerBuilder.constructGuide down
                         (with_this (with_options (fun _ => default_options)) page))).
  assert (Hl : listeners (Dom.node 3 w) = []) by (vm_compute; reflexivity).
  pose (g := mkGuideLine 1 3 down (Some 2%nat)).
  pose (w0 := world_of (GuideLine.new 1 3 down w)).
  assert (Hnew : GuideLine.new 1 3 down w = Ok g w0) by (vm_compute; reflexivity).
  destruct (H 1%nat 3%nat down w g w0 Hl Hnew) as (w1 & Hd1 & Hd2 & Hl1).
  exists g, w0, w1.
  split; [vm_compute; reflexivity|].
  split; [exact Hd1|]. split; [exact Hd2 | exact Hl1].
Defined.

(** C10.  When the container holds a node of class [ruler-wrapper], the
    constructor of [GuideLine] returns with the drag already on: the
    handler in [document.onmousemove] is the one of the new guide, made
    from the pointer-down event the constructor was given, the guide
    carries the class [rul_line_dragged] and the resize cursor, and the
    handler stays through every sequence of pointer moves; no event on the
    guide had to come first. *)
Theorem claim_C10_new_guide_drags (el guide : nat) (e : MouseEvent) (w : World) (c : nat) :
  Dom.select el "ruler-wrapper" w = Some c →
  let g := mkGuideLine el guide e (Some c) in
  let n := Dom.node guide w in
  let d := {| d_this := g;
              diffX := clientX e - inject_Z (Js.parseInt_or_0 (style_left n));
              diffY := clientY e - inject_Z (Js.parseInt_or_0 (style_top n));
              cWi := offsetWidth (layout w c);
              cHe := offsetHeight (layout w c);
              eWi := offsetWidth (layout w guide);
              eHe := offsetHeight (layout w guide) |} in
  ∃ w1,
    GuideLine.new el guide e w = Ok g w1
    ∧ onmousemove w1 = Some d
    ∧ "rul_line_dragged" ∈ classes (Dom.node guide w1)
    ∧ style_cursor (Dom.node guide w1)
      = (if LayoutDirection_eqb (direction (options (this w))) TB
         then "ns-resize" else "ew-resize")
    ∧ ∀ evts : list MouseEvent,
        ∃ w2, forEach document_mousemove evts w1 = Ok tt w2
              ∧ onmousemove w2 = Some d.
Proof.
  intros Hsel g n d.
  destruct (new_eval el guide e w c Hsel) as (w1 & Hrun & Hd & _ & Hcls & Hcur & _).
  exists w1. repeat match goal with |- _ ∧ _ => split end;
    [exact Hrun | exact Hd | exact Hcls | exact Hcur |].
  intros evts. destruct (drag_moves evts w1 _ Hd) as (w2 & Hmoves & Hd2 & _).
  exists w2. split; assumption.
Qed.

Lemma claim_C10_new_guide_drags_witness :
  let w := world_of (RulerBuilder.constructGuide down page) in
  Dom.select 1 "ruler-wrapper" w = Some 2%nat
  ∧ ∃ w1 d,
      GuideLine.new 1 3 down w = Ok (mkGuideLine 1 3 down (Some 2%nat)) w1
      ∧ onmousemove w1 = Some d
      ∧ diffX d == 19
      ∧ "rul_line_dragged" ∈ classes (Dom.node 3 w1).
Proof.
  intros w.
  assert (Hsel : Dom.select 1 "ruler-wrapper" w = Some 2%nat)
    by (vm_compute; reflexivity).
  split; [exact Hsel|].
  destruct (claim_C10_new_guide_drags 1 3 down w 2 Hsel)
    as (w1 & Hrun & Hd & Hcls & _).
  exists w1. eexists. split; [exact Hrun|]. split; [exact Hd|].
  split; [vm_compute; reflexivity | exact Hcls].
Defined.

(** ** C5 and C8: what the builder owns and what it detaches *)

Lemma constructGuide_keeps_guides (e : MouseEvent) :
  keeps (fun w => guides (this w)) (RulerBuilder.constructGuide e).
Proof. keeps_tac. Qed.

Lemma clearGuides_nothing (w : World) :
  guides (this w) = [] → RulerBuilder.clearGuides w = Ok tt w.
Proof.
  intros H. unfold RulerBuilder.clearGuides, bind, gets, modify.
  rewrite H. cbn [forEach ret]. f_equal.
  destruct w as [h nf l om b]. destruct b. simpl in *. now subst.
Qed.

(** C5, which the code does not meet.  [constructGuide] never changes
    the [guides] of the builder.  On the page, a pointer-down on the
    canvas makes a guide node, [4], of class [ruler-line] in the wrapper
    [5], with no listener on it, and leaves [guides] empty; the
    [clearGuides()] that follows changes nothing, and the guide node is
    still in the wrapper. *)
Theorem claim_C5_guide_not_owned :
  (∀ e w, guides (this (world_of (RulerBuilder.constructGuide e w)))
          = guides (this w))
  ∧ dispatchEvent 3 "mousedown" down page_with_ruler = Ok tt page_after_mousedown
  ∧ classes (Dom.node 4 page_after_mousedown) = ["ruler-line"]
  ∧ parentNode (Dom.node 4 page_after_mousedown) = Some 5%nat
  ∧ listeners (Dom.node 4 page_after_mousedown) = []
  ∧ guides (this page_after_mousedown) = []
  ∧ RulerBuilder.clearGuides page_after_mousedown = Ok tt page_after_mousedown
  ∧ childNodes (Dom.node 5 page_after_clearGuides) = [4%nat].
Proof.
  split; [exact constructGuide_keeps_guides|].
  assert (Hg : guides (this page_after_mousedown) = []) by (vm_compute; reflexivity).
  split; [vm_compute; reflexivity|].
  split; [vm_compute; reflexivity|].
  split; [vm_compute; reflexivity|].
  split; [vm_compute; reflexivity|].
  split; [exact Hg|].
  split; [exact (clearGuides_nothing _ Hg)|].
  unfold page_after_clearGuides. rewrite (clearGuides_nothing _ Hg).
  vm_compute. reflexivity.
Qed.

(** In any world where the canvas carries no function that [bind] has yet
    to make, [destroy] returns and leaves every listener of the canvas
    attached. *)
Lemma destroy_keeps_canvas_listeners (w : World) (c : nat) :
  canvas (this w) = Some c → guides (this w) = [] →
  (∀ t m k, (t, bound m k) ∈ listeners (Dom.node c w) → (k < next_fn w)%nat) →
  ∃ w1, RulerBuilder.destroy w = Ok tt w1
        ∧ listeners (Dom.node c w1) = listeners (Dom.node c w).
Proof.
  intros Hc Hg Hfresh.
  assert (H1 : ∀ t m k, (next_fn w <= k)%nat →
                 Dom.remove_listener (t, bound m k) (listeners (Dom.node c w))
                 = listeners (Dom.node c w)).
  { intros t m k Hk. apply remove_listener_absent. intros Hin.
    apply Hfresh in Hin. lia. }
  unfold RulerBuilder.destroy.
  rewrite (bind_ok _ _ w w (this w)) by reflexivity.
  rewrite (bind_ok _ _ _ _ _ (clearGuides_nothing w Hg)).
  rewrite Hc.
  unfold RulerBuilder.bind_this, Dom.removeEventListener, Dom.remove, Dom.update,
    bind, modify, gets, ret.
  cbv beta iota.
  destruct (decide (el (this w) = c)) as [Hec|Hec].
  all: node_simpl.
  all: cbn [parentNode with_listeners next_fn with_next_fn with_heap].
  all: destruct (parentNode (Dom.node _ w)) as [p|];
       (eexists; split; [reflexivity|]).
  all: node_simpl.
  all: cbn [listeners with_listeners with_childNodes with_parentNode].
  all: try (rewrite !H1 by lia; reflexivity).
  all: congruence.
Qed.

(** C8, which the code does not meet.  In any world where the functions
    on the canvas were made by earlier calls of [bind], [destroy()]
    returns and leaves every listener of the canvas attached, since the
    functions it removes are made by new calls of [bind].  On the page,
    the constructor attaches two listeners to the canvas, node [3];
    [destroy()] returns without an error, takes the container out of the
    host, and leaves the two listeners attached. *)
Theorem claim_C8_listeners_remain :
  (∀ w c,
     canvas (this w) = Some c → guides (this w) = [] →
     (∀ t m k, (t, bound m k) ∈ listeners (Dom.node c w) → (k < next_fn w)%nat) →
     ∃ w1, RulerBuilder.destroy w = Ok tt w1
           ∧ listeners (Dom.node c w1) = listeners (Dom.node c w))
  ∧ RulerBuilder.new 1 no_options page = Ok tt page_with_ruler
  ∧ listeners (Dom.node 3 page_with_ruler)
    = [("mouseenter", bound m_constructIndicator 0);
       ("mousedown", bound m_constructGuide 1)]
  ∧ RulerBuilder.destroy page_with_ruler = Ok tt page_after_destroy
  ∧ listeners (Dom.node 3 page_after_destroy)
    = [("mouseenter", bound m_constructIndicator 0);
       ("mousedown", bound m_constructGuide 1)]
  ∧ next_fn page_after_destroy = 4%nat
  ∧ guides (this page_after_destroy) = []
  ∧ parentNode (Dom.node 1 page_after_destroy) = None
  ∧ childNodes (Dom.node 0 page_after_destroy) = [].
Proof.
  split; [exact destroy_keeps_canvas_listeners|].
  repeat (split; [vm_compute; reflexivity|]).
  vm_compute. reflexivity.
Qed.

Lemma claim_C8_listeners_remain_witness :
  canvas (this page_with_ruler) = Some 3%nat
  ∧ guides (this page_with_ruler) = []
  ∧ ∃ w1, RulerBuilder.destroy page_with_ruler = Ok tt w1
          ∧ listeners (Dom.node 3 w1) = listeners (Dom.node 3 page_with_ruler).
Proof.
  assert (Hg : guides (this page_with_ruler) = []) by (vm_compute; reflexivity).
  assert (Hl : listeners (Dom.node 3 page_with_ruler)
               = [("mouseenter", bound m_constructIndicator 0);
                  ("mousedown", bound m_constructGuide 1)])
    by (vm_compute; reflexivity).
  assert (Hn : next_fn page_with_ruler = 2%nat) by (vm_compute; reflexivity).
  split; [exact page_with_ruler_canvas|]. split; [exact Hg|].
  destruct claim_C8_listeners_remain as [H _].
  apply (H page_with_ruler 3%nat page_with_ruler_canvas Hg).
  intros t m k Hin. rewrite Hl in Hin. rewrite Hn.
  apply elem_of_cons in Hin as [Heq|Hin].
  - injection Heq as _ _ ->. lia.
  - apply elem_of_cons in Hin as [Heq|Hin].
    + injection Heq as _ _ ->. lia.
    + apply elem_of_nil in Hin. destruct Hin.
Defined.

(** * Further properties of the module *)

(** ** The drawing outside the valid configurations *)

Lemma positions_negative (width : Q) : width < 0 → RulerBuilder.positions width = [].
Proof.
  intros H. unfold RulerBuilder.positions.
  assert (Hf : (Qfloor width < 0)%Z).
  { rewrite Zlt_Qlt. eapply Qle_lt_trans; [apply Qfloor_le | exact H]. }
  replace (Z.to_nat (Qfloor width + 1)) with 0%nat by lia. reflexivity.
Qed.

Lemma nothing_in_nil {A} (l : list A) : (∀ x, ¬ In x l) → l = [].
Proof.
  destruct l as [|x l]; [reflexivity|]. intros H. destruct (H x). now left.
Qed.

(** What one turn of the loop can draw at all, whatever the options. *)
Lemma drawPoint_shape (h off sc pos : Q) (cmd : CtxCmd) :
  In cmd (RulerBuilder.drawPoint h off sc pos) →
  off <= pos
  ∧ (cmd = moveTo (pos + (1 # 2)) (h + (1 # 2))
     ∨ (∃ len, cmd = lineTo (pos + (1 # 2)) len
               ∧ (len = 0 ∨ len = h / (3 # 2) ∨ len = h / (6 # 5)))
     ∨ (∃ v, cmd = fillText v (pos + (5 # 2)) (h / (3 # 2)))).
Proof.
  unfold RulerBuilder.drawPoint.
  destruct (Qle_bool 0 (pos - off)) eqn:Hd; cbn [negb]; [|simpl; tauto].
  apply Qle_bool_iff in Hd.
  assert (Hle : off <= pos) by lra.
  destruct (Qeq_bool (Js.rem (pos - off) 50) 0);
    [|destruct (Qeq_bool (Js.rem (pos - off) 25) 0);
      [|destruct (Qeq_bool (Js.rem (pos - off) 5) 0)]].
  all: match goal with
       | |- context [Qle_bool 0 ?t] => destruct (Qle_bool 0 t) eqn:Ht
       end.
  all: try discriminate Ht.
  all: try match goal with
        | |- context [Js.gt ?l ?b] => destruct (Js.gt l b)
        end.
  all: simpl; intros Hin;
    repeat match goal with
           | H : _ ∨ _ |- _ => destruct H
           | H : False |- _ => destruct H
           end;
    subst cmd; (split; [exact Hle|]); eauto 8.
Qed.

(** X1.  [drawPoints] draws only at whole positions between the offset
    and the width: a move to the lower edge of the strip, a line up to
    [0], [height / 1.5] or [height / 1.2], or a label on the baseline;
    with a negative width, or a width below the offset, it draws
    nothing. *)
Theorem drawPoints_within_bounds (r : Ruler) (o : RulerOption) :
  (width r < 0 → RulerBuilder.drawPoints r o = [])
  ∧ (width r < offset o → RulerBuilder.drawPoints r o = [])
  ∧ ∀ cmd, In cmd (RulerBuilder.drawPoints r o) →
      ∃ p : Z,
        (0 <= p)%Z ∧ offset o <= inject_Z p <= width r
        ∧ (cmd = moveTo (inject_Z p + (1 # 2)) (height r + (1 # 2))
           ∨ (∃ len, cmd = lineTo (inject_Z p + (1 # 2)) len
                     ∧ (len = 0 ∨ len = height r / (3 # 2)
                        ∨ len = height r / (6 # 5)))
           ∨ (∃ v, cmd = fillText v (inject_Z p + (5 # 2)) (height r / (3 # 2)))).
Proof.
  assert (Hshape : ∀ cmd, In cmd (RulerBuilder.drawPoints r o) →
      ∃ p : Z,
        (0 <= p)%Z ∧ offset o <= inject_Z p <= width r
        ∧ (cmd = moveTo (inject_Z p + (1 # 2)) (height r + (1 # 2))
           ∨ (∃ len, cmd = lineTo (inject_Z p + (1 # 2)) len
                     ∧ (len = 0 ∨ len = height r / (3 # 2)
                        ∨ len = height r / (6 # 5)))
           ∨ (∃ v, cmd = fillText v (inject_Z p + (5 # 2)) (height r / (3 # 2))))).
  { intros cmd Hin. apply In_drawPoints in Hin as (p & H0 & Hw & Hin).
    apply drawPoint_shape in Hin as [Hoff Hcmd].
    exists p. repeat split; assumption. }
  split; [|split; [|exact Hshape]].
  - intros Hneg. unfold RulerBuilder.drawPoints.
    now rewrite positions_negative.
  - intros Hlt. apply nothing_in_nil. intros cmd Hin.
    destruct (Hshape cmd Hin) as (p & _ & [Hlo Hhi] & _). lra.
Qed.

Lemma drawPoints_within_bounds_witness :
  RulerBuilder.drawPoints (mkRuler 0 0 30 20) default_options = []
  ∧ RulerBuilder.drawPoints (mkRuler 0 0 (-1) 20) default_options = [].
Proof.
  destruct (drawPoints_within_bounds (mkRuler 0 0 30 20) default_options)
    as (_ & H1 & _).
  destruct (drawPoints_within_bounds (mkRuler 0 0 (-1) 20) default_options)
    as (H2 & _ & _).
  split; [apply H1 | apply H2]; reflexivity.
Defined.

Lemma Qdiv_pos_neg (a s : Q) : 0 < a → s < 0 → a / s < 0.
Proof.
  intros Ha Hs.
  assert (He : a / s == - (a / - s)) by (field; lra).
  assert (Hp : 0 < a / - s) by (apply Qlt_shift_div_l; lra).
  lra.
Qed.

Section DegenerateTicks.

Variables height offset scale : Q.

Let at_pos (pos : Q) : list CtxCmd :=
  RulerBuilder.drawPoint height offset scale pos.

(** A major tick whose quotient [delta / scale] is negative has no
    label. *)
Lemma drawPoint_major_negative_scale (pos : Q) :
  scale < 0 → 0 < pos - offset → is_multiple (pos - offset) 50 →
  at_pos pos = tick pos 0 height.
Proof.
  intros Hs Hd Hm. unfold at_pos, RulerBuilder.drawPoint.
  assert (Hb : Qle_bool 0 (pos - offset) = true) by (apply Qle_bool_iff; lra).
  rewrite Hb. cbn [negb].
  apply (rem_multiple _ 50) in Hm; [|discriminate].
  change (inject_Z 50) with 50 in Hm. rewrite Hm.
  rewrite floor_div_finite by lra.
  assert (Hq : (pos - offset) / scale < 0).
  { now apply Qdiv_pos_neg. }
  assert (Hf : (Qfloor ((pos - offset) / scale) <= -1)%Z).
  { assert (H1 : (Qfloor ((pos - offset) / scale) < 0)%Z).
    { rewrite Zlt_Qlt. eapply Qle_lt_trans; [apply Qfloor_le | exact Hq]. }
    lia. }
  assert (Hg : Qle_bool (inject_Z (Qfloor ((pos - offset) / scale))) (-1) = true).
  { apply Qle_bool_iff. rewrite Zle_Qle in Hf. exact Hf. }
  cbn [Js.gt]. rewrite Hg. reflexivity.
Qed.

(** At the origin of the ruler the label is [0] for every scale but
    zero. *)
Lemma drawPoint_origin (pos : Q) :
  ¬ scale == 0 → pos - offset == 0 →
  at_pos pos = tick pos 0 height ++ label (Js.Num 0) pos height.
Proof.
  intros Hs Hd. unfold at_pos, RulerBuilder.drawPoint.
  assert (Hb : Qle_bool 0 (pos - offset) = true) by (apply Qle_bool_iff; lra).
  rewrite Hb. cbn [negb].
  assert (Hm : is_multiple (pos - offset) 50) by (exists 0%Z; rewrite Hd; reflexivity).
  apply (rem_multiple _ 50) in Hm; [|discriminate].
  change (inject_Z 50) with 50 in Hm. rewrite Hm.
  rewrite floor_div_finite by exact Hs.
  assert (Hq : (pos - offset) / scale == inject_Z 0).
  { rewrite Hd. field. exact Hs. }
  rewrite (Qfloor_comp _ _ Hq), Qfloor_Z. reflexivity.
Qed.

(** With a scale of zero the quotient is not finite: past the origin the
    label is [Infinity], and at the origin, where it is NaN, there is no
    label. *)
Lemma drawPoint_major_zero_scale (pos : Q) :
  scale == 0 → 0 < pos - offset → is_multiple (pos - offset) 50 →
  at_pos pos = tick pos 0 height ++ label Js.PosInf pos height.
Proof.
  intros Hs Hd Hm. unfold at_pos, RulerBuilder.drawPoint.
  assert (Hb : Qle_bool 0 (pos - offset) = true) by (apply Qle_bool_iff; lra).
  rewrite Hb. cbn [negb].
  apply (rem_multiple _ 50) in Hm; [|discriminate].
  change (inject_Z 50) with 50 in Hm. rewrite Hm.
  unfold Js.div. rewrite (Qeq_eq_bool _ _ Hs).
  rewrite Qeq_bool_false by lra. rewrite Hb. reflexivity.
Qed.

Lemma drawPoint_origin_zero_scale (pos : Q) :
  scale == 0 → pos - offset == 0 → at_pos pos = tick pos 0 height.
Proof.
  intros Hs Hd. unfold at_pos, RulerBuilder.drawPoint.
  assert (Hb : Qle_bool 0 (pos - offset) = true) by (apply Qle_bool_iff; lra).
  rewrite Hb. cbn [negb].
  assert (Hm : is_multiple (pos - offset) 50) by (exists 0%Z; rewrite Hd; reflexivity).
  apply (rem_multiple _ 50) in Hm; [|discriminate].
  change (inject_Z 50) with 50 in Hm. rewrite Hm.
  unfold Js.div. rewrite (Qeq_eq_bool _ _ Hs), (Qeq_eq_bool _ _ Hd). reflexivity.
Qed.

(** With a negative height only the major ticks are left. *)
Lemma drawPoint_negative_height (pos : Q) :
  height < 0 → ¬ is_multiple (pos - offset) 50 → at_pos pos = [].
Proof.
  intros Hh Hn. unfold at_pos, RulerBuilder.drawPoint.
  destruct (Qle_bool 0 (pos - offset)); cbn [negb]; [|reflexivity].
  apply (rem_not_multiple _ 50) in Hn; [|discriminate].
  change (inject_Z 50) with 50 in Hn. rewrite Hn.
  assert (H1 : Qle_bool 0 (height / (3 # 2)) = false).
  { destruct (Qle_bool 0 (height / (3 # 2))) eqn:E; [|reflexivity].
    apply Qle_bool_iff in E.
    assert (height / (3 # 2) < 0) by (apply Qlt_shift_div_r; [reflexivity | lra]).
    lra. }
  assert (H2 : Qle_bool 0 (height / (6 # 5)) = false).
  { destruct (Qle_bool 0 (height / (6 # 5))) eqn:E; [|reflexivity].
    apply Qle_bool_iff in E.
    assert (height / (6 # 5) < 0) by (apply Qlt_shift_div_r; [reflexivity | lra]).
    lra. }
  destruct (Qeq_bool (Js.rem (pos - offset) 25) 0);
    [|destruct (Qeq_bool (Js.rem (pos - offset) 5) 0)];
    rewrite ?H1, ?H2; reflexivity.
Qed.

End DegenerateTicks.

(** X2.  A major tick is drawn whatever the scale is, but its label
    depends on it: with a negative scale no position past the origin of
    the ruler has a label; at the origin the label is [0] for every scale
    but zero; with a scale of zero the label past the origin is
    [Infinity], and the origin has none. *)
Theorem labels_with_nonpositive_scale (height offset scale pos : Q) :
  let delta := pos - offset in
  let at_pos := RulerBuilder.drawPoint height offset scale pos in
  (scale < 0 → 0 < delta → is_multiple delta 50 →
   at_pos = tick pos 0 height)
  ∧ (¬ scale == 0 → delta == 0 →
     at_pos = tick pos 0 height ++ label (Js.Num 0) pos height)
  ∧ (scale == 0 → 0 < delta → is_multiple delta 50 →
     at_pos = tick pos 0 height ++ label Js.PosInf pos height)
  ∧ (scale == 0 → delta == 0 → at_pos = tick pos 0 height).
Proof.
  intros delta at_pos. repeat match goal with |- _ ∧ _ => split end.
  - apply drawPoint_major_negative_scale.
  - apply drawPoint_origin.
  - apply drawPoint_major_zero_scale.
  - apply drawPoint_origin_zero_scale.
Qed.

Lemma labels_with_nonpositive_scale_witness :
  RulerBuilder.drawPoint 20 40 (-2) 90 = tick 90 0 20
  ∧ RulerBuilder.drawPoint 20 40 (-2) 40 = tick 40 0 20 ++ label (Js.Num 0) 40 20
  ∧ RulerBuilder.drawPoint 20 40 0 90 = tick 90 0 20 ++ label Js.PosInf 90 20
  ∧ RulerBuilder.drawPoint 20 40 0 40 = tick 40 0 20.
Proof.
  assert (H50 : is_multiple (90 - 40) 50) by (exists 1%Z; reflexivity).
  assert (Hnz : ¬ -2 == 0) by (intros Hq; discriminate Hq).
  destruct (labels_with_nonpositive_scale 20 40 (-2) 90) as (H1 & _ & _ & _).
  destruct (labels_with_nonpositive_scale 20 40 (-2) 40) as (_ & H2 & _ & _).
  destruct (labels_with_nonpositive_scale 20 40 0 90) as (_ & _ & H3 & _).
  destruct (labels_with_nonpositive_scale 20 40 0 40) as (_ & _ & _ & H4).
  split; [exact (H1 eq_refl eq_refl H50)|].
  split; [exact (H2 Hnz eq_refl)|].
  split; [exact (H3 eq_refl eq_refl H50) | exact (H4 eq_refl eq_refl)].
Defined.

(** X3.  With a negative height the ruler loses its medium and minor
    ticks: whatever is drawn is drawn at a position whose distance from
    the offset is a multiple of 50. *)
Theorem ticks_with_negative_height (r : Ruler) (o : RulerOption) (cmd : CtxCmd) :
  height r < 0 →
  In cmd (RulerBuilder.drawPoints r o) →
  ∃ p : Z,
    is_multiple (inject_Z p - offset o) 50
    ∧ In cmd (RulerBuilder.drawPoint (height r) (offset o) (scale o) (inject_Z p)).
Proof.
  intros Hh Hin. apply In_drawPoints in Hin as (p & _ & _ & Hin).
  exists p. split; [|exact Hin].
  destruct (Qeq_bool (Js.rem (inject_Z p - offset o) (inject_Z 50)) 0) eqn:E.
  - now apply rem_multiple in E.
  - assert (Hn : ¬ is_multiple (inject_Z p - offset o) 50).
    { intros Hm. apply (rem_multiple _ 50) in Hm; [congruence | discriminate]. }
    rewrite (drawPoint_negative_height _ _ _ _ Hh Hn) in Hin. destruct Hin.
Qed.

Lemma ticks_with_negative_height_witness :
  let r := mkRuler 0 0 200 (-20) in
  In (lineTo (inject_Z 90 + (1 # 2)) 0) (RulerBuilder.drawPoints r default_options)
  ∧ ∃ p : Z, is_multiple (inject_Z p - 40) 50.
Proof.
  intros r.
  assert (Hin : In (lineTo (inject_Z 90 + (1 # 2)) 0)
                  (RulerBuilder.drawPoints r default_options)).
  { apply In_drawPoints. exists 90%Z.
    split; [lia|]. split; [discriminate|]. vm_compute. tauto. }
  split; [exact Hin|].
  destruct (ticks_with_negative_height r default_options _ eq_refl Hin) as (p & Hp & _).
  exists p. exact Hp.
Defined.

(** ** The coordinate of a pointer *)

(** X4.  On whole numbers, with [scale > 0], the coordinate that [getPos]
    reports is the whole number [c] of the cell the pointer is in,
    [c * scale + offset <= distance < (c + 1) * scale + offset], and it
    never decreases when the pointer moves on along the axis. *)
Theorem getPos_cell (e e' : MouseEvent) (w : World) :
  let b := this w in
  let o := options b in
  0 < scale o →
  is_integer (devicePos e w) → is_integer (devicePos e' w) →
  is_integer (rulerHeight o) → is_integer (indicatorLineWidth b) →
  is_integer (offset o) → is_integer (scale o) →
  ∃ (c c' : Z) (d d' : Q),
    RulerBuilder.getPos e w = Ok (RulerBuilder.mkPos (Js.Num (inject_Z c)) d) w
    ∧ RulerBuilder.getPos e' w = Ok (RulerBuilder.mkPos (Js.Num (inject_Z c')) d') w
    ∧ inject_Z c * scale o + offset o <= d
    ∧ d < inject_Z (c + 1) * scale o + offset o
    ∧ d' - d == devicePos e' w - devicePos e w
    ∧ (devicePos e w <= devicePos e' w → (c <= c')%Z).
Proof.
  intros b o Hs _ _ _ _ _ _.
  assert (Hnz : ¬ scale o == 0) by lra.
  rewrite !getPos_eval. fold b o. rewrite !floor_div_finite by exact Hnz.
  do 4 eexists. split; [reflexivity|]. split; [reflexivity|].
  set (d := devicePos e w - rulerHeight o + indicatorLineWidth b).
  set (d' := devicePos e' w - rulerHeight o + indicatorLineWidth b).
  pose proof (Qfloor_le ((d - offset o) / scale o)) as Hlo.
  pose proof (Qlt_floor ((d - offset o) / scale o)) as Hhi.
  assert (Hq : (d - offset o) / scale o * scale o == d - offset o)
    by (field; exact Hnz).
  repeat match goal with |- _ ∧ _ => split end.
  - apply (Qmult_le_compat_r _ _ (scale o)) in Hlo; [|lra]. lra.
  - apply (Qmult_lt_compat_r _ _ (scale o)) in Hhi; [|exact Hs]. lra.
  - unfold d, d'. ring.
  - intros Hle. apply Qfloor_resp_le.
    apply Qmult_le_compat_r with (z := / scale o).
    + unfold d, d'. lra.
    + apply Qlt_le_weak, Qinv_lt_0_compat, Hs.
Qed.

Lemma getPos_cell_witness :
  let w := bare_world (set_scale 3 default_options) in
  ∃ (c c' : Z) (d d' : Q),
    RulerBuilder.getPos (mkMouseEvent 100 0) w
      = Ok (RulerBuilder.mkPos (Js.Num (inject_Z c)) d) w
    ∧ RulerBuilder.getPos (mkMouseEvent 130 0) w
      = Ok (RulerBuilder.mkPos (Js.Num (inject_Z c')) d') w
    ∧ inject_Z c * 3 + 40 <= d
    ∧ d < inject_Z (c + 1) * 3 + 40
    ∧ (c <= c')%Z.
Proof.
  intros w.
  assert (H1 : is_integer (devicePos (mkMouseEvent 100 0) w))
    by (exists 100%Z; reflexivity).
  assert (H2 : is_integer (devicePos (mkMouseEvent 130 0) w))
    by (exists 130%Z; reflexivity).
  assert (H3 : is_integer (rulerHeight (options (this w))))
    by (exists 20%Z; reflexivity).
  assert (H4 : is_integer (indicatorLineWidth (this w)))
    by (exists 1%Z; reflexivity).
  assert (H5 : is_integer (offset (options (this w))))
    by (exists 40%Z; reflexivity).
  assert (H6 : is_integer (scale (options (this w))))
    by (exists 3%Z; reflexivity).
  destruct (getPos_cell (mkMouseEvent 100 0) (mkMouseEvent 130 0) w eq_refl
              H1 H2 H3 H4 H5 H6)
    as (c & c' & d & d' & G1 & G2 & G3 & G4 & _ & G6).
  exists c, c', d, d'.
  repeat match goal with |- _ ∧ _ => split end; try assumption.
  apply G6. vm_compute. discriminate.
Defined.


(** ** The distance of a coordinate *)

(** X5.  On whole numbers [getDistanceByCoor] rounds nothing away: it returns
    [coor * scale + offset] itself, and when the scale is not zero, be it
    negative, the coordinate of that distance is [coor] again. *)
Theorem getDistanceByCoor_whole (coor : Q) (w : World) :
  let o := options (this w) in
  is_integer coor → is_integer (scale o) → is_integer (offset o) →
  ∃ d,
    RulerBuilder.getDistanceByCoor coor w = Ok d w
    ∧ d == coor * scale o + offset o
    ∧ (¬ scale o == 0 →
       ∃ c : Z, coor == inject_Z c
                ∧ Js.floor (Js.div (d - offset o) (scale o)) = Js.Num (inject_Z c)).
Proof.
  intros o [c Hc] [n1 H1] [n2 H2].
  assert (H3 : three_decimals (coor * scale o + offset o)).
  { apply integer_three_decimals. exists (c * n1 + n2)%Z.
    rewrite Hc, H1, H2, inject_Z_plus, inject_Z_mult. reflexivity. }
  apply toFixed3_exact in H3.
  exists (Js.toFixed3 (coor * scale o + offset o)).
  split; [reflexivity|]. split; [exact H3|].
  intros Hnz. exists c. split; [exact Hc|].
  rewrite floor_div_finite by exact Hnz. do 2 f_equal.
  assert (Hq : (Js.toFixed3 (coor * scale o + offset o) - offset o) / scale o
               == inject_Z c).
  { rewrite H3, Hc. field. exact Hnz. }
  rewrite (Qfloor_comp _ _ Hq). apply Qfloor_Z.
Qed.

Lemma getDistanceByCoor_whole_witness :
  let w := bare_world (set_scale (-3) default_options) in
  let o := options (this w) in
  ∃ d, RulerBuilder.getDistanceByCoor 7 w = Ok d w
       ∧ d == 19
       ∧ ∃ c : Z, 7 == inject_Z c
                  ∧ Js.floor (Js.div (d - offset o) (scale o)) = Js.Num (inject_Z c).
Proof.
  intros w o.
  assert (H1 : is_integer 7) by (exists 7%Z; reflexivity).
  assert (H2 : is_integer (scale o)) by (exists (-3)%Z; reflexivity).
  assert (H3 : is_integer (offset o)) by (exists 40%Z; reflexivity).
  destruct (getDistanceByCoor_whole 7 w H1 H2 H3) as (d & Hrun & Hd & Hc).
  exists d. split; [exact Hrun|]. split.
  - rewrite Hd. reflexivity.
  - apply Hc. intros Hq. discriminate Hq.
Defined.


(** ** What the listeners of a guide do *)





(** ** The drag of a guide, from start to stop *)

(** The guide node after [startMoving], in full. *)
Lemma startMoving_node (g : GuideLine) (e : MouseEvent) (w : World) (c : nat) :
  dragContainer g = Some c →
  let o := options (this w) in
  let cur := if LayoutDirection_eqb (direction o) TB then "ns-resize" else "ew-resize" in
  ∃ w1 d,
    GuideLine.startMoving g e w = Ok tt w1
    ∧ onmousemove w1 = Some d
    ∧ Dom.node (guideLine g) w1
      = (if enableToolTip o then with_classes (Dom.add_class "rul_tooltip") else id)
          (with_cursor cur
             (with_classes (Dom.add_class "rul_line_dragged")
                (Dom.node (guideLine g) w)))
    ∧ (∀ j, j ≠ guideLine g → j ≠ g_el g → Dom.node j w1 = Dom.node j w)
    ∧ style_cursor (Dom.node (g_el g) w1) = cur.
Proof.
  intros Hc o cur. destruct g as [el gl ev dc]. cbn [dragContainer guideLine g_el] in *.
  unfold GuideLine.startMoving, GuideLine.showToolTip, Dom.addClass, Dom.update,
    Dom.box, bind, modify, gets.
  cbn [dragContainer guideLine g_el]. rewrite Hc. cbv beta iota.
  match goal with
  | |- context [negb (enableToolTip ?o')] => change o' with o
  end.
  destruct (decide (el = gl)) as [->|Hne];
    destruct (enableToolTip o); cbn [negb];
    (do 2 eexists; split; [reflexivity|]);
    (split; [reflexivity|]);
    (split; [node_simpl; reflexivity|]);
    (split; [intros j Hj1 Hj2; node_simpl; reflexivity|]);
    node_simpl; reflexivity.
Qed.

(** The guide node after [stopMoving], in full. *)
Lemma stopMoving_node (g : GuideLine) (w : World) :
  ∃ w1,
    GuideLine.stopMoving g w = Ok tt w1
    ∧ stopped g w1
    ∧ Dom.node (guideLine g) w1
      = with_classes (Dom.remove_class "rul_line_dragged")
          (with_classes (Dom.remove_class "rul_tooltip")
             (with_cursor "" (Dom.node (guideLine g) w)))
    ∧ (∀ j, j ≠ guideLine g → j ≠ g_el g → Dom.node j w1 = Dom.node j w)
    ∧ this w1 = this w.
Proof.
  destruct (stopMoving_ok g w) as (w1 & Hrun & Hs).
  exists w1. split; [exact Hrun|]. split; [exact Hs|].
  revert Hrun. destruct g as [el gl ev dc]. cbn [guideLine g_el].
  unfold GuideLine.stopMoving, GuideLine.hideToolTip, Dom.removeClass, Dom.update,
    bind, modify.
  cbn [guideLine g_el]. intros Hrun. injection Hrun as <-.
  destruct (decide (el = gl)) as [->|Hne];
    (split; [node_simpl; reflexivity|]);
    (split; [intros j Hj1 Hj2; node_simpl; reflexivity | reflexivity]).
Qed.

Lemma clamp_inside (client diff : Q) (c e : Z) :
  0 <= client - diff <= inject_Z c - inject_Z e →
  GuideLine.clamp client diff c e == client - diff.
Proof.
  intros [Hlo Hhi]. unfold GuideLine.clamp.
  rewrite (Q.max_l _ _ Hlo). now apply Q.min_l.
Qed.

(** X7.  The guide follows the pointer.  After the start of a drag at [e] and
    any pointer moves of which [evt] is the last, the [left] of the guide
    is the clamped [trunc(left0) + (evt.clientX - e.clientX)], where
    [left0] is the [left] the guide had at the start: it depends on the
    last move only, and, on whole numbers, as long as it stays within the
    container the guide has moved by as much as the pointer has, from the
    whole pixel at or before its start; likewise for [top]. *)
Theorem drag_follows_pointer (g : GuideLine) (e : MouseEvent) (w : World) (c : nat)
    (evts : list MouseEvent) (evt : MouseEvent) :
  dragContainer g = Some c →
  let n := Dom.node (guideLine g) w in
  let L := inject_Z (Js.parseInt_or_0 (style_left n)) in
  let T := inject_Z (Js.parseInt_or_0 (style_top n)) in
  let cW := offsetWidth (layout w c) in
  let cH := offsetHeight (layout w c) in
  let eW := offsetWidth (layout w (guideLine g)) in
  let eH := offsetHeight (layout w (guideLine g)) in
  ∃ w1 w2 aX aY,
    GuideLine.startMoving g e w = Ok tt w1
    ∧ forEach document_mousemove (evts ++ [evt]) w1 = Ok tt w2
    ∧ style_left (Dom.node (guideLine g) w2) = Js.px aX
    ∧ style_top (Dom.node (guideLine g) w2) = Js.px aY
    ∧ aX = GuideLine.clamp (clientX evt) (clientX e - L) cW eW
    ∧ aY = GuideLine.clamp (clientY evt) (clientY e - T) cH eH
    ∧ (is_integer (clientX e) → is_integer (clientX evt) →
       0 <= L + (clientX evt - clientX e) <= inject_Z cW - inject_Z eW →
       aX == L + (clientX evt - clientX e))
    ∧ (is_integer (clientY e) → is_integer (clientY evt) →
       0 <= T + (clientY evt - clientY e) <= inject_Z cH - inject_Z eH →
       aY == T + (clientY evt - clientY e)).
Proof.
  intros Hc n L T cW cH eW eH.
  destruct (startMoving_eval g e w c Hc) as (w1 & Hstart & Hd & _).
  destruct (drag_moves evts w1 _ Hd) as (w2 & Hrun & Hd2 & _).
  match type of Hd2 with _ = Some ?d0 => set (d := d0) in * end.
  destruct (mousemove_eval d evt w2) as (w3 & Hlast & Hnode & _).
  change (guideLine (d_this d)) with (guideLine g) in Hnode.
  exists w1, w3. do 2 eexists.
  split; [exact Hstart|]. split.
  { rewrite forEach_app. unfold bind. rewrite Hrun. cbn [forEach].
    unfold bind. rewrite (document_mousemove_drag _ _ _ Hd2), Hlast.
    reflexivity. }
  rewrite Hnode. split; [reflexivity|]. split; [reflexivity|].
  split; [reflexivity|]. split; [reflexivity|].
  split; intros _ _ Hin; rewrite clamp_inside;
    cbn [diffX diffY cWi cHe eWi eHe d]; fold n L T cW cH eW eH;
    first [ring | (split; lra)].
Qed.

Lemma drag_follows_pointer_witness :
  let g := mkGuideLine 1 3 down (Some 2%nat) in
  let w := world_of (RulerBuilder.constructGuide down page) in
  ∃ w1 w2 aX,
    GuideLine.startMoving g down w = Ok tt w1
    ∧ forEach document_mousemove [mkMouseEvent 900 0; mkMouseEvent 169 10] w1 = Ok tt w2
    ∧ style_left (Dom.node 3 w2) = Js.px aX
    ∧ aX == 150.
Proof.
  intros g w.
  destruct (drag_follows_pointer g down w 2 [mkMouseEvent 900 0] (mkMouseEvent 169 10) eq_refl)
    as (w1 & w2 & aX & aY & Hstart & Hrun & Hl & _ & _ & _ & HX & _).
  exists w1, w2, aX. split; [exact Hstart|]. split; [exact Hrun|].
  split; [exact Hl|].
  rewrite HX; [vm_compute; reflexivity | | |].
  - exists 139%Z. reflexivity.
  - exists 169%Z. reflexivity.
  - vm_compute. split; discriminate.
Defined.


Lemma remove_added_class (c : string) (cs : list string) :
  c ∉ cs → Dom.remove_class c (Dom.add_class c cs) = cs.
Proof.
  intros H. unfold Dom.add_class, Dom.remove_class. case_decide; [contradiction|].
  rewrite filter_app, filter_cons, filter_nil.
  case_decide; [congruence|]. rewrite app_nil_r.
  now apply remove_class_absent.
Qed.

Lemma drag_classes_undone (n : Node) (tooltip : bool) (cur : string) :
  style_cursor n = "" → ("rul_tooltip" ∉ classes n) →
  ("rul_line_dragged" ∉ classes n) →
  with_classes (Dom.remove_class "rul_line_dragged")
    (with_classes (Dom.remove_class "rul_tooltip")
       (with_cursor ""
          ((if tooltip then with_classes (Dom.add_class "rul_tooltip") else id)
             (with_cursor cur
                (with_classes (Dom.add_class "rul_line_dragged") n)))))
  = n.
Proof.
  destruct n as [tg cs pn ch sl st sw sh sc sd ls ti tp ct cw chh dr].
  cbn [style_cursor classes]. intros -> Ht Hd.
  assert (Hnew : "rul_tooltip" ∉ Dom.add_class "rul_line_dragged" cs).
  { rewrite elem_of_add_class. intros [E|E]; [discriminate E | contradiction]. }
  destruct tooltip;
    cbv beta iota zeta delta
      [with_classes with_cursor id tag classes parentNode childNodes style_left
       style_top style_width style_height style_cursor style_display listeners
       title dataset_tip content canvas_width canvas_height drawn];
    f_equal.
  - rewrite (remove_added_class "rul_tooltip") by exact Hnew.
    now apply remove_added_class.
  - rewrite (remove_class_absent "rul_tooltip") by exact Hnew.
    now apply remove_added_class.
Qed.

(** X8.  A drag that is started and stopped.  [stopMoving] after
    [startMoving] leaves the guide stopped, where it was, with the
    listeners, the parent and the tip it had, and without the two classes
    of a drag; a guide that was at rest before is exactly as it was; and
    no pointer move changes anything any more. *)
Theorem start_then_stop (g : GuideLine) (e : MouseEvent) (w : World) (c : nat) :
  dragContainer g = Some c →
  let n := Dom.node (guideLine g) w in
  ∃ w1 w2,
    GuideLine.startMoving g e w = Ok tt w1
    ∧ GuideLine.stopMoving g w1 = Ok tt w2
    ∧ stopped g w2
    ∧ style_left (Dom.node (guideLine g) w2) = style_left n
    ∧ style_top (Dom.node (guideLine g) w2) = style_top n
    ∧ listeners (Dom.node (guideLine g) w2) = listeners n
    ∧ parentNode (Dom.node (guideLine g) w2) = parentNode n
    ∧ dataset_tip (Dom.node (guideLine g) w2) = dataset_tip n
    ∧ (∀ c', c' ∈ classes (Dom.node (guideLine g) w2) ↔
             c' ∈ classes n ∧ c' ≠ "rul_line_dragged" ∧ c' ≠ "rul_tooltip")
    ∧ (style_cursor n = "" → ("rul_tooltip" ∉ classes n) →
       ("rul_line_dragged" ∉ classes n) →
       Dom.node (guideLine g) w2 = n)
    ∧ ∀ evts, forEach document_mousemove evts w2 = Ok tt w2.
Proof.
  intros Hc n.
  destruct (startMoving_node g e w c Hc) as (w1 & d & Hstart & _ & Hn1 & _).
  destruct (stopMoving_node g w1) as (w2 & Hstop & Hs & Hn2 & _).
  exists w1, w2. split; [exact Hstart|]. split; [exact Hstop|]. split; [exact Hs|].
  rewrite Hn2, Hn1. fold n.
  destruct (enableToolTip (options (this w)));
    cbn [id style_left style_top listeners parentNode dataset_tip classes
         with_classes with_cursor];
    (split; [reflexivity|]); (split; [reflexivity|]); (split; [reflexivity|]);
    (split; [reflexivity|]); (split; [reflexivity|]).
  all: split;
    [ intros c';
      rewrite !elem_of_remove_class, ?elem_of_add_class;
      intuition congruence |].
  all: split; [| intros evts; apply no_drag_moves, Hs ].
  all: intros Hcur Ht Hd.
  - now apply (drag_classes_undone n true).
  - now apply (drag_classes_undone n false).
Qed.

Lemma start_then_stop_witness :
  let g := mkGuideLine 1 3 down (Some 2%nat) in
  let w := world_of (RulerBuilder.constructGuide down page) in
  ∃ w1 w2,
    GuideLine.startMoving g down w = Ok tt w1
    ∧ GuideLine.stopMoving g w1 = Ok tt w2
    ∧ Dom.node 3 w2 = Dom.node 3 w.
Proof.
  intros g w.
  destruct (start_then_stop g down w 2 eq_refl)
    as (w1 & w2 & H1 & H2 & _ & _ & _ & _ & _ & _ & _ & Hsame & _).
  exists w1, w2. split; [exact H1|]. split; [exact H2|].
  apply Hsame.
  - vm_compute. reflexivity.
  - vm_compute. intros H. repeat (apply elem_of_cons in H as [H|H]; [discriminate H|]).
    now apply elem_of_nil in H.
  - vm_compute. intros H. repeat (apply elem_of_cons in H as [H|H]; [discriminate H|]).
    now apply elem_of_nil in H.
Defined.

(** X9.  The class that shows the tooltip is gated by [enableToolTip]: a drag
    that starts puts [rul_line_dragged] on the guide, and [rul_tooltip]
    only when tooltips are enabled. *)
Theorem tooltip_class_gated (g : GuideLine) (e : MouseEvent) (w : World) (c : nat) :
  dragContainer g = Some c →
  ∃ w1,
    GuideLine.startMoving g e w = Ok tt w1
    ∧ "rul_line_dragged" ∈ classes (Dom.node (guideLine g) w1)
    ∧ ("rul_tooltip" ∈ classes (Dom.node (guideLine g) w1) ↔
       enableToolTip (options (this w)) = true
       ∨ "rul_tooltip" ∈ classes (Dom.node (guideLine g) w)).
Proof.
  intros Hc.
  destruct (startMoving_node g e w c Hc) as (w1 & d & Hstart & _ & Hn1 & _).
  exists w1. split; [exact Hstart|]. rewrite Hn1.
  destruct (enableToolTip (options (this w)));
    cbn [id classes with_classes with_cursor];
    rewrite ?elem_of_add_class; intuition discriminate.
Qed.

Lemma tooltip_class_gated_witness :
  let g := mkGuideLine 1 3 down (Some 2%nat) in
  let w := world_of (RulerBuilder.constructGuide down page) in
  ∃ w1,
    GuideLine.startMoving g down w = Ok tt w1
    ∧ "rul_tooltip" ∈ classes (Dom.node 3 w1).
Proof.
  intros g w.
  destruct (tooltip_class_gated g down w 2 eq_refl) as (w1 & H1 & _ & H2).
  exists w1. split; [exact H1|]. apply H2. left. reflexivity.
Defined.

(** X10.  A guide without a drag container.  [startMoving] throws when the
    container has no descendant of class [ruler-wrapper], after it has
    marked the guide as dragged and before it installs a handler: the
    constructor then throws as well, and leaves behind a node with the
    three listeners and the class of a drag, but no drag. *)
Theorem guide_without_container :
  (∀ g e w,
     dragContainer g = None →
     ∃ x w1,
       GuideLine.startMoving g e w = Throw x w1
       ∧ onmousemove w1 = onmousemove w
       ∧ Dom.node (guideLine g) w1
         = with_classes (Dom.add_class "rul_line_dragged") (Dom.node (guideLine g) w)
       ∧ ∀ j, j ≠ guideLine g → Dom.node j w1 = Dom.node j w)
  ∧ (∀ el guide e w,
       Dom.select el "ruler-wrapper" w = None →
       ∃ x w1,
         GuideLine.new el guide e w = Throw x w1
         ∧ onmousemove w1 = onmousemove w
         ∧ listeners (Dom.node guide w1)
           = with_guide_listeners (listeners (Dom.node guide w))
         ∧ "rul_line_dragged" ∈ classes (Dom.node guide w1)
         ∧ style_cursor (Dom.node guide w1) = style_cursor (Dom.node guide w)).
Proof.
  split.
  - intros g e w Hc.
    unfold GuideLine.startMoving, Dom.addClass, Dom.update, Dom.box,
      bind, modify, gets, throw.
    rewrite Hc. cbv beta iota. do 2 eexists. split; [reflexivity|].
    split; [reflexivity|]. split; [now rewrite node_insert_eq|].
    intros j Hj. now rewrite node_insert_ne by congruence.
  - intros el guide e w Hsel.
    unfold GuideLine.new, Dom.querySelector.
    rewrite (bind_ok _ _ w w None) by (unfold gets; now rewrite Hsel).
    unfold Dom.addEventListener, Dom.update, GuideLine.startMoving, Dom.addClass,
      Dom.update, Dom.box, bind, modify, gets, throw.
    cbv beta iota. cbn [dragContainer guideLine]. do 2 eexists.
    split; [reflexivity|]. split; [reflexivity|].
    node_simpl. cbn [listeners classes style_cursor with_classes with_listeners].
    split; [reflexivity|]. split; [|reflexivity].
    rewrite elem_of_add_class. now left.
Qed.

Lemma guide_without_container_witness :
  let w := world_of (RulerBuilder.constructGuide down (bare_world default_options)) in
  Dom.select 0 "ruler-wrapper" w = None
  ∧ ∃ x w1,
      GuideLine.new 0 1 down w = Throw x w1
      ∧ onmousemove w1 = None
      ∧ "rul_line_dragged" ∈ classes (Dom.node 1 w1).
Proof.
  intros w.
  destruct guide_without_container as [_ H].
  assert (Hsel : Dom.select 0 "ruler-wrapper" w = None)
    by (vm_compute; reflexivity).
  split; [exact Hsel|].
  destruct (H 0%nat 1%nat down w Hsel) as (x & w1 & Hrun & Hm & _ & Hcl & _).
  exists x, w1. split; [exact Hrun|]. split; [exact Hm | exact Hcl].
Defined.


(** ** What no call and no event ever does *)

Lemma keeps_call {C} (f : World → C) (e : MouseEvent) :
  (∀ w v, f (with_heap (fun _ => v) w) = f w) →
  (∀ w k, f (with_next_fn k w) = f w) →
  (∀ w i v, f (with_this (with_indicator i v) w) = f w) →
  ∀ h target, keeps f (call h target e).
Proof.
  intros Hheap Hfn Hind h target.
  assert (Hupd : ∀ i g, keeps f (Dom.update i g)).
  { intros i g w. apply (Hheap w). }
  assert (Hcreate : ∀ t, keeps f (Dom.createElement t)).
  { intros t w. apply (Hheap w). }
  assert (Hrem : ∀ i, keeps f (Dom.remove i)).
  { intros i. unfold Dom.remove. apply keeps_bind; [apply keeps_gets|].
    intros n. destruct (parentNode n); [|apply keeps_ret].
    apply keeps_bind; [apply Hupd | intros _; apply Hupd]. }
  assert (Happ : ∀ p i, keeps f (Dom.appendChild p i)).
  { intros p i. unfold Dom.appendChild.
    apply keeps_bind; [apply Hrem | intros _].
    apply keeps_bind; [apply Hupd | intros _; apply Hupd]. }
  assert (Hpos : keeps f (RulerBuilder.getPos e)).
  { unfold RulerBuilder.getPos, Dom.parentElement, Dom.box.
    repeat first [ apply keeps_bind; [|intros ?] | apply keeps_gets | apply keeps_ret
                 | match goal with |- keeps _ (match ?x with _ => _ end) => destruct x end ]. }
  assert (Hsel : ∀ i c, keeps f (Dom.querySelector i c)).
  { intros i c. apply keeps_gets. }
  destruct h as [m|m fn|fn i v|fn i v c]; [destruct m | destruct m | |];
    cbn [call]; try apply keeps_throw.
  - unfold RulerBuilder.constructIndicator, Dom.addClass, Dom.addEventListener.
    apply keeps_bind; [apply keeps_gets | intros b].
    apply keeps_bind; [apply Hcreate | intros i].
    apply keeps_bind; [apply Hcreate | intros v].
    apply keeps_bind; [apply Hupd | intros _].
    apply keeps_bind; [apply Hupd | intros _].
    apply keeps_bind; [apply Happ | intros _].
    apply keeps_bind; [intros w; apply Hind | intros _].
    apply keeps_bind; [apply Happ | intros _].
    apply keeps_bind; [intros w; apply Hfn | intros k].
    destruct (canvas b); [|apply keeps_throw].
    apply keeps_bind; [apply Hupd | intros _; apply Hupd].
  - unfold RulerBuilder.constructGuide, Dom.addClass.
    apply keeps_bind; [apply keeps_gets | intros b].
    apply keeps_bind; [apply Hcreate | intros g].
    apply keeps_bind; [apply Hupd | intros _].
    apply keeps_bind; [apply Hupd | intros _].
    apply keeps_bind; [apply Hpos | intros pos].
    apply keeps_bind; [destruct (LayoutDirection_eqb _ _); apply Hupd | intros _].
    apply keeps_bind; [apply Hupd | intros _].
    apply keeps_bind; [apply Hsel | intros found].
    apply keeps_bind; [|intros wp; apply Happ].
    destruct found; [apply keeps_ret|].
    apply keeps_bind; [apply Hcreate | intros wp].
    apply keeps_bind; [apply Hupd | intros _].
    apply keeps_bind; [apply Happ | intros _; apply keeps_ret].
  - apply keeps_bind; [apply Hpos | intros pos].
    apply keeps_bind; [apply Hupd | intros _; apply Hupd].
  - unfold Dom.removeEventListener.
    apply keeps_bind; [apply Hrem | intros _].
    apply keeps_bind; [apply Hupd | intros _; apply Hupd].
Qed.

Lemma keeps_dispatchEvent {C} (f : World → C) (target : nat) (type : string)
    (e : MouseEvent) :
  (∀ h t, keeps f (call h t e)) → keeps f (dispatchEvent target type e).
Proof.
  intros H. unfold dispatchEvent.
  apply keeps_bind; [apply keeps_gets | intros n].
  apply keeps_forEach. intros l w.
  case_decide; [|reflexivity]. case_decide; [|reflexivity].
  cbn [world_of]. apply H.
Qed.


Lemma world_of_bind {A B} (m : M A) (k : A → M B) (w w1 : World) (a : A) :
  m w = Ok a w1 → world_of (bind m k w) = world_of (k a w1).
Proof. intros H. unfold bind. now rewrite H. Qed.

Lemma run_op_keeps_options (op : Op) :
  writes_options op = false → keeps (fun w => options (this w)) (run_op op).
Proof.
  intros Hop w. unfold run_op. cbn [world_of].
  destruct op as [wd h s|s|v| | |target type e|e]; try discriminate Hop.
  - revert w. change (keeps (fun w => options (this w)) (RulerBuilder.toggleGuide v)).
    keeps_tac.
  - revert w. change (keeps (fun w => options (this w)) RulerBuilder.clearGuides).
    keeps_tac.
  - revert w. change (keeps (fun w => options (this w)) RulerBuilder.destroy).
    keeps_tac.
  - apply (keeps_dispatchEvent (fun w => options (this w))).
    intros h t. apply keeps_call; reflexivity.
  - revert w. change (keeps (fun w => options (this w)) (document_mousemove e)).
    unfold document_mousemove. keeps_tac.
Qed.

Lemma forEach_keeps_options (ops : list Op) :
  forallb (fun op => negb (writes_options op)) ops = true →
  keeps (fun w => options (this w)) (forEach run_op ops).
Proof.
  intros H. induction ops as [|op ops IH]; cbn [forEach].
  - apply keeps_ret.
  - cbn [forallb] in H. apply andb_prop in H as [H1 H2].
    apply keeps_bind; [|intros _; now apply IH].
    apply run_op_keeps_options. now destruct (writes_options op).
Qed.

Lemma new_options (container : nat) (opts : PartialRulerOption) (w : World) :
  options (this (world_of (RulerBuilder.new container opts w)))
  = spread default_options opts.
Proof.
  unfold RulerBuilder.new.
  erewrite world_of_bind by reflexivity.
  assert (Hk : keeps (fun w => options (this w)) RulerBuilder.constructRuler)
    by keeps_tac.
  now rewrite Hk.
Qed.

(** X11.  The options are written by [setSize] and [setScale] and by nothing
    else: whatever other calls are made and whatever events arrive, in
    whatever order, the options stay those the constructor merged; and
    the two setters store their arguments before they draw, so the
    options are changed even by a call that throws for want of a canvas. *)
Theorem options_written_by_setters_only :
  (∀ (ops : list Op) (w : World),
     forallb (fun op => negb (writes_options op)) ops = true →
     options (this (world_of (forEach run_op ops w))) = options (this w))
  ∧ (∀ (container : nat) (opts : PartialRulerOption) (ops : list Op) (w : World),
     forallb (fun op => negb (writes_options op)) ops = true →
     options (this (world_of
       (forEach run_op ops (world_of (RulerBuilder.new container opts w)))))
     = spread default_options opts)
  ∧ (∀ (s : Q) (w : World),
     options (this (world_of (RulerBuilder.setScale s w)))
     = set_scale s (options (this w)))
  ∧ (∀ (wd h s : Q) (w : World),
     options (this (world_of (RulerBuilder.setSize wd h s w)))
     = set_scale s (set_rulerHeight h (set_rulerWidth wd (options (this w)))))
  ∧ (∀ (s : Q) (w : World),
     canvas (this w) = None →
     ∃ e w', RulerBuilder.setScale s w = Throw e w'
             ∧ scale (options (this w')) = s).
Proof.
  split; [|split; [|split; [|split]]].
  - intros ops w H. now apply (forEach_keeps_options ops H w).
  - intros container opts ops w H.
    rewrite (forEach_keeps_options ops H). apply new_options.
  - intros s w. unfold RulerBuilder.setScale.
    erewrite world_of_bind by reflexivity.
    assert (Hk : keeps (fun w => options (this w)) RulerBuilder.drawRuler)
      by keeps_tac.
    now rewrite Hk.
  - intros wd h s w. unfold RulerBuilder.setSize.
    do 3 erewrite world_of_bind by reflexivity.
    match goal with
    | |- options (this (world_of (?m ?w0))) = _ =>
        assert (Hk : keeps (fun w => options (this w)) m) by keeps_tac;
        rewrite (Hk w0)
    end.
    reflexivity.
  - intros s w Hc.
    unfold RulerBuilder.setScale, RulerBuilder.drawRuler, bind, modify, gets.
    cbv beta iota.
    match goal with
    | |- context [match canvas ?b with _ => _ end] =>
        change (canvas b) with (canvas (this w))
    end.
    rewrite Hc. eexists _, _. split; reflexivity.
Qed.

Lemma options_written_by_setters_only_witness :
  options (this (world_of
    (forEach run_op [op_event 3 "mousedown" down; op_clearGuides; op_destroy]
       page_with_ruler)))
  = options (this page_with_ruler).
Proof.
  destruct options_written_by_setters_only as (H & _).
  apply H. reflexivity.
Defined.

(** ** The guides of a builder *)

Lemma run_op_no_guides (op : Op) (w : World) :
  guides (this w) = [] →
  guides (this (world_of (run_op op w))) = []
  ∧ onmousemove (world_of (run_op op w)) = onmousemove w.
Proof.
  intros Hg. unfold run_op. cbn [world_of].
  destruct op as [wd h s|s|v| | |target type e|e].
  - assert (H1 : keeps (fun w => guides (this w)) (RulerBuilder.setSize wd h s))
      by keeps_tac.
    assert (H2 : keeps onmousemove (RulerBuilder.setSize wd h s)) by keeps_tac.
    rewrite H1, H2. now split.
  - assert (H1 : keeps (fun w => guides (this w)) (RulerBuilder.setScale s))
      by keeps_tac.
    assert (H2 : keeps onmousemove (RulerBuilder.setScale s)) by keeps_tac.
    rewrite H1, H2. now split.
  - unfold RulerBuilder.toggleGuide, bind, gets. rewrite Hg. now split.
  - rewrite clearGuides_nothing by exact Hg. now split.
  - unfold RulerBuilder.destroy.
    erewrite world_of_bind by reflexivity.
    erewrite world_of_bind by (apply clearGuides_nothing, Hg).
    match goal with
    | |- guides (this (world_of (?m w))) = _ ∧ _ =>
        assert (H1 : keeps (fun w => guides (this w)) m) by keeps_tac;
        assert (H2 : keeps onmousemove m) by keeps_tac;
        rewrite (H1 w), (H2 w)
    end.
    now split.
  - rewrite (keeps_dispatchEvent (fun w => guides (this w)))
      by (intros h t; apply keeps_call; reflexivity).
    rewrite (keeps_dispatchEvent onmousemove)
      by (intros h t; apply keeps_call; reflexivity).
    now split.
  - unfold document_mousemove.
    match goal with
    | |- guides (this (world_of (?m w))) = _ ∧ _ =>
        assert (H1 : keeps (fun w => guides (this w)) m) by keeps_tac;
        assert (H2 : keeps onmousemove m) by keeps_tac;
        rewrite (H1 w), (H2 w)
    end.
    now split.
Qed.

Lemma forEach_no_guides (ops : list Op) (w : World) :
  guides (this w) = [] →
  guides (this (world_of (forEach run_op ops w))) = []
  ∧ onmousemove (world_of (forEach run_op ops w)) = onmousemove w.
Proof.
  revert w. induction ops as [|op ops IH]; intros w Hg; cbn [forEach].
  - now split.
  - erewrite world_of_bind by reflexivity.
    destruct (run_op_no_guides op w Hg) as [H1 H2].
    destruct (IH _ H1) as [H3 H4].
    split; [exact H3 | etransitivity; [exact H4 | exact H2]].
Qed.

Lemma new_no_guides (container : nat) (opts : PartialRulerOption) (w : World) :
  guides (this (world_of (RulerBuilder.new container opts w))) = []
  ∧ onmousemove (world_of (RulerBuilder.new container opts w)) = onmousemove w.
Proof.
  unfold RulerBuilder.new.
  erewrite world_of_bind by reflexivity.
  assert (H1 : keeps (fun w => guides (this w)) RulerBuilder.constructRuler)
    by keeps_tac.
  assert (H2 : keeps onmousemove RulerBuilder.constructRuler) by keeps_tac.
  rewrite H1, H2. now split.
Qed.

(** X12.  A builder never has a guide.  After the constructor, whatever calls
    are made and whatever events arrive, in whatever order, [guides] is
    empty and [document.onmousemove] is what it was before the builder
    was made: no guide is ever dragged, [toggleGuide] shows and hides
    nothing, and [clearGuides] clears nothing. *)
Theorem builder_never_has_a_guide (container : nat) (opts : PartialRulerOption)
    (ops : list Op) (w : World) :
  let w' := world_of (forEach run_op ops
                        (world_of (RulerBuilder.new container opts w))) in
  guides (this w') = []
  ∧ onmousemove w' = onmousemove w
  ∧ (∀ visible, RulerBuilder.toggleGuide visible w' = Ok tt w')
  ∧ RulerBuilder.clearGuides w' = Ok tt w'.
Proof.
  intros w'.
  destruct (new_no_guides container opts w) as [H1 H2].
  destruct (forEach_no_guides ops _ H1) as [H3 H4]. fold w' in H3, H4.
  split; [exact H3|]. split; [congruence|]. split.
  - intros v. unfold RulerBuilder.toggleGuide, bind, gets. now rewrite H3.
  - now apply clearGuides_nothing.
Qed.


(** ** The constructor *)

Lemma fresh_None (w : World) : heap w !! fresh (dom (heap w)) = None.
Proof. apply not_elem_of_dom, is_fresh. Qed.

Lemma fresh_ne (w : World) (j : nat) :
  is_Some (heap w !! j) → fresh (dom (heap w)) ≠ j.
Proof.
  intros [n Hn] E. pose proof (fresh_None w) as Hf. rewrite E in Hf. congruence.
Qed.

Lemma add_listener_new (l : string * Handler) (ls : list (string * Handler)) :
  l ∉ ls → Dom.add_listener l ls = ls ++ [l].
Proof. intros H. unfold Dom.add_listener. now case_decide. Qed.

Lemma not_elem_of_singleton_listener (l l' : string * Handler) :
  l.1 ≠ l'.1 → l ∉ [l'].
Proof. intros H Hin. apply list_elem_of_singleton in Hin. now subst. Qed.

(** Evaluates the writes made to a node that is known field by field. *)
Ltac node_cbv t :=
  eval cbv beta iota zeta delta
    [with_classes with_parentNode with_childNodes with_left with_top
     with_cursor with_display with_listeners with_title with_tip with_content
     with_size with_drawn new_node
     tag classes parentNode childNodes style_left style_top style_width
     style_height style_cursor style_display listeners title dataset_tip
     content canvas_width canvas_height drawn] in t.

(** Reads the field [p] of the nodes of the goal. *)
Ltac read_field p :=
  repeat match goal with
  | |- context [p ?n] =>
      let v := node_cbv (p n) in progress change (p n) with v
  end.

(** X13.  The constructor on a container that is a node of the page, with
    options that are whole numbers: it returns; it makes one node, a
    canvas of class [canvas-ruler], the last child of the container; the
    width of the ruler is the larger of the extent of the container and
    [rulerWidth]; the bitmap of the canvas is the ruler scaled by
    [ratio]; what is drawn is the transform and then the picture of the
    ruler; the canvas carries two listeners, two function objects that
    did not exist before; and no other node is touched. *)
Theorem constructor_builds_the_ruler (container : nat) (opts : PartialRulerOption)
    (w : World) :
  is_Some (heap w !! container) →
  whole_options (spread default_options opts) →
  let c := fresh (dom (heap w)) in
  let o := spread default_options opts in
  let W := Qmax (inject_Z (extent o (layout w container))) (rulerWidth o) in
  let r := mkRuler 0 0 W (rulerHeight o) in
  ∃ w1, RulerBuilder.new container opts w = Ok tt w1
    ∧ this w1 = mkRulerBuilder container (Some c) None None 1 r [] o
    ∧ Dom.node c w1
      = mkNode "canvas" ["canvas-ruler"] (Some container) []
          Js.unset Js.unset
          (Js.size_or Js.unset (pixelize W))
          (Js.size_or Js.unset (pixelize (rulerHeight o))) "" ""
          [("mouseenter", bound m_constructIndicator (next_fn w));
           ("mousedown", bound m_constructGuide (S (next_fn w)))]
          "" None no_content
          (inject_Z (Js.unsigned_long_or 300 (W * ratio o)))
          (inject_Z (Js.unsigned_long_or 150 (rulerHeight o * ratio o)))
          (setTransform (ratio o) 0 0 (ratio o) 0 0 :: ruler_picture r o)
    ∧ Dom.node container w1
      = with_childNodes (fun cs => cs ++ [c]) (Dom.node container w)
    ∧ (∀ j, j ≠ c → j ≠ container → heap w1 !! j = heap w !! j)
    ∧ heap w !! c = None
    ∧ next_fn w1 = S (S (next_fn w))
    ∧ onmousemove w1 = onmousemove w
    ∧ rulerWidth o <= W
    ∧ inject_Z (extent o (layout w container)) <= W.
Proof.
  intros Hc _ c o W r.
  pose proof (fresh_ne w container Hc) as Hne.
  pose proof (fresh_None w) as Hnf.
  fold c in Hne, Hnf.
  unfold RulerBuilder.new, RulerBuilder.constructRuler.
  step. step.
  erewrite bind_ok by apply ruler_width_eval.
  this_simpl. fold o. fold W.
  step.
  unfold createCanvas.
  step. fold c.
  step. step. step. step.
  unfold Dom.appendChild, Dom.remove.
  step. read_field parentNode. cbv iota.
  step. step. step. step.
  erewrite bind_ok by (apply drawRuler_picture; reflexivity).
  this_simpl. node_simpl. rewrite ?with_heap_insert_insert.
  step. step. step.
  eexists. split; [reflexivity|].
  split; [reflexivity|].
  split.
  { node_simpl.
    match goal with |- ?l = _ => let v := node_cbv l in change l with v end.
    rewrite add_listener_new
      by (apply not_elem_of_singleton_listener; discriminate).
    reflexivity. }
  split; [now node_simpl|].
  split.
  { intros j Hj1 Hj2. this_simpl.
    now rewrite !lookup_insert_ne by congruence. }
  split; [exact Hnf|].
  split; [reflexivity|].
  split; [reflexivity|].
  split; [apply Q.le_max_r | apply Q.le_max_l].
Qed.

Lemma whole_default_options : whole_options (spread default_options no_options).
Proof.
  repeat split;
    [exists 1000%Z | exists 20%Z | exists 1%Z | exists 40%Z | exists 2%Z];
    reflexivity.
Qed.

Lemma constructor_builds_the_ruler_witness :
  is_Some (heap page !! 1%nat)
  ∧ ∃ w1, RulerBuilder.new 1 no_options page = Ok tt w1
          ∧ canvas (this w1) = Some 3%nat
          ∧ width (ruler (this w1)) == 1000
          ∧ canvas_width (Dom.node 3 w1) == 2000.
Proof.
  assert (H : is_Some (heap page !! 1%nat)) by (vm_compute; eauto).
  split; [exact H|].
  destruct (constructor_builds_the_ruler 1 no_options page H whole_default_options)
    as (w1 & H1 & H2 & H3 & _).
  assert (Hf : fresh (dom (heap page)) = 3%nat) by (vm_compute; reflexivity).
  rewrite Hf in H2, H3.
  exists w1. split; [exact H1|]. rewrite H2, H3.
  split; [reflexivity|].
  split; vm_compute; reflexivity.
Defined.


(** ** The indicator *)

Lemma fresh_insert_ne (h : gmap nat Node) (i j : nat) (n : Node) :
  is_Some (h !! j) ∨ j = i → fresh (dom (<[i:=n]> h)) ≠ j.
Proof.
  intros Hj E.
  pose proof (is_fresh (dom (<[i:=n]> h))) as Hf. rewrite E in Hf.
  apply Hf, elem_of_dom. destruct Hj as [Hj| ->].
  - destruct (decide (i = j)) as [->|Hne].
    + rewrite lookup_insert_eq. eauto.
    + now rewrite lookup_insert_ne.
  - rewrite lookup_insert_eq. eauto.
Qed.

Lemma remove_add_listener (l : string * Handler) (ls : list (string * Handler)) :
  Dom.remove_listener l (Dom.add_listener l ls) = Dom.remove_listener l ls.
Proof.
  unfold Dom.add_listener, Dom.remove_listener. case_decide; [reflexivity|].
  rewrite filter_app, filter_cons, filter_nil.
  case_decide; [congruence|]. apply app_nil_r.
Qed.

Lemma remove_add_listener_ne (l l' : string * Handler) (ls : list (string * Handler)) :
  l ≠ l' →
  Dom.remove_listener l (Dom.add_listener l' ls)
  = Dom.add_listener l' (Dom.remove_listener l ls).
Proof.
  intros Hne. unfold Dom.add_listener, Dom.remove_listener.
  repeat case_decide.
  - reflexivity.
  - exfalso. match goal with H : _ ∉ _ |- _ => apply H end.
    apply list_elem_of_filter. split; [congruence | assumption].
  - exfalso. match goal with H : _ ∈ filter _ _ |- _ =>
      apply list_elem_of_filter in H as [_ H] end. contradiction.
  - rewrite filter_app, filter_cons, filter_nil.
    case_decide; [reflexivity | congruence].
Qed.

(** What [constructIndicator] builds. *)
Lemma constructIndicator_eval (w : World) (cv : nat) :
  canvas (this w) = Some cv →
  is_Some (heap w !! el (this w)) → is_Some (heap w !! cv) →
  cv ≠ el (this w) →
  let i := fresh (dom (heap w)) in
  let v := fresh (dom (<[i:=new_node "div"]> (heap w))) in
  let fn := next_fn w in
  ∃ w1,
    RulerBuilder.constructIndicator w = Ok tt w1
    ∧ this w1 = with_indicator i v (this w)
    ∧ layout w1 = layout w
    ∧ onmousemove w1 = onmousemove w
    ∧ next_fn w1 = S fn
    ∧ Dom.node i w1
      = with_parentNode (Some (el (this w)))
          (with_childNodes (fun _ => [v])
             (with_classes (fun _ => ["ruler-indicator"]) (new_node "div")))
    ∧ Dom.node v w1
      = with_parentNode (Some i)
          (with_classes (fun _ => ["indicator-value"]) (new_node "span"))
    ∧ Dom.node (el (this w)) w1
      = with_childNodes (fun cs => cs ++ [i]) (Dom.node (el (this w)) w)
    ∧ Dom.node cv w1
      = with_listeners
          (fun ls => Dom.add_listener ("mouseout", indicator_out fn i v cv)
                       (Dom.add_listener ("mousemove", indicator_move fn i v) ls))
          (Dom.node cv w)
    ∧ (∀ j, j ≠ i → j ≠ v → j ≠ el (this w) → j ≠ cv →
            heap w1 !! j = heap w !! j)
    ∧ i ≠ v ∧ i ≠ cv ∧ i ≠ el (this w) ∧ v ≠ cv ∧ v ≠ el (this w)
    ∧ heap w !! i = None ∧ heap w !! v = None.
Proof.
  intros Hc Hel Hcv Hce i v fn.
  pose proof (fresh_ne w _ Hel) as Hie. pose proof (fresh_ne w _ Hcv) as Hic.
  pose proof (fresh_None w) as Hni.
  fold i in Hie, Hic, Hni.
  assert (Hvi : v ≠ i) by (apply fresh_insert_ne; now right).
  assert (Hve : v ≠ el (this w)) by (apply fresh_insert_ne; now left).
  assert (Hvc : v ≠ cv) by (apply fresh_insert_ne; now left).
  assert (Hnv : heap w !! v = None).
  { destruct (heap w !! v) eqn:E; [|reflexivity].
    exfalso. apply (fresh_insert_ne (heap w) i v (new_node "div")); [|reflexivity].
    left. rewrite E. eauto. }
  unfold RulerBuilder.constructIndicator.
  step. step. fold i. step. fold v.
  step. step.
  unfold Dom.appendChild, Dom.remove.
  step. read_field parentNode. cbv iota.
  step. step. step. step.
  step. read_field parentNode. cbv iota.
  step. step. step. step.
  rewrite Hc. step.
  eexists. split; [reflexivity|]. this_simpl.
  split; [reflexivity|]. split; [reflexivity|]. split; [reflexivity|].
  split; [reflexivity|].
  split; [node_simpl; reflexivity|].
  split; [node_simpl; reflexivity|].
  split; [node_simpl; reflexivity|].
  split; [node_simpl; reflexivity|].
  split.
  { intros j H1 H2 H3 H4. now rewrite !lookup_insert_ne by congruence. }
  repeat split; congruence.
Qed.

Lemma remove_listener_new (l : string * Handler) (ls : list (string * Handler)) :
  l ∉ ls → Dom.remove_listener l (Dom.add_listener l ls) = ls.
Proof.
  intros H. rewrite remove_add_listener. now apply remove_listener_absent.
Qed.

Lemma children_restored (n : Node) (i : nat) :
  i ∉ childNodes n →
  with_childNodes (filter (fun c => c ≠ i)) (with_childNodes (fun cs => cs ++ [i]) n) = n.
Proof.
  intros H. destruct n as [tg cs pn ch sl st sw sh sc sd ls ti tp ct cw chh dr]. cbn [childNodes] in H.
  cbv beta iota zeta delta
    [with_childNodes tag classes parentNode childNodes style_left
     style_top style_width style_height style_cursor style_display listeners
     title dataset_tip content canvas_width canvas_height drawn].
  f_equal. rewrite filter_app, filter_cons, filter_nil.
  case_decide; [congruence|]. rewrite app_nil_r.
  induction ch as [|x xs IH]; [reflexivity|].
  rewrite filter_cons. apply not_elem_of_cons in H as [H1 H2].
  case_decide; [|congruence]. f_equal. now apply IH.
Qed.

Lemma listeners_restored (n : Node) (l l' : string * Handler) :
  l ∉ listeners n → l' ∉ listeners n → l ≠ l' →
  with_listeners (Dom.remove_listener l')
    (with_listeners (Dom.remove_listener l)
       (with_listeners (fun ls => Dom.add_listener l' (Dom.add_listener l ls)) n))
  = n.
Proof.
  intros H H' Hne. destruct n as [tg cs pn ch sl st sw sh sc sd ls ti tp ct cw chh dr]. cbn [listeners] in H, H'.
  cbv beta iota zeta delta
    [with_listeners tag classes parentNode childNodes style_left
     style_top style_width style_height style_cursor style_display listeners
     title dataset_tip content canvas_width canvas_height drawn].
  f_equal.
  rewrite remove_add_listener_ne by exact Hne.
  rewrite (remove_listener_new l ls H).
  now apply remove_listener_new.
Qed.

(** What the arrow function [move] of [constructIndicator] does. *)
Lemma indicator_move_eval (fn i v target : nat) (e : MouseEvent) (w : World)
    (pos : RulerBuilder.Pos) :
  RulerBuilder.getPos e w = Ok pos w →
  i ≠ v →
  ∃ w',
    call (indicator_move fn i v) target e w = Ok tt w'
    ∧ Dom.node i w' = with_left (pixelize (RulerBuilder.distance pos)) (Dom.node i w)
    ∧ Dom.node v w' = with_content (text (RulerBuilder.coor pos)) (Dom.node v w)
    ∧ (∀ j, j ≠ i → j ≠ v → Dom.node j w' = Dom.node j w)
    ∧ this w' = this w.
Proof.
  intros Hpos Hiv.
  cbn [call]. erewrite bind_ok by exact Hpos.
  step.
  eexists. split; [reflexivity|]. this_simpl.
  split; [now node_simpl|]. split; [now node_simpl|].
  split; [|reflexivity].
  intros j H1 H2. now node_simpl.
Qed.

(** What the arrow function [out] of [constructIndicator] does. *)
Lemma indicator_out_eval (fn i v cv target p : nat) (e : MouseEvent) (w : World) :
  parentNode (Dom.node i w) = Some p →
  i ≠ p → i ≠ cv → p ≠ cv →
  ∃ w',
    call (indicator_out fn i v cv) target e w = Ok tt w'
    ∧ Dom.node i w' = with_parentNode None (Dom.node i w)
    ∧ Dom.node p w' = with_childNodes (filter (fun c => c ≠ i)) (Dom.node p w)
    ∧ Dom.node cv w'
      = with_listeners (Dom.remove_listener ("mouseout", indicator_out fn i v cv))
          (with_listeners (Dom.remove_listener ("mousemove", indicator_move fn i v))
             (Dom.node cv w))
    ∧ this w' = this w.
Proof.
  intros Hp Hip Hic Hpc.
  cbn [call]. unfold Dom.remove, Dom.removeEventListener.
  step. rewrite Hp.
  step. step. step.
  eexists. split; [reflexivity|]. this_simpl.
  split; [now node_simpl|]. split; [now node_simpl|].
  split; [now node_simpl | reflexivity].
Qed.

(** X14.  The life of the indicator.  Entering the canvas makes an indicator,
    a [div] of class [ruler-indicator] with a [span] in it, the last child
    of the container, and two listeners on the canvas, two new function
    objects; a pointer move over the canvas puts the indicator at the
    distance of the pointer and writes its coordinate, both as [getPos]
    gives them; leaving the canvas takes the indicator out of the
    container and the two listeners off the canvas, which are then as
    they were before, while the builder still refers to the indicator it
    has removed. *)
Theorem indicator_life (w : World) (cv k : nat) (e : MouseEvent) :
  canvas (this w) = Some cv →
  is_Some (heap w !! el (this w)) → is_Some (heap w !! cv) →
  cv ≠ el (this w) →
  children_exist (el (this w)) w →
  listeners_made cv w →
  let i := fresh (dom (heap w)) in
  let v := fresh (dom (<[i:=new_node "div"]> (heap w))) in
  let fn := next_fn w in
  ∃ w1 w2 w3 pos,
    call (bound m_constructIndicator k) cv e w = Ok tt w1
    ∧ indicator (this w1) = Some i
    ∧ parentNode (Dom.node i w1) = Some (el (this w))
    ∧ childNodes (Dom.node (el (this w)) w1)
      = childNodes (Dom.node (el (this w)) w) ++ [i]
    ∧ listeners (Dom.node cv w1)
      = listeners (Dom.node cv w)
        ++ [("mousemove", indicator_move fn i v);
            ("mouseout", indicator_out fn i v cv)]
    ∧ RulerBuilder.getPos e w = Ok pos w
    ∧ call (indicator_move fn i v) cv e w1 = Ok tt w2
    ∧ style_left (Dom.node i w2) = pixelize (RulerBuilder.distance pos)
    ∧ content (Dom.node v w2) = text (RulerBuilder.coor pos)
    ∧ call (indicator_out fn i v cv) cv e w2 = Ok tt w3
    ∧ parentNode (Dom.node i w3) = None
    ∧ Dom.node (el (this w)) w3 = Dom.node (el (this w)) w
    ∧ Dom.node cv w3 = Dom.node cv w
    ∧ indicator (this w3) = Some i.
Proof.
  intros Hc Hel Hcv Hce Hch Hls i v fn.
  destruct (constructIndicator_eval w cv Hc Hel Hcv Hce)
    as (w1 & Hrun & Ht & Hl & _ & _ & Hni & Hnv & Hne & Hnc & _
        & Hiv & Hic & Hie & Hvc & Hve & Hfi & Hfv).
  fold i v fn in Hrun, Ht, Hni, Hnv, Hne, Hnc, Hiv, Hic, Hie, Hvc, Hve, Hfi, Hfv.
  assert (Hmm : ("mousemove", indicator_move fn i v) ∉ listeners (Dom.node cv w)).
  { intros Hin. specialize (Hls _ fn Hin eq_refl). unfold fn in Hls. lia. }
  assert (Hmo : ("mouseout", indicator_out fn i v cv) ∉ listeners (Dom.node cv w)).
  { intros Hin. specialize (Hls _ fn Hin eq_refl). unfold fn in Hls. lia. }
  assert (Hichild : i ∉ childNodes (Dom.node (el (this w)) w)).
  { intros Hin. apply Hch in Hin. rewrite Hfi in Hin. now destruct Hin. }
  pose proof (getPos_eval e w) as Hpos.
  match type of Hpos with _ = Ok ?p _ => set (pos1 := p) in * end.
  assert (Hpos1 : RulerBuilder.getPos e w1 = Ok pos1 w1).
  { rewrite getPos_eval. unfold pos1, devicePos. rewrite Ht, Hl. this_simpl.
    rewrite Hne. reflexivity. }
  destruct (indicator_move_eval fn i v cv e w1 pos1 Hpos1 Hiv)
    as (w2 & Hmove & Hi2 & Hv2 & Hj2 & Ht2).
  assert (Hp2 : parentNode (Dom.node i w2) = Some (el (this w))).
  { rewrite Hi2, Hni. reflexivity. }
  destruct (indicator_out_eval fn i v cv cv (el (this w)) e w2 Hp2 Hie Hic
              (not_eq_sym Hce))
    as (w3 & Hout & Hi3 & He3 & Hc3 & Ht3).
  exists w1, w2, w3, pos1.
  split; [exact Hrun|].
  split; [now rewrite Ht|].
  split; [now rewrite Hni|].
  split; [now rewrite Hne|].
  split.
  { rewrite Hnc. cbn [listeners with_listeners].
    rewrite (add_listener_new _ _ Hmm).
    rewrite add_listener_new.
    - now rewrite <- app_assoc.
    - rewrite not_elem_of_app. split; [exact Hmo|].
      apply not_elem_of_singleton_listener. discriminate. }
  split; [exact Hpos|].
  split; [exact Hmove|].
  split; [now rewrite Hi2|].
  split; [now rewrite Hv2|].
  split; [exact Hout|].
  split; [now rewrite Hi3|].
  split.
  { rewrite He3, (Hj2 _ (not_eq_sym Hie) (not_eq_sym Hve)), Hne.
    now apply children_restored. }
  split.
  { rewrite Hc3, (Hj2 _ (not_eq_sym Hic) (not_eq_sym Hvc)), Hnc.
    apply listeners_restored; [exact Hmm | exact Hmo | discriminate]. }
  now rewrite Ht3, Ht2, Ht.
Qed.

Lemma page_with_ruler_wellformed :
  is_Some (heap page_with_ruler !! el (this page_with_ruler))
  ∧ is_Some (heap page_with_ruler !! 3%nat)
  ∧ 3%nat ≠ el (this page_with_ruler)
  ∧ children_exist (el (this page_with_ruler)) page_with_ruler
  ∧ listeners_made 3 page_with_ruler.
Proof.
  split; [vm_compute; eauto|]. split; [vm_compute; eauto|].
  split; [vm_compute; discriminate|]. split.
  - intros c Hc.
    assert (Hl : childNodes (Dom.node (el (this page_with_ruler)) page_with_ruler)
                 = [2%nat; 3%nat]) by (vm_compute; reflexivity).
    rewrite Hl in Hc.
    repeat match goal with
           | H : _ ∈ _ :: _ |- _ => apply elem_of_cons in H as [->|H]
           | H : _ ∈ [] |- _ => apply elem_of_nil in H; destruct H
           end; vm_compute; eauto.
  - intros l fn Hl Hfn.
    assert (Hls : listeners (Dom.node 3 page_with_ruler)
                  = [("mouseenter", bound m_constructIndicator 0);
                     ("mousedown", bound m_constructGuide 1)])
      by (vm_compute; reflexivity).
    assert (Hn : next_fn page_with_ruler = 2%nat) by (vm_compute; reflexivity).
    rewrite Hls in Hl. rewrite Hn.
    repeat match goal with
           | H : _ ∈ _ :: _ |- _ => apply elem_of_cons in H as [->|H]
           | H : _ ∈ [] |- _ => apply elem_of_nil in H; destruct H
           end; cbn in Hfn; injection Hfn as <-; lia.
Qed.

Lemma indicator_life_witness :
  ∃ w1 w2 w3 pos,
    call (bound m_constructIndicator 0) 3 (mkMouseEvent 139 10) page_with_ruler
      = Ok tt w1
    ∧ RulerBuilder.getPos (mkMouseEvent 139 10) page_with_ruler
      = Ok pos page_with_ruler
    ∧ call (indicator_move 2 4 5) 3 (mkMouseEvent 139 10) w1 = Ok tt w2
    ∧ style_left (Dom.node 4 w2) = pixelize (RulerBuilder.distance pos)
    ∧ call (indicator_out 2 4 5 3) 3 (mkMouseEvent 139 10) w2 = Ok tt w3
    ∧ Dom.node 3 w3 = Dom.node 3 page_with_ruler.
Proof.
  destruct page_with_ruler_wellformed as (H1 & H2 & H3 & H4 & H5).
  destruct (indicator_life page_with_ruler 3 0 (mkMouseEvent 139 10)
              page_with_ruler_canvas H1 H2 H3 H4 H5)
    as (w1 & w2 & w3 & pos & G1 & _ & _ & _ & _ & G2 & G3 & G4 & _ & G5 & _ & _ & G6 & _).
  assert (Hi : fresh (dom (heap page_with_ruler)) = 4%nat)
    by (vm_compute; reflexivity).
  assert (Hv : fresh (dom (<[4%nat:=new_node "div"]> (heap page_with_ruler))) = 5%nat)
    by (vm_compute; reflexivity).
  assert (Hn : next_fn page_with_ruler = 2%nat) by (vm_compute; reflexivity).
  rewrite Hi in G3, G4, G5. rewrite Hv in G3, G5. rewrite Hn in G3, G5.
  exists w1, w2, w3, pos.
  split; [exact G1|]. split; [exact G2|]. split; [exact G3|].
  split; [exact G4|]. split; [exact G5 | exact G6].
Defined.


(** ** The guide that [constructGuide] makes *)

Lemma find_unique {A} (P : A → bool) (l : list A) (x : A) :
  x ∈ l → P x = true → (∀ y, y ∈ l → P y = true → y = x) →
  List.find P l = Some x.
Proof.
  induction l as [|y l IH]; intros Hin Hx Hu.
  - now apply elem_of_nil in Hin.
  - cbn [List.find]. destruct (P y) eqn:Hy.
    + f_equal. apply Hu; [left | exact Hy].
    + apply elem_of_cons in Hin as [->|Hin]; [congruence|].
      apply IH; [exact Hin | exact Hx |].
      intros z Hz. apply Hu. now right.
Qed.

Lemma find_none {A} (P : A → bool) (l : list A) :
  (∀ y, P y = false) → List.find P l = None.
Proof.
  intros H. induction l as [|y l IH]; [reflexivity|].
  cbn [List.find]. now rewrite H.
Qed.

Lemma children_in_descendants (fuel : nat) (h : gmap nat Node) (ids : list nat) (j : nat) :
  j ∈ ids → j ∈ Dom.descendants (S fuel) h ids.
Proof.
  intros Hj. cbn [Dom.descendants].
  apply list_elem_of_In, in_flat_map. exists j.
  split; [now apply list_elem_of_In | now left].
Qed.

(** A class carried by one node only, a child of [i], is found there. *)
Lemma select_found (i wp : nat) (c : string) (w : World) :
  is_Some (heap w !! wp) →
  wp ∈ childNodes (Dom.node i w) →
  c ∈ classes (Dom.node wp w) →
  (∀ j, j ≠ wp → c ∉ classes (Dom.node j w)) →
  Dom.select i c w = Some wp.
Proof.
  intros [n Hn] Hch Hc Hu. unfold Dom.select.
  destruct (size (heap w)) as [|fuel] eqn:Hs.
  { apply map_size_empty_iff in Hs. rewrite Hs in Hn. discriminate Hn. }
  apply find_unique.
  - now apply children_in_descendants.
  - now apply bool_decide_eq_true.
  - intros j _ Hj. apply bool_decide_eq_true in Hj.
    destruct (decide (j = wp)) as [->|Hne]; [reflexivity|].
    now destruct (Hu j Hne).
Qed.

(** A class that no node carries is not found. *)
Lemma select_none (i : nat) (c : string) (w : World) :
  (∀ j, c ∉ classes (Dom.node j w)) → Dom.select i c w = None.
Proof.
  intros H. unfold Dom.select. apply find_none.
  intros j. now apply bool_decide_eq_false.
Qed.

(** [getPos] reads the builder, the layout and the parent of the
    container, and nothing else. *)
Lemma getPos_frame (e : MouseEvent) (w w' : World) (pos : RulerBuilder.Pos) :
  this w' = this w → layout w' = layout w →
  parentNode (Dom.node (el (this w)) w') = parentNode (Dom.node (el (this w)) w) →
  RulerBuilder.getPos e w = Ok pos w →
  RulerBuilder.getPos e w' = Ok pos w'.
Proof.
  intros Ht Hl Hp. rewrite !getPos_eval. intros Hpos. injection Hpos as <-.
  unfold devicePos. rewrite Ht, Hl, Hp. reflexivity.
Qed.

Lemma guide_classes :
  "lines-wrapper" ∉ Dom.add_class "ruler-line" [].
Proof.
  intros H. apply elem_of_add_class in H as [H|H]; [discriminate H|].
  now apply elem_of_nil in H.
Qed.

(** What [constructGuide] builds when the container has its wrapper of
    guides. *)
Lemma constructGuide_eval_found (e : MouseEvent) (w : World) (wp : nat)
    (pos : RulerBuilder.Pos) :
  RulerBuilder.getPos e w = Ok pos w →
  is_Some (heap w !! el (this w)) →
  is_Some (heap w !! wp) →
  wp ∈ childNodes (Dom.node (el (this w)) w) →
  "lines-wrapper" ∈ classes (Dom.node wp w) →
  (∀ j, j ≠ wp → "lines-wrapper" ∉ classes (Dom.node j w)) →
  let g := fresh (dom (heap w)) in
  let placed := if LayoutDirection_eqb (direction (options (this w))) TB
                then with_left (pixelize (RulerBuilder.distance pos))
                else with_top (pixelize (RulerBuilder.distance pos)) in
  ∃ w1,
    RulerBuilder.constructGuide e w = Ok tt w1
    ∧ this w1 = this w
    ∧ onmousemove w1 = onmousemove w
    ∧ layout w1 = layout w
    ∧ next_fn w1 = next_fn w
    ∧ Dom.node g w1
      = with_parentNode (Some wp)
          (with_content (line_value (RulerBuilder.coor pos))
             (placed
                (with_classes (fun _ => ["ruler-line"])
                   (with_title "双击删除参考线" (new_node "div")))))
    ∧ Dom.node wp w1 = with_childNodes (fun cs => cs ++ [g]) (Dom.node wp w)
    ∧ (∀ j, j ≠ g → j ≠ wp → heap w1 !! j = heap w !! j)
    ∧ heap w !! g = None.
Proof.
  intros Hpos Hel Hwp Hch Hcl Hu g placed.
  pose proof (fresh_ne w _ Hel) as Hge. pose proof (fresh_ne w _ Hwp) as Hgw.
  pose proof (fresh_None w) as Hng. fold g in Hge, Hgw, Hng.
  unfold RulerBuilder.constructGuide.
  step. step. fold g. step. step.
  erewrite bind_ok
    by (apply (getPos_frame e w);
        [reflexivity | reflexivity | now node_simpl | exact Hpos]).
  assert (Hplace : ∀ w0,
    (if LayoutDirection_eqb (direction (options (this w))) TB
     then Dom.update g (with_left (pixelize (RulerBuilder.distance pos)))
     else Dom.update g (with_top (pixelize (RulerBuilder.distance pos)))) w0
    = Ok tt (with_heap (insert g (placed (Dom.node g w0))) w0)).
  { intros w0. unfold placed. now destruct (LayoutDirection_eqb _ _). }
  erewrite bind_ok by apply Hplace.
  node_simpl. rewrite ?with_heap_insert_insert.
  step.
  match goal with
  | |- context [Dom.querySelector ?i ?c] =>
      match goal with
      | |- context [bind (Dom.querySelector i c) ?k ?w0] =>
          assert (Hsel : Dom.select i c w0 = Some wp)
      end
  end.
  { apply select_found.
    - this_simpl. rewrite lookup_insert_ne by congruence. exact Hwp.
    - now node_simpl.
    - now node_simpl.
    - intros j Hj. destruct (decide (j = g)) as [->|Hjg].
      + node_simpl. unfold placed.
        destruct (LayoutDirection_eqb _ _); exact guide_classes.
      + node_simpl. now apply Hu. }
  erewrite bind_ok by (unfold Dom.querySelector, gets; rewrite Hsel; reflexivity).
  step.
  unfold Dom.appendChild, Dom.remove.
  step.
  match goal with
  | |- context [parentNode ?n] =>
      assert (Hpn : parentNode n = None)
        by (unfold placed; now destruct (LayoutDirection_eqb _ _))
  end.
  rewrite Hpn.
  step. step.
  eexists. split; [reflexivity|]. this_simpl.
  split; [reflexivity|]. split; [reflexivity|]. split; [reflexivity|].
  split; [reflexivity|].
  split; [now node_simpl|].
  split; [now node_simpl|].
  split; [|exact Hng].
  intros j H1 H2. now rewrite !lookup_insert_ne by congruence.
Qed.

Lemma fresh_insert_any (h : gmap nat Node) (i : nat) (n n' : Node) :
  fresh (dom (<[i:=n]> h)) = fresh (dom (<[i:=n']> h)).
Proof. now rewrite !dom_insert_L. Qed.

(** What [constructGuide] builds when no node is a wrapper of guides:
    the wrapper as well. *)
Lemma constructGuide_eval_new (e : MouseEvent) (w : World) (pos : RulerBuilder.Pos) :
  RulerBuilder.getPos e w = Ok pos w →
  is_Some (heap w !! el (this w)) →
  (∀ j, "lines-wrapper" ∉ classes (Dom.node j w)) →
  let g := fresh (dom (heap w)) in
  let wp := fresh (dom (<[g:=new_node "div"]> (heap w))) in
  let placed := if LayoutDirection_eqb (direction (options (this w))) TB
                then with_left (pixelize (RulerBuilder.distance pos))
                else with_top (pixelize (RulerBuilder.distance pos)) in
  ∃ w1,
    RulerBuilder.constructGuide e w = Ok tt w1
    ∧ this w1 = this w
    ∧ onmousemove w1 = onmousemove w
    ∧ layout w1 = layout w
    ∧ next_fn w1 = next_fn w
    ∧ Dom.node g w1
      = with_parentNode (Some wp)
          (with_content (line_value (RulerBuilder.coor pos))
             (placed
                (with_classes (fun _ => ["ruler-line"])
                   (with_title "双击删除参考线" (new_node "div")))))
    ∧ Dom.node wp w1
      = with_childNodes (fun _ => [g])
          (with_parentNode (Some (el (this w)))
             (with_classes (fun _ => ["lines-wrapper"]) (new_node "div")))
    ∧ Dom.node (el (this w)) w1
      = with_childNodes (fun cs => cs ++ [wp]) (Dom.node (el (this w)) w)
    ∧ (∀ j, j ≠ g → j ≠ wp → j ≠ el (this w) → heap w1 !! j = heap w !! j)
    ∧ is_Some (heap w1 !! el (this w)) ∧ is_Some (heap w1 !! wp)
    ∧ is_Some (heap w1 !! g)
    ∧ g ≠ wp ∧ g ≠ el (this w) ∧ wp ≠ el (this w)
    ∧ heap w !! g = None ∧ heap w !! wp = None.
Proof.
  intros Hpos Hel Hu g wp placed.
  pose proof (fresh_ne w _ Hel) as Hge.
  pose proof (fresh_None w) as Hng. fold g in Hge, Hng.
  assert (Hwg : wp ≠ g) by (apply fresh_insert_ne; now right).
  assert (Hwe : wp ≠ el (this w)) by (apply fresh_insert_ne; now left).
  assert (Hnw : heap w !! wp = None).
  { destruct (heap w !! wp) eqn:E; [|reflexivity].
    exfalso. apply (fresh_insert_ne (heap w) g wp (new_node "div")); [|reflexivity].
    left. rewrite E. eauto. }
  unfold RulerBuilder.constructGuide.
  step. step. fold g. step. step.
  erewrite bind_ok
    by (apply (getPos_frame e w);
        [reflexivity | reflexivity | now node_simpl | exact Hpos]).
  assert (Hplace : ∀ w0,
    (if LayoutDirection_eqb (direction (options (this w))) TB
     then Dom.update g (with_left (pixelize (RulerBuilder.distance pos)))
     else Dom.update g (with_top (pixelize (RulerBuilder.distance pos)))) w0
    = Ok tt (with_heap (insert g (placed (Dom.node g w0))) w0)).
  { intros w0. unfold placed. now destruct (LayoutDirection_eqb _ _). }
  erewrite bind_ok by apply Hplace.
  node_simpl. rewrite ?with_heap_insert_insert.
  step.
  match goal with
  | |- context [Dom.querySelector ?i ?c] =>
      match goal with
      | |- context [bind (Dom.querySelector i c) ?k ?w0] =>
          assert (Hsel : Dom.select i c w0 = None)
      end
  end.
  { apply select_none. intros j. destruct (decide (j = g)) as [->|Hjg].
    - node_simpl. unfold placed.
      destruct (LayoutDirection_eqb _ _); exact guide_classes.
    - node_simpl. apply Hu. }
  erewrite bind_ok by (unfold Dom.querySelector, gets; rewrite Hsel; reflexivity).
  cbv iota. step.
  match goal with
  | |- context [fresh (dom (<[g:=?n]> (heap w)))] =>
      rewrite (fresh_insert_any (heap w) g n (new_node "div"))
  end.
  fold wp.
  step.
  unfold Dom.appendChild, Dom.remove.
  step. read_field parentNode. cbv iota.
  step. step. step. step. step.
  match goal with
  | |- context [parentNode ?n] =>
      assert (Hpn : parentNode n = None)
        by (unfold placed; now destruct (LayoutDirection_eqb _ _))
  end.
  rewrite Hpn.
  step. step.
  eexists. split; [reflexivity|]. this_simpl.
  split; [reflexivity|]. split; [reflexivity|]. split; [reflexivity|].
  split; [reflexivity|].
  split; [now node_simpl|].
  split; [now node_simpl|].
  split; [now node_simpl|].
  split.
  { intros j H1 H2 H3. now rewrite !lookup_insert_ne by congruence. }
  split.
  { rewrite !lookup_insert_ne by congruence. rewrite lookup_insert_eq. eauto. }
  split.
  { rewrite lookup_insert_ne by congruence. rewrite lookup_insert_eq. eauto. }
  split; [rewrite lookup_insert_eq; eauto|].
  repeat split; congruence.
Qed.

Lemma node_of_heap (j : nat) (w w' : World) :
  heap w' !! j = heap w !! j → Dom.node j w' = Dom.node j w.
Proof. intros H. unfold Dom.node. now rewrite H. Qed.

(** X15.  The guide of a pointer-down.  On a page that has no wrapper of
    guides yet, [constructGuide] makes the wrapper, a [div] of class
    [lines-wrapper] that becomes the last child of the container, and in
    it the guide: a [div] of class [ruler-line] placed at the distance of
    the pointer, on the axis of the ruler, and labelled with its
    coordinate, both as [getPos] gives them.  The guide gets no listener
    and no [GuideLine] object, and nothing is dragged.  The next
    pointer-down finds the wrapper and puts its guide there, after the
    first. *)
Theorem constructGuide_places_the_guide (e e' : MouseEvent) (w : World) :
  is_Some (heap w !! el (this w)) →
  (∀ j, "lines-wrapper" ∉ classes (Dom.node j w)) →
  let c := el (this w) in
  let g := fresh (dom (heap w)) in
  let wp := fresh (dom (<[g:=new_node "div"]> (heap w))) in
  let tb := LayoutDirection_eqb (direction (options (this w))) TB in
  ∃ pos pos' w1 w2 g',
    RulerBuilder.getPos e w = Ok pos w
    ∧ RulerBuilder.constructGuide e w = Ok tt w1
    ∧ classes (Dom.node g w1) = ["ruler-line"]
    ∧ (if tb then style_left (Dom.node g w1) else style_top (Dom.node g w1))
      = pixelize (RulerBuilder.distance pos)
    ∧ (if tb then style_top (Dom.node g w1) else style_left (Dom.node g w1))
      = Js.unset
    ∧ content (Dom.node g w1) = line_value (RulerBuilder.coor pos)
    ∧ listeners (Dom.node g w1) = []
    ∧ parentNode (Dom.node g w1) = Some wp
    ∧ classes (Dom.node wp w1) = ["lines-wrapper"]
    ∧ parentNode (Dom.node wp w1) = Some c
    ∧ childNodes (Dom.node wp w1) = [g]
    ∧ childNodes (Dom.node c w1) = childNodes (Dom.node c w) ++ [wp]
    ∧ this w1 = this w
    ∧ onmousemove w1 = onmousemove w
    ∧ RulerBuilder.getPos e' w = Ok pos' w
    ∧ RulerBuilder.constructGuide e' w1 = Ok tt w2
    ∧ g' ≠ g
    ∧ content (Dom.node g' w2) = line_value (RulerBuilder.coor pos')
    ∧ parentNode (Dom.node g' w2) = Some wp
    ∧ childNodes (Dom.node wp w2) = [g; g']
    ∧ childNodes (Dom.node c w2) = childNodes (Dom.node c w) ++ [wp].
Proof.
  intros Hel Hu c g wp tb.
  pose proof (getPos_eval e w) as Hpos.
  match type of Hpos with _ = Ok ?p _ => set (pos := p) in * end.
  pose proof (getPos_eval e' w) as Hpos'.
  match type of Hpos' with _ = Ok ?p _ => set (pos' := p) in * end.
  destruct (constructGuide_eval_new e w pos Hpos Hel Hu)
    as (w1 & Hrun & Ht & Hm & Hl & _ & Hg & Hw & He & Hj & Hse & Hsw & Hsg
        & Hgw & Hge & Hwe & _ & _).
  fold c g wp tb in Hrun, Hg, Hw, He, Hj, Hse, Hsw, Hsg, Hgw, Hge, Hwe.
  assert (Hpos1 : RulerBuilder.getPos e' w1 = Ok pos' w1).
  { apply (getPos_frame e' w); [exact Ht | exact Hl | | exact Hpos'].
    fold c. now rewrite He. }
  assert (Hgcl : classes (Dom.node g w1) = ["ruler-line"]).
  { rewrite Hg. now destruct tb. }
  destruct (constructGuide_eval_found e' w1 wp pos' Hpos1) as
    (w2 & Hrun2 & _ & _ & _ & _ & Hg2 & Hw2 & Hj2 & Hn2).
  { rewrite Ht. exact Hse. }
  { exact Hsw. }
  { rewrite Ht. fold c. rewrite He. cbn [childNodes with_childNodes].
    apply elem_of_app. right. now left. }
  { rewrite Hw. now left. }
  { intros j Hjw. destruct (decide (j = g)) as [->|Hjg].
    - rewrite Hgcl. intros H. apply elem_of_cons in H as [H|H]; [discriminate H|].
      now apply elem_of_nil in H.
    - destruct (decide (j = c)) as [->|Hjc].
      + rewrite He. apply Hu.
      + rewrite (node_of_heap j w w1) by now apply Hj. apply Hu. }
  set (g' := fresh (dom (heap w1))) in *.
  assert (Hg'g : g' ≠ g) by (apply fresh_ne; exact Hsg).
  assert (Hg'c : g' ≠ c) by (apply fresh_ne; exact Hse).
  assert (Hg'w : g' ≠ wp) by (apply fresh_ne; exact Hsw).
  exists pos, pos', w1, w2, g'.
  split; [exact Hpos|]. split; [exact Hrun|].
  split; [exact Hgcl|].
  split; [rewrite Hg; unfold tb; now destruct (LayoutDirection_eqb _ _)|].
  split; [rewrite Hg; unfold tb; now destruct (LayoutDirection_eqb _ _)|].
  split; [rewrite Hg; unfold tb; now destruct (LayoutDirection_eqb _ _)|].
  split; [rewrite Hg; unfold tb; now destruct (LayoutDirection_eqb _ _)|].
  split; [rewrite Hg; unfold tb; now destruct (LayoutDirection_eqb _ _)|].
  split; [now rewrite Hw|]. split; [now rewrite Hw|]. split; [now rewrite Hw|].
  split; [now rewrite He|].
  split; [exact Ht|]. split; [exact Hm|].
  split; [exact Hpos'|]. split; [exact Hrun2|].
  split; [exact Hg'g|].
  split; [now rewrite Hg2|]. split; [now rewrite Hg2|].
  split; [now rewrite Hw2, Hw|].
  rewrite (node_of_heap c w1 w2) by (apply Hj2; congruence).
  now rewrite He.
Qed.

Lemma page_no_lines_wrapper (j : nat) : "lines-wrapper" ∉ classes (Dom.node j page).
Proof.
  assert (H0 : classes (Dom.node 0 page) = []) by (vm_compute; reflexivity).
  assert (H1 : classes (Dom.node 1 page) = []) by (vm_compute; reflexivity).
  assert (H2 : classes (Dom.node 2 page) = ["ruler-wrapper"])
    by (vm_compute; reflexivity).
  destruct j as [|[|[|j]]].
  - rewrite H0. apply not_elem_of_nil.
  - rewrite H1. apply not_elem_of_nil.
  - rewrite H2. intros H. apply elem_of_cons in H as [H|H]; [discriminate H|].
    now apply elem_of_nil in H.
  - unfold Dom.node, page. cbn [heap].
    rewrite !lookup_insert_ne by lia. rewrite lookup_empty.
    apply not_elem_of_nil.
Qed.

Lemma constructGuide_places_the_guide_witness :
  is_Some (heap page !! el (this page))
  ∧ ∃ pos pos' w1 w2 g',
      RulerBuilder.getPos down page = Ok pos page
      ∧ RulerBuilder.constructGuide down page = Ok tt w1
      ∧ content (Dom.node 3 w1) = line_value (RulerBuilder.coor pos)
      ∧ RulerBuilder.getPos (mkMouseEvent 300 10) page = Ok pos' page
      ∧ RulerBuilder.constructGuide (mkMouseEvent 300 10) w1 = Ok tt w2
      ∧ childNodes (Dom.node 4 w2) = [3%nat; g'].
Proof.
  assert (Hel : is_Some (heap page !! el (this page))) by (vm_compute; eauto).
  split; [exact Hel|].
  destruct (constructGuide_places_the_guide down (mkMouseEvent 300 10) page Hel
              page_no_lines_wrapper)
    as (pos & pos' & w1 & w2 & g' & G1 & G2 & _ & _ & _ & G3 & _ & _ & _ & _ & _
        & _ & _ & _ & G4 & G5 & _ & _ & _ & G6 & _).
  assert (Hg : fresh (dom (heap page)) = 3%nat) by (vm_compute; reflexivity).
  assert (Hw : fresh (dom (<[3%nat:=new_node "div"]> (heap page))) = 4%nat)
    by (vm_compute; reflexivity).
  rewrite Hg in G3, G6. rewrite Hw in G6.
  exists pos, pos', w1, w2, g'.
  split; [exact G1|]. split; [exact G2|]. split; [exact G3|].
  split; [exact G4|]. split; [exact G5 | exact G6].
Defined.


(** ** The methods on the guides of a builder *)

Lemma forEach_display (d : string) (body : GuideLine → M unit) (gs : list GuideLine)
    (w : World) :
  (∀ g, body g = Dom.update (guideLine g) (with_display d)) →
  ∃ w',
    forEach body gs w = Ok tt w'
    ∧ this w' = this w
    ∧ onmousemove w' = onmousemove w
    ∧ next_fn w' = next_fn w
    ∧ layout w' = layout w
    ∧ ∀ j, Dom.node j w'
           = if decide (j ∈ map guideLine gs)
             then with_display d (Dom.node j w) else Dom.node j w.
Proof.
  intros Hbody. revert w. induction gs as [|g gs IH]; intros w.
  - exists w. cbn [forEach ret map].
    repeat (split; [reflexivity|]). intros j.
    case_decide as H; [now apply elem_of_nil in H | reflexivity].
  - cbn [forEach]. erewrite bind_ok by (rewrite Hbody; reflexivity).
    destruct (IH (with_heap (insert (guideLine g)
                               (with_display d (Dom.node (guideLine g) w))) w))
      as (w' & Hrun & Ht & Hm & Hn & Hl & Hj).
    exists w'. split; [exact Hrun|].
    split; [exact Ht|]. split; [exact Hm|]. split; [exact Hn|]. split; [exact Hl|].
    intros j. rewrite Hj. cbn [map].
    destruct (decide (j = guideLine g)) as [->|Hne].
    + rewrite node_insert_eq.
      rewrite (decide_True (P := guideLine g ∈ guideLine g :: map guideLine gs))
        by now left.
      now case_decide.
    + rewrite node_insert_ne by congruence.
      case_decide as H1; case_decide as H2; try reflexivity.
      * exfalso. apply H2. now right.
      * exfalso. apply elem_of_cons in H2 as [H2|H2]; [congruence | contradiction].
Qed.

(** X16.  [toggleGuide] returns for every list of guides; it sets the
    [display] of the node of every guide, to [block] or to [none], and
    changes nothing else: what a guide displayed before it was hidden is
    not kept, so that hiding and showing leaves every guide at
    [block]. *)
Theorem toggleGuide_sets_display (visible : bool) (w : World) :
  let d := if visible then "block" else "none" in
  ∃ w',
    RulerBuilder.toggleGuide visible w = Ok tt w'
    ∧ this w' = this w
    ∧ onmousemove w' = onmousemove w
    ∧ (∀ j, Dom.node j w'
            = if decide (j ∈ map guideLine (guides (this w)))
              then with_display d (Dom.node j w) else Dom.node j w)
    ∧ ∃ w'',
        RulerBuilder.toggleGuide (negb visible) w' = Ok tt w''
        ∧ ∀ g, g ∈ guides (this w) →
               style_display (Dom.node (guideLine g) w'')
               = if visible then "none" else "block".
Proof.
  intros d. unfold RulerBuilder.toggleGuide.
  erewrite bind_ok by reflexivity.
  destruct (forEach_display d
              (fun guide => if visible then GuideLine.show guide
                            else GuideLine.hide guide)
              (guides (this w)) w)
    as (w' & Hrun & Ht & Hm & _ & _ & Hj).
  { intros g. unfold d. now destruct visible. }
  exists w'. split; [exact Hrun|]. split; [exact Ht|]. split; [exact Hm|].
  split; [exact Hj|].
  erewrite bind_ok by reflexivity. rewrite Ht.
  destruct (forEach_display (if negb visible then "block" else "none")
              (fun guide => if negb visible then GuideLine.show guide
                            else GuideLine.hide guide)
              (guides (this w)) w')
    as (w'' & Hrun2 & _ & _ & _ & _ & Hj2).
  { intros g. now destruct visible. }
  exists w''. split; [exact Hrun2|].
  intros g Hg. rewrite Hj2.
  rewrite decide_True by (apply list_elem_of_fmap; now exists g).
  now destruct visible.
Qed.

Lemma destroy_keeps_this (g : GuideLine) : keeps this (GuideLine.destroy g).
Proof. keeps_tac. Qed.

Lemma forEach_destroy (gs : list GuideLine) (w : World) :
  ∃ w',
    forEach GuideLine.destroy gs w = Ok tt w'
    ∧ this w' = this w
    ∧ (gs ≠ [] → onmousemove w' = None)
    ∧ (gs = [] → w' = w).
Proof.
  revert w. induction gs as [|g gs IH]; intros w.
  - exists w. repeat split; congruence.
  - destruct (destroy_ok g w) as (w1 & Hrun & [[_ [_ Hm]] _] & _).
    pose proof (destroy_keeps_this g w) as Ht. rewrite Hrun in Ht. cbn in Ht.
    destruct (IH w1) as (w' & Hrun' & Ht' & Hm' & Hnil).
    exists w'. cbn [forEach]. rewrite (bind_ok _ _ _ _ _ Hrun).
    split; [exact Hrun'|]. split; [congruence|]. split; [|discriminate].
    intros _. destruct gs as [|g' gs'].
    + now rewrite (Hnil eq_refl).
    + now apply Hm'.
Qed.

(** X17.  [clearGuides] returns for every list of guides, destroyed or not,
    and leaves the builder without guides; as the slot of the drag handler
    is one for the whole document, clearing any guide empties it, whoever
    had filled it. *)
Theorem clearGuides_total (w : World) :
  ∃ w',
    RulerBuilder.clearGuides w = Ok tt w'
    ∧ this w' = with_guides [] (this w)
    ∧ (guides (this w) ≠ [] → onmousemove w' = None)
    ∧ RulerBuilder.clearGuides w' = Ok tt w'.
Proof.
  unfold RulerBuilder.clearGuides at 1.
  erewrite bind_ok by reflexivity.
  destruct (forEach_destroy (guides (this w)) w) as (w1 & Hrun & Ht & Hm & _).
  erewrite bind_ok by exact Hrun.
  eexists. split; [reflexivity|]. this_simpl.
  split; [now rewrite Ht|]. split; [exact Hm|].
  apply clearGuides_nothing. reflexivity.
Qed.

Lemma toggleGuide_sets_display_witness :
  let g := mkGuideLine 1 3 down (Some 2%nat) in
  let w := with_this (with_guides [g]) (world_of (page_with_guide default_options)) in
  g ∈ guides (this w)
  ∧ ∃ w' w'',
      RulerBuilder.toggleGuide true w = Ok tt w'
      ∧ RulerBuilder.toggleGuide false w' = Ok tt w''
      ∧ style_display (Dom.node 3 w'') = "none".
Proof.
  intros g w.
  assert (Hg : g ∈ guides (this w)) by (cbn; now left).
  split; [exact Hg|].
  destruct (toggleGuide_sets_display true w) as (w' & H1 & _ & _ & _ & w'' & H2 & H3).
  exists w', w''. split; [exact H1|]. split; [exact H2|].
  exact (H3 g Hg).
Defined.

Lemma clearGuides_total_witness :
  let g := mkGuideLine 1 3 down (Some 2%nat) in
  let w := with_this (with_guides [g]) (world_of (page_with_guide default_options)) in
  guides (this w) ≠ []
  ∧ ∃ w', RulerBuilder.clearGuides w = Ok tt w'
          ∧ guides (this w') = []
          ∧ onmousemove w' = None.
Proof.
  intros g w.
  assert (Hg : guides (this w) ≠ []) by (cbn; discriminate).
  split; [exact Hg|].
  destruct (clearGuides_total w) as (w' & H1 & H2 & H3 & _).
  exists w'. split; [exact H1|]. split; [now rewrite H2 | exact (H3 Hg)].
Defined.


(** ** One slot for every drag *)

(** A pointer move of a drag writes the node of the dragged guide and no
    other. *)
Lemma mousemove_frame (d : Drag) (evt : MouseEvent) (w : World) :
  ∃ w',
    GuideLine.mousemove d evt w = Ok tt w'
    ∧ ∀ j, j ≠ guideLine (d_this d) → Dom.node j w' = Dom.node j w.
Proof.
  unfold GuideLine.mousemove, GuideLine.updateToolTip.
  step. step. step.
  match goal with
  | |- context [if ?b then _ else _] => destruct b
  end;
    eexists; (split; [reflexivity | intros j Hj; node_simpl; reflexivity]).
Qed.

(** X18.  The slot of the drag handler is one for the whole document.  When a
    drag starts on a second guide while a first is being dragged, the
    handler of the second takes the place of the first: both guides carry
    the class of a drag, but the pointer moves the second only.  And
    [stopMoving] on the first, which is not the one being dragged, empties
    the slot: the second stays marked as dragged and follows the pointer
    no more. *)
Theorem drag_slot_is_shared (g1 g2 : GuideLine) (e1 e2 : MouseEvent) (w : World)
    (c1 c2 : nat) :
  dragContainer g1 = Some c1 → dragContainer g2 = Some c2 →
  guideLine g1 ≠ guideLine g2 →
  guideLine g1 ≠ g_el g2 → guideLine g2 ≠ g_el g1 →
  ∃ w1 w2 w3 d,
    GuideLine.startMoving g1 e1 w = Ok tt w1
    ∧ GuideLine.startMoving g2 e2 w1 = Ok tt w2
    ∧ onmousemove w2 = Some d ∧ d_this d = g2
    ∧ "rul_line_dragged" ∈ classes (Dom.node (guideLine g1) w2)
    ∧ "rul_line_dragged" ∈ classes (Dom.node (guideLine g2) w2)
    ∧ (∀ evt, ∃ w',
         document_mousemove evt w2 = Ok tt w'
         ∧ Dom.node (guideLine g1) w' = Dom.node (guideLine g1) w2)
    ∧ GuideLine.stopMoving g1 w2 = Ok tt w3
    ∧ onmousemove w3 = None
    ∧ "rul_line_dragged" ∈ classes (Dom.node (guideLine g2) w3)
    ∧ ("rul_line_dragged" ∉ classes (Dom.node (guideLine g1) w3))
    ∧ ∀ evts, forEach document_mousemove evts w3 = Ok tt w3.
Proof.
  intros Hc1 Hc2 H12 H1e H2e.
  destruct (startMoving_eval g1 e1 w c1 Hc1) as (w1 & Hs1 & _ & _ & _ & Hcl1 & _).
  destruct (startMoving_eval g2 e2 w1 c2 Hc2) as (w2 & Hs2 & Hd2 & _ & _ & Hcl2 & _).
  destruct (startMoving_node g2 e2 w1 c2 Hc2) as (w2' & d' & Hs2' & _ & _ & Hfr2 & _).
  assert (w2' = w2) by congruence. subst w2'.
  destruct (stopMoving_node g1 w2) as (w3 & Hs3 & Hst & Hn3 & Hfr3 & _).
  match type of Hd2 with _ = Some ?d0 => set (d := d0) in * end.
  exists w1, w2, w3, d.
  split; [exact Hs1|]. split; [exact Hs2|]. split; [exact Hd2|].
  split; [reflexivity|].
  split; [rewrite (Hfr2 _ H12 H1e); exact Hcl1|].
  split; [exact Hcl2|].
  split.
  { intros evt. destruct (mousemove_frame d evt w2) as (w' & Hrun & Hfr).
    exists w'. split.
    - now rewrite (document_mousemove_drag _ _ _ Hd2).
    - apply Hfr. exact H12. }
  split; [exact Hs3|].
  destruct Hst as (_ & (n & Hn & _ & _ & Hnd) & Hm).
  split; [exact Hm|].
  split; [rewrite (Hfr3 _ (not_eq_sym H12) H2e); exact Hcl2|].
  split.
  { unfold Dom.node. rewrite Hn. exact Hnd. }
  intros evts. now apply no_drag_moves.
Qed.

Lemma drag_slot_is_shared_witness :
  let w := world_of (RulerBuilder.constructGuide (mkMouseEvent 300 10)
                       (world_of (RulerBuilder.constructGuide down page))) in
  let g1 := mkGuideLine 1 3 down (Some 2%nat) in
  let g2 := mkGuideLine 1 5 (mkMouseEvent 300 10) (Some 2%nat) in
  ∃ w1 w2 w3 d,
    GuideLine.startMoving g1 down w = Ok tt w1
    ∧ GuideLine.startMoving g2 (mkMouseEvent 300 10) w1 = Ok tt w2
    ∧ onmousemove w2 = Some d ∧ d_this d = g2
    ∧ GuideLine.stopMoving g1 w2 = Ok tt w3
    ∧ onmousemove w3 = None
    ∧ "rul_line_dragged" ∈ classes (Dom.node 5 w3).
Proof.
  intros w g1 g2.
  destruct (drag_slot_is_shared g1 g2 down (mkMouseEvent 300 10) w 2 2
              eq_refl eq_refl)
    as (w1 & w2 & w3 & d & H1 & H2 & H3 & H4 & _ & _ & _ & H5 & H6 & H7 & _);
    try (cbn; lia).
  exists w1, w2, w3, d.
  split; [exact H1|]. split; [exact H2|]. split; [exact H3|]. split; [exact H4|].
  split; [exact H5|]. split; [exact H6 | exact H7].
Defined.

(** ** Drawing again *)

Lemma size_or_twice (old v : Js.css) :
  Js.size_or (Js.size_or old v) v = Js.size_or old v.
Proof.
  destruct v as [|q]; [reflexivity|]. cbn [Js.size_or].
  destruct (Qle_bool 0 q) eqn:E; [|reflexivity].
  cbn [Js.size_or]. rewrite ?E. reflexivity.
Qed.

Lemma resized_twice (a b : Q) (sw sh : Js.css) (p : list CtxCmd) (n : Node) :
  with_drawn p (with_size a b sw sh (with_drawn p (with_size a b sw sh n)))
  = with_drawn p (with_size a b sw sh n).
Proof.
  destruct n as [tg cs pn ch sl st w0 h0 sc sd ls ti tp ct cw chh dr].
  cbv beta iota zeta delta
    [with_drawn with_size tag classes parentNode childNodes style_left
     style_top style_width style_height style_cursor style_display listeners
     title dataset_tip content canvas_width canvas_height drawn].
  now rewrite !size_or_twice.
Qed.

Lemma setSize_keeps_layout (wd h s : Q) :
  keeps (fun w => (layout w, el (this w), canvas (this w),
                   orgPos (ruler (this w)), thickness (ruler (this w))))
    (RulerBuilder.setSize wd h s).
Proof. keeps_tac. Qed.

(** X19.  [setSize] is idempotent and [setScale] is not.  A second
    [setSize] with the same numbers leaves the builder, the canvas and
    every other node as the first did, because resizing the canvas clears
    it; a second [setScale] adds the picture of the ruler once more to
    what the canvas was told to draw. *)
Theorem setSize_idempotent_setScale_not (w : World) (c : nat) :
  canvas (this w) = Some c →
  (∀ wd h s, ∃ w1 w2,
     RulerBuilder.setSize wd h s w = Ok tt w1
     ∧ RulerBuilder.setSize wd h s w1 = Ok tt w2
     ∧ this w2 = this w1
     ∧ Dom.node c w2 = Dom.node c w1
     ∧ ∀ j, j ≠ c → heap w2 !! j = heap w1 !! j)
  ∧ (∀ s, ∃ w1 w2,
       RulerBuilder.setScale s w = Ok tt w1
       ∧ RulerBuilder.setScale s w1 = Ok tt w2
       ∧ this w2 = this w1
       ∧ drawn (Dom.node c w2)
         = drawn (Dom.node c w)
           ++ ruler_picture (ruler (this w1)) (options (this w1))
           ++ ruler_picture (ruler (this w1)) (options (this w1))).
Proof.
  intros Hc. split.
  - intros wd h s.
    destruct (setSize_eval wd h s w c Hc) as (w1 & Hrun & Ht & Hn & _).
    pose proof (setSize_keeps_layout wd h s w) as Hk.
    rewrite Hrun in Hk. cbn [world_of] in Hk.
    injection Hk as Hl He Hcv Ho Hth.
    destruct (setSize_eval wd h s w1 c) as (w2 & Hrun2 & Ht2 & Hn2 & Hj2);
      [congruence|].
    exists w1, w2. split; [exact Hrun|]. split; [exact Hrun2|].
    assert (Hopt : set_scale s (set_rulerHeight h (set_rulerWidth wd (options (this w1))))
                   = options (this w1)).
    { rewrite Ht. reflexivity. }
    rewrite Hopt in Ht2, Hn2.
    assert (Hex : Qmax (inject_Z (extent (options (this w1)) (layout w1 (el (this w1))))) wd
                  = width (ruler (this w1))).
    { rewrite Hl, He. rewrite Ht at 2. cbn [ruler with_ruler width].
      rewrite Ht. reflexivity. }
    rewrite Hex in Ht2, Hn2.
    assert (Hr : {| orgPos := orgPos (ruler (this w1));
                    thickness := thickness (ruler (this w1));
                    width := width (ruler (this w1)); height := h |}
                 = ruler (this w1)).
    { rewrite Ht. reflexivity. }
    rewrite Hr in Ht2, Hn2.
    split.
    { rewrite Ht2. rewrite Ht. reflexivity. }
    split; [|exact Hj2].
    rewrite Hn2. rewrite Hn at 2.
    assert (Hex' : width (ruler (this w1))
                   = Qmax (inject_Z (extent
                       (set_scale s (set_rulerHeight h (set_rulerWidth wd (options (this w)))))
                       (layout w (el (this w))))) wd).
    { rewrite Ht. reflexivity. }
    rewrite Hn.
    rewrite <- Hex'.
    assert (Ho' : set_scale s (set_rulerHeight h (set_rulerWidth wd (options (this w))))
                  = options (this w1)) by (rewrite Ht; reflexivity).
    rewrite Ho'.
    assert (Hr' : {| orgPos := orgPos (ruler (this w));
                     thickness := thickness (ruler (this w));
                     width := width (ruler (this w1)); height := h |}
                  = ruler (this w1)).
    { rewrite Ht. reflexivity. }
    rewrite Hr'.
    apply resized_twice.
  - intros s.
    destruct (setScale_eval s w c Hc) as (w1 & Hrun & Ht & Hn & _).
    destruct (setScale_eval s w1 c) as (w2 & Hrun2 & Ht2 & Hn2 & _).
    { rewrite Ht. exact Hc. }
    exists w1, w2. split; [exact Hrun|]. split; [exact Hrun2|].
    split.
    { rewrite Ht2, Ht. reflexivity. }
    rewrite Hn2, Hn. cbn [drawn with_drawn]. rewrite <- app_assoc.
    do 2 f_equal; rewrite Ht; reflexivity.
Qed.

Lemma setSize_idempotent_setScale_not_witness :
  canvas (this page_with_ruler) = Some 3%nat
  ∧ (∃ w1 w2,
       RulerBuilder.setSize 500 30 2 page_with_ruler = Ok tt w1
       ∧ RulerBuilder.setSize 500 30 2 w1 = Ok tt w2
       ∧ Dom.node 3 w2 = Dom.node 3 w1)
  ∧ (∃ w1 w2,
       RulerBuilder.setScale 2 page_with_ruler = Ok tt w1
       ∧ RulerBuilder.setScale 2 w1 = Ok tt w2
       ∧ this w2 = this w1).
Proof.
  split; [exact page_with_ruler_canvas|].
  destruct (setSize_idempotent_setScale_not page_with_ruler 3 page_with_ruler_canvas)
    as [Hsize Hscale].
  split.
  - destruct (Hsize 500 30 2) as (w1 & w2 & H1 & H2 & _ & H3 & _).
    exists w1, w2. split; [exact H1|]. split; [exact H2 | exact H3].
  - destruct (Hscale 2) as (w1 & w2 & H1 & H2 & H3 & _).
    exists w1, w2. split; [exact H1|]. split; [exact H2 | exact H3].
Defined.
